(** * SportVisionAI backend: the video catalog service

    A shallow embedding of [services/video_service.py], [models/video.py] and
    the analysis provider of [utils/video_utils.py], followed by the
    properties of the video lifecycle, the analysis attachment, pagination
    and the recommendation engine.

    Conventions of the embedding.
    - A [datetime] is a naive timestamp, counted in microseconds, as
      [datetime.now()] gives; a match date comes from the caller and is a
      [moment], naive or timezone-aware, and subtracting one kind from the
      other raises [TypeError].  A [timedelta] is a difference of two
      timestamps and its [.days] is the floor of that difference over one
      day, as Python normalises it.
    - A similarity score is a binary64 float, as in the source.
    - A Python [dict] is an insertion-ordered association list with unique
      keys; a [Video] object is reachable only through [videos_db], so the
      entry under its key stands for the object and an attribute assignment
      rewrites that entry in place.
    - The outside world (clock, uuid generator, file system faults, the video
      decoder) is a record of oracles carried by the state; every method of
      the service is a computation in a state-and-exception monad.
    - Inside a request [await] is sequencing.  Requests interleave only where
      a coroutine is suspended, which in the service is the sleep inside the
      processing pipeline; the lifecycle section takes the stretches between
      suspensions as its transitions.  [upload_video] as a whole is the run
      in which no other request is served during that sleep; what holds of
      an upload whatever is served meanwhile is stated on its stretches. *)

From Stdlib Require Import ZArith List String Ascii Bool Lia.
From Stdlib Require Import Permutation Sorted Floats.
Import ListNotations.

Set Warnings "-inexact-float,-register-all".
Set Implicit Arguments.

Local Open Scope string_scope.
Local Open Scope list_scope.
Local Open Scope Z_scope.

(* ================================================================== *)
(** * Python built-ins used by the service *)
(* ================================================================== *)

Module Py.

(** ** Insertion-ordered dictionaries *)

Definition dict (V : Type) : Type := list (string * V).

(** [d.get(k)] *)
Fixpoint get {V} (d : dict V) (k : string) : option V :=
  match d with
  | [] => None
  | (k', v) :: d' => if String.eqb k' k then Some v else get d' k
  end.

(** [k in d] *)
Definition contains {V} (d : dict V) (k : string) : bool :=
  match get d k with Some _ => true | None => false end.

(** [d[k] = v]: an existing key keeps its position, a new key goes last. *)
Fixpoint set {V} (d : dict V) (k : string) (v : V) : dict V :=
  match d with
  | [] => [(k, v)]
  | (k', v') :: d' =>
      if String.eqb k' k then (k', v) :: d' else (k', v') :: set d' k v
  end.

(** [del d[k]]: no entry under [k] is left. *)
Definition del {V} (d : dict V) (k : string) : dict V :=
  filter (fun entry => negb (String.eqb (fst entry) k)) d.

(** [d.values()], in insertion order *)
Definition values {V} (d : dict V) : list V := map snd d.

Definition keys {V} (d : dict V) : list string := map fst d.

(** ** Slices [l[start:stop]] with Python's index normalisation *)

Definition adjust_index (len i : Z) : Z :=
  if i <? 0 then Z.max (i + len) 0 else Z.min i len.

Definition slice {A} (l : list A) (start stop : Z) : list A :=
  let len := Z.of_nat (List.length l) in
  let lo := adjust_index len start in
  let hi := adjust_index len stop in
  if lo <? hi
  then firstn (Z.to_nat (hi - lo)) (skipn (Z.to_nat lo) l)
  else [].

(** ** [list.sort(key=..., reverse=True)]

    Python's sort is stable, and stays stable under [reverse=True]: the
    result is ordered by key, largest first, and elements whose keys
    compare equal keep their original relative order.  Only [<] on keys is
    used.  Folding from the right, the head of the input is placed in front
    of the first element that it is not smaller than. *)

Section Sort.
Variables (A K : Type) (lt : K -> K -> bool) (key : A -> K).

Fixpoint insert_desc (x : A) (l : list A) : list A :=
  match l with
  | [] => [x]
  | y :: l' =>
      if lt (key x) (key y) then y :: insert_desc x l' else x :: y :: l'
  end.

Definition sort_reverse (l : list A) : list A :=
  fold_right insert_desc [] l.
End Sort.

(** ** Strings *)

Definition char_list (s : string) : list ascii := list_ascii_of_string s.

(** [s.lower()] on the ASCII letters.  A byte outside ASCII is left as it
    is, where [str.lower] maps some characters (the Kelvin sign to [k]); the
    two agree on the strings that [is_ascii] accepts. *)
Definition lower_char (c : ascii) : ascii :=
  let n := nat_of_ascii c in
  if (Nat.leb 65 n && Nat.leb n 90)%bool then ascii_of_nat (n + 32) else c.

Definition lower (s : string) : string :=
  string_of_list_ascii (map lower_char (char_list s)).

(** [s.rfind(c)]: the last index of [c], or [-1] *)
Fixpoint rfind_from (c : ascii) (l : list ascii) (i : Z) (found : Z) : Z :=
  match l with
  | [] => found
  | x :: l' => rfind_from c l' (i + 1) (if Ascii.eqb x c then i else found)
  end.

Definition rfind (c : ascii) (s : string) : Z :=
  rfind_from c (char_list s) 0 (-1).

(** [s[i:]] and [s[:i]] for [0 <= i] *)
Definition str_from (s : string) (i : Z) : string :=
  string_of_list_ascii (skipn (Z.to_nat i) (char_list s)).

Definition str_upto (s : string) (i : Z) : string :=
  string_of_list_ascii (firstn (Z.to_nat i) (char_list s)).

(** [os.path.splitext(p)] of [posixpath]: the extension starts at the last
    dot of the last path component, unless that component has only leading
    dots before it. *)
Definition splitext (p : string) : string * string :=
  let sepIndex := rfind "/"%char p in
  let dotIndex := rfind "."%char p in
  if sepIndex <? dotIndex then
    let name := firstn (Z.to_nat (dotIndex - (sepIndex + 1)))
                       (skipn (Z.to_nat (sepIndex + 1)) (char_list p)) in
    if forallb (Ascii.eqb "."%char) name
    then (p, "")
    else (str_upto p dotIndex, str_from p dotIndex)
  else (p, "").

(** [s.rstrip(chars)] *)
Fixpoint lstrip_list (chars l : list ascii) : list ascii :=
  match l with
  | [] => []
  | c :: l' =>
      if existsb (Ascii.eqb c) chars then lstrip_list chars l' else l
  end.

Definition rstrip (s chars : string) : string :=
  string_of_list_ascii
    (rev (lstrip_list (char_list chars) (rev (char_list s)))).

(** [sep.join(l)] *)
Fixpoint join (sep : string) (l : list string) : string :=
  match l with
  | [] => ""
  | [x] => x
  | x :: l' => (x ++ sep ++ join sep l')%string
  end.

(** [x in l] for strings *)
Definition str_in (x : string) (l : list string) : bool :=
  existsb (String.eqb x) l.

(** [set(a) & set(b)], listed without repetition in the order of [a].
    Python leaves the iteration order of a set unspecified; nothing below
    depends on it beyond the order of names inside a reason string. *)
Fixpoint set_inter (a b : list string) : list string :=
  match a with
  | [] => []
  | x :: a' =>
      let rest := set_inter a' b in
      if (str_in x b && negb (str_in x rest))%bool then x :: rest else rest
  end.

(** Truth value of an [Optional[str]] and of an [Optional[List]] *)
Definition truthy_str (s : option string) : bool :=
  match s with
  | Some s' => negb (String.eqb s' "")
  | None => false
  end.

Definition truthy_list {A} (l : option (list A)) : bool :=
  match l with
  | Some (_ :: _) => true
  | _ => false
  end.

Definition opt_str_eqb (a b : option string) : bool :=
  match a, b with
  | Some x, Some y => String.eqb x y
  | None, None => true
  | _, _ => false
  end.

(** ** More strings: [split], [strip] *)

(** [s.split(sep)] for a one-character separator: the pieces between the
    separators, empty pieces included. *)
Fixpoint split_list (sep : ascii) (l : list ascii) : list (list ascii) :=
  match l with
  | [] => [[]]
  | c :: l' =>
      if Ascii.eqb c sep then [] :: split_list sep l'
      else match split_list sep l' with
           | piece :: pieces => (c :: piece) :: pieces
           | [] => [[c]]
           end
  end.

Definition split (s : string) (sep : ascii) : list string :=
  map string_of_list_ascii (split_list sep (char_list s)).

(** The ASCII characters that [str.isspace] accepts: tab, line feed,
    vertical tab, form feed, carriage return, the four separators
    [0x1c]-[0x1f], and space.  The whitespace of Unicode outside ASCII is
    not covered by byte strings. *)
Definition whitespace : list ascii :=
  map ascii_of_nat [9; 10; 11; 12; 13; 28; 29; 30; 31; 32]%nat.

(** [s.strip()] *)
Definition strip_list (l : list ascii) : list ascii :=
  rev (lstrip_list whitespace (rev (lstrip_list whitespace l))).

Definition strip (s : string) : string :=
  string_of_list_ascii (strip_list (char_list s)).

(** ** [range(start, stop, step)] for a step of at least one *)

Definition range (start stop step : Z) : list Z :=
  map (fun k => start + Z.of_nat k * step)
      (seq 0 (Z.to_nat ((stop - start + step - 1) / step))).

End Py.

(* ================================================================== *)
(** * Dates *)
(* ================================================================== *)

Definition datetime : Type := Z.
Definition timedelta : Type := Z.

Definition microseconds_per_day : Z := 86400000000.

(** A [datetime] that a caller supplies: without [tzinfo] it is naive, a
    wall-clock timestamp; with [tzinfo] it is aware, and its timestamp is
    counted on the UTC time line (the offset that a parsed date carries is
    fixed). *)
Inductive moment : Type :=
| Naive (t : datetime)
| Aware (t : datetime).

(** [a - b] on datetimes: the difference of two naive or of two aware
    datetimes; [None] when one is naive and the other aware, where Python
    raises [TypeError]. *)
Definition datetime_sub (a b : moment) : option timedelta :=
  match a, b with
  | Naive x, Naive y => Some (x - y)
  | Aware x, Aware y => Some (x - y)
  | Naive _, Aware _ | Aware _, Naive _ => None
  end.

(** [td.days]: a timedelta is normalised with [0 <= seconds < 86400], so its
    day count is the floor of the whole difference over one day. *)
Definition days (td : timedelta) : Z := td / microseconds_per_day.

(* ================================================================== *)
(** * models/video.py *)
(* ================================================================== *)

(** A JSON-like value, for the [dict] payloads. *)
Inductive json : Type :=
| JNull
| JBool (b : bool)
| JInt (n : Z)
| JFloat (x : float)
| JStr (s : string)
| JList (items : list json)
| JDict (fields : list (string * json)).

Inductive VideoStatus : Type := UPLOADING | PROCESSING | COMPLETED | FAILED.

Definition VideoStatus_eqb (a b : VideoStatus) : bool :=
  match a, b with
  | UPLOADING, UPLOADING | PROCESSING, PROCESSING
  | COMPLETED, COMPLETED | FAILED, FAILED => true
  | _, _ => false
  end.

(** The string value of each member of the enumeration *)
Definition VideoStatus_value (s : VideoStatus) : string :=
  match s with
  | UPLOADING => "uploading"
  | PROCESSING => "processing"
  | COMPLETED => "completed"
  | FAILED => "failed"
  end.

Module VideoAnalysis.
Record t : Type := make {
  id : string;
  video_id : string;
  analysis_type : string;
  result_data : json;
  confidence_score : float;
  created_at : datetime
}.
End VideoAnalysis.

Module Video.
Record t : Type := make {
  id : string;
  title : string;
  description : option string;
  file_path : string;
  file_size : Z;
  duration : option float;
  status : VideoStatus;
  sport_type : option string;
  match_date : option moment;
  teams : option (list string);
  created_at : datetime;
  updated_at : datetime;
  analyses : option (list VideoAnalysis.t)
}.

(** Attribute assignments [video.status = s], [video.updated_at = d] and
    [video.analyses = l] *)
Definition set_status (s : VideoStatus) (v : t) : t :=
  make (id v) (title v) (description v) (file_path v) (file_size v)
       (duration v) s (sport_type v) (match_date v) (teams v)
       (created_at v) (updated_at v) (analyses v).

Definition set_updated_at (d : datetime) (v : t) : t :=
  make (id v) (title v) (description v) (file_path v) (file_size v)
       (duration v) (status v) (sport_type v) (match_date v) (teams v)
       (created_at v) d (analyses v).

Definition set_analyses (l : option (list VideoAnalysis.t)) (v : t) : t :=
  make (id v) (title v) (description v) (file_path v) (file_size v)
       (duration v) (status v) (sport_type v) (match_date v) (teams v)
       (created_at v) (updated_at v) l.
End Video.

Module VideoAnalysisRequest.
Record t : Type := make {
  analysis_type : string;
  parameters : option (list (string * json))
}.
End VideoAnalysisRequest.

Module VideoRecommendation.
Record t : Type := make {
  video_id : string;
  title : string;
  similarity_score : float;
  reason : string
}.
End VideoRecommendation.

Module UploadFile.
(** The two attributes of a FastAPI [UploadFile] that the service reads;
    the content is only copied to disk. *)
Record t : Type := make {
  filename : string;
  size : Z
}.
End UploadFile.

(* ================================================================== *)
(** * The outside world and the monad of the service *)
(* ================================================================== *)

(** The exceptions that reach the callers of the service:
    [fastapi.HTTPException(status_code, detail)], and the [TypeError] of a
    datetime subtraction. *)
Inductive exn : Type :=
| HTTPException (status_code : Z) (detail : string)
| TypeError (message : string).

(** What [cv2.VideoCapture(path)] does: it raises, or yields a capture that
    is open or not. *)
Inductive capture_result : Type :=
| CaptureRaises (message : string)
| CaptureClosed
| CaptureOpened.

(** The answers of the environment.  A fault oracle gives [Some msg] when the
    call raises an [Exception] whose [str] is [msg]. *)
Record Env : Type := {
  now_at : nat -> datetime;            (* the k-th [datetime.now()] *)
  uuid_at : nat -> string;             (* the k-th [str(uuid.uuid4())] *)
  write_error : string -> option string;   (* saving the upload to a path *)
  remove_error : string -> option string;  (* [os.path.exists]/[os.remove] *)
  sleep_error : string -> option string;   (* [asyncio.sleep] for a video *)
  capture : string -> capture_result;
  isoformat : datetime -> string       (* [datetime.isoformat] *)
}.

Record World : Type := {
  env : Env;
  ticks : nat;                         (* calls of [datetime.now()] so far *)
  drawn : nat;                         (* calls of [uuid.uuid4()] so far *)
  videos_db : Py.dict Video.t;         (* [self.videos_db] *)
  analyses_db : Py.dict VideoAnalysis.t;   (* [self.analyses_db] *)
  stdout : list string                 (* lines written by [print] *)
}.

Inductive outcome (A : Type) : Type :=
| Return (a : A)
| Raise (e : exn).
Arguments Return {A} a.
Arguments Raise {A} e.

Definition M (A : Type) : Type := World -> outcome A * World.

Definition ret {A} (a : A) : M A := fun w => (Return a, w).

Definition raise {A} (e : exn) : M A := fun w => (Raise e, w).

Definition bind {A B} (c : M A) (k : A -> M B) : M B :=
  fun w =>
    match c w with
    | (Return a, w') => k a w'
    | (Raise e, w') => (Raise e, w')
    end.

Notation "x <- c1 ;; c2" := (bind c1 (fun x => c2))
  (at level 61, c1 at next level, right associativity).
Notation "c1 ;; c2" := (bind c1 (fun _ => c2))
  (at level 61, right associativity).

Definition get_world : M World := fun w => (Return w, w).

(** A computation that does not touch the world *)
Definition lift {A} (o : outcome A) : M A := fun w => (o, w).

Definition outcome_map {A B} (f : A -> B) (o : outcome A) : outcome B :=
  match o with
  | Return a => Return (f a)
  | Raise e => Raise e
  end.

Definition set_videos_db (d : Py.dict Video.t) : M unit :=
  fun w => (Return tt,
            Build_World (env w) (ticks w) (drawn w) d (analyses_db w) (stdout w)).

Definition set_analyses_db (d : Py.dict VideoAnalysis.t) : M unit :=
  fun w => (Return tt,
            Build_World (env w) (ticks w) (drawn w) (videos_db w) d (stdout w)).

(** [datetime.now()] *)
Definition datetime_now : M datetime :=
  fun w => (Return (now_at (env w) (ticks w)),
            Build_World (env w) (S (ticks w)) (drawn w)
                        (videos_db w) (analyses_db w) (stdout w)).

(** [str(uuid.uuid4())] *)
Definition uuid4 : M string :=
  fun w => (Return (uuid_at (env w) (drawn w)),
            Build_World (env w) (ticks w) (S (drawn w))
                        (videos_db w) (analyses_db w) (stdout w)).

(** [print(line)] *)
Definition print (line : string) : M unit :=
  fun w => (Return tt,
            Build_World (env w) (ticks w) (drawn w)
                        (videos_db w) (analyses_db w) (stdout w ++ [line])).

(** An attribute assignment on the [Video] object stored under [video_id]. *)
Definition assign (video_id : string) (f : Video.t -> Video.t) : M unit :=
  w <- get_world ;;
  match Py.get (videos_db w) video_id with
  | Some v => set_videos_db (Py.set (videos_db w) video_id (f v))
  | None => ret tt
  end.

(* ================================================================== *)
(** * utils/video_utils.py: the analysis provider *)
(* ================================================================== *)

Module VideoUtils.

(** [detect_goals(cap)] *)
Definition detect_goals : json :=
  JDict [ ("goals_detected", JInt 3);
          ("goal_timestamps", JList [JFloat 45.2; JFloat 67.8; JFloat 89.1]);
          ("confidence_scores", JList [JFloat 0.92; JFloat 0.88; JFloat 0.95]);
          ("scoring_team", JList [JStr "Team A"; JStr "Team B"; JStr "Team A"]) ].

(** [track_players(cap)] *)
Definition track_players : json :=
  JDict [ ("players_tracked", JInt 22);
          ("tracking_data",
            JDict [ ("player_positions", JList []);
                    ("movement_patterns", JDict []);
                    ("heat_maps", JDict []) ]);
          ("team_possession",
            JDict [ ("team_a", JFloat 0.52); ("team_b", JFloat 0.48) ]) ].

(** [analyze_tactics(cap)] *)
Definition analyze_tactics : json :=
  let event (time : float) (name team : string) : json :=
    JDict [ ("time", JFloat time); ("event", JStr name); ("team", JStr team) ] in
  let stats (possession : float) (passes shots : Z) : json :=
    JDict [ ("possession", JFloat possession);
            ("passes", JInt passes); ("shots", JInt shots) ] in
  JDict [ ("formation_detected", JStr "4-3-3");
          ("tactical_events",
            JList [ event 15.3%float "counter_attack" "Team A";
                    event 32.7%float "pressing" "Team B";
                    event 58.9%float "set_piece" "Team A" ]);
          ("possession_stats",
            JDict [ ("team_a", stats 0.52%float 423 8);
                    ("team_b", stats 0.48%float 387 6) ]) ].

(** [analyze_video_content(video_path, analysis_type)].  The whole body is
    under [try ... except Exception], and only the decoder can raise. *)
Definition analyze_video_content (video_path analysis_type : string) : M json :=
  w <- get_world ;;
  match capture (env w) video_path with
  | CaptureRaises message =>
      ret (JDict [ ("error", JStr ("영상 분석 중 오류: " ++ message)) ])
  | CaptureClosed =>
      ret (JDict [ ("error", JStr "영상을 열 수 없습니다.") ])
  | CaptureOpened =>
      now <- datetime_now ;;
      let results :=
        if String.eqb analysis_type "goal_detection" then detect_goals
        else if String.eqb analysis_type "player_tracking" then track_players
        else if String.eqb analysis_type "tactical_analysis" then analyze_tactics
        else JDict [ ("error", JStr "지원하지 않는 분석 유형입니다.") ] in
      ret (JDict [ ("analysis_type", JStr analysis_type);
                   ("timestamp", JStr (isoformat (env w) now));
                   ("results", results) ])
  end.

(** What the decoder reports about an opened video: its frame count, as
    [int(cap.get(CAP_PROP_FRAME_COUNT))], and whether the frame at a
    position can be read. *)
Record Footage : Type := {
  total_frames : Z;
  frame_read : Z -> bool
}.

Definition sports : list string :=
  ["soccer"; "basketball"; "baseball"; "tennis"; "volleyball"].

(** The positions that the sampling loop of [detect_sport_type] visits *)
Definition sample_positions (total_frames : Z) : list Z :=
  Py.range 0 (Z.min total_frames 30) (Z.max 1 (total_frames / 10)).

(** [detect_sport_type(video_path)].  [pick] is the index that
    [random.choice] draws.  The body is under [try ... except Exception],
    which prints the error and answers ["unknown"]. *)
Definition detect_sport_type (footage : Footage) (pick : nat)
    (video_path : string) : M string :=
  w <- get_world ;;
  match capture (env w) video_path with
  | CaptureRaises message =>
      print ("스포츠 종목 감지 중 오류: " ++ message) ;;
      ret "unknown"
  | CaptureClosed => ret "unknown"
  | CaptureOpened =>
      let sample_frames :=
        filter (frame_read footage) (sample_positions (total_frames footage)) in
      match sample_frames with
      | [] => ret "unknown"
      | _ :: _ => ret (nth (pick mod List.length sports) sports "unknown")
      end
  end.

End VideoUtils.

(* ================================================================== *)
(** * services/video_service.py *)
(* ================================================================== *)

Module VideoService.

Definition upload_dir : string := "uploads".

Definition allowed_extensions : list string :=
  [".mp4"; ".avi"; ".mov"; ".mkv"; ".webm"].

(** The [try: open(...); copyfileobj(...) except Exception] of the upload *)
Definition save_file (file_path : string) : M unit :=
  w <- get_world ;;
  match write_error (env w) file_path with
  | Some message =>
      raise (HTTPException 500
               ("파일 저장 중 오류가 발생했습니다: " ++ message))
  | None => ret tt
  end.

(** [await asyncio.sleep(3)]: [Some msg] when it raises. *)
Definition asyncio_sleep (video_id : string) : M (option string) :=
  w <- get_world ;;
  ret (sleep_error (env w) video_id).

Definition get_video_by_id (video_id : string) : M (option Video.t) :=
  w <- get_world ;;
  ret (Py.get (videos_db w) video_id).

(** [_process_video] in its two halves, before and after the one point
    where it is suspended ([await asyncio.sleep(3)]). *)
Definition start_processing (video_id : string) : M unit :=
  assign video_id (Video.set_status PROCESSING) ;;
  now <- datetime_now ;;
  assign video_id (Video.set_updated_at now).

Definition finish_processing (video_id : string) (slept : option string)
    : M unit :=
  match slept with
  | None =>
      assign video_id (Video.set_status COMPLETED) ;;
      now <- datetime_now ;;
      assign video_id (Video.set_updated_at now)
  | Some message =>
      assign video_id (Video.set_status FAILED) ;;
      now <- datetime_now ;;
      assign video_id (Video.set_updated_at now) ;;
      print ("영상 처리 중 오류: " ++ message)
  end.

Definition _process_video (video_id : string) : M unit :=
  video <- get_video_by_id video_id ;;
  match video with
  | None => ret tt
  | Some _ =>
      start_processing video_id ;;
      slept <- asyncio_sleep video_id ;;
      finish_processing video_id slept
  end.

(** The record built by [Video(...)] in [upload_video]; [duration] and
    [analyses] take the defaults of the model. *)
Definition new_video (video_id title : string) (description : option string)
    (file_path : string) (file_size : Z) (sport_type : option string)
    (match_date : option moment) (teams : option (list string))
    (created_at updated_at : datetime) : Video.t :=
  Video.make video_id title description file_path file_size None UPLOADING
             sport_type match_date teams created_at updated_at (Some []).

(** [upload_video] up to and including [self.videos_db[video_id] = video] *)
Definition create_video (file : UploadFile.t) (title : string)
    (description sport_type : option string) (match_date : option moment)
    (teams : option (list string)) : M Video.t :=
  let file_extension := Py.lower (snd (Py.splitext (UploadFile.filename file))) in
  if negb (Py.str_in file_extension allowed_extensions) then
    raise (HTTPException 400 "지원하지 않는 파일 형식입니다.")
  else if 100 * 1024 * 1024 <? UploadFile.size file then
    raise (HTTPException 400 "파일 크기는 100MB를 초과할 수 없습니다.")
  else
    video_id <- uuid4 ;;
    let file_path := (upload_dir ++ "/" ++ video_id ++ file_extension)%string in
    save_file file_path ;;
    created_at <- datetime_now ;;
    updated_at <- datetime_now ;;
    let video := new_video video_id title description file_path
                           (UploadFile.size file) sport_type match_date teams
                           created_at updated_at in
    w <- get_world ;;
    set_videos_db (Py.set (videos_db w) video_id video) ;;
    ret video.

(** [upload_video], run without another request being served while its
    pipeline sleeps. *)
Definition upload_video (file : UploadFile.t) (title : string)
    (description sport_type : option string) (match_date : option moment)
    (teams : option (list string)) : M Video.t :=
    video <- create_video file title description sport_type match_date teams ;;
    let video_id := Video.id video in
    _process_video video_id ;;
    (* [return video]: the object now stored under [video_id] *)
    w <- get_world ;;
    ret (match Py.get (videos_db w) video_id with
         | Some stored => stored
         | None => video
         end).

Definition get_video_history (limit offset : Z) : M (list Video.t) :=
  w <- get_world ;;
  let videos := Py.values (videos_db w) in
  let videos := Py.sort_reverse Z.ltb Video.created_at videos in
  ret (Py.slice videos offset (offset + limit)).

(** The payload that [analyze_video] stores *)
Definition placeholder_result (analysis_request : VideoAnalysisRequest.t) : json :=
  JDict [ ("analysis_type",
            JStr (VideoAnalysisRequest.analysis_type analysis_request));
          ("parameters",
            match VideoAnalysisRequest.parameters analysis_request with
            | Some (f :: fs) => JDict (f :: fs)
            | _ => JDict []
            end);
          ("results",
            JDict [ ("detected_events", JList []);
                    ("statistics", JDict []);
                    ("highlights", JList []) ]) ].

Definition analyze_video (video_id : string)
    (analysis_request : VideoAnalysisRequest.t) : M VideoAnalysis.t :=
  video <- get_video_by_id video_id ;;
  match video with
  | None => raise (HTTPException 404 "영상을 찾을 수 없습니다.")
  | Some video =>
      if negb (VideoStatus_eqb (Video.status video) COMPLETED) then
        raise (HTTPException 400 "영상 처리가 완료되지 않았습니다.")
      else
        analysis_id <- uuid4 ;;
        let result_data := placeholder_result analysis_request in
        now <- datetime_now ;;
        let analysis :=
          VideoAnalysis.make analysis_id video_id
            (VideoAnalysisRequest.analysis_type analysis_request)
            result_data 0.85%float now in
        w <- get_world ;;
        set_analyses_db (Py.set (analyses_db w) analysis_id analysis) ;;
        (if Py.truthy_list (Video.analyses video) then ret tt
         else assign video_id (Video.set_analyses (Some []))) ;;
        assign video_id
          (fun v => Video.set_analyses
                      (option_map (fun l => l ++ [analysis]) (Video.analyses v)) v) ;;
        ret analysis
  end.

Definition get_video_analyses (video_id : string) : M (list VideoAnalysis.t) :=
  video <- get_video_by_id video_id ;;
  match video with
  | None => raise (HTTPException 404 "영상을 찾을 수 없습니다.")
  | Some video =>
      ret (match Video.analyses video with
           | Some (a :: l) => a :: l
           | _ => []
           end)
  end.

(** The score and the reason that one pass of the loop body computes for
    [video] against [current_video]; the pass raises when it subtracts a
    naive match date from an aware one, or an aware one from a naive one. *)
Definition similarity (current_video video : Video.t)
    : outcome (float * string) :=
  let similarity_score := 0.0%float in
  let reason := "" in
  let '(similarity_score, reason) :=
    if (Py.truthy_str (Video.sport_type current_video)
        && Py.opt_str_eqb (Video.sport_type video)
                          (Video.sport_type current_video))%bool
    then ((similarity_score + 0.3)%float, (reason ++ "같은 스포츠 종목, ")%string)
    else (similarity_score, reason) in
  let '(similarity_score, reason) :=
    match Video.teams current_video, Video.teams video with
    | Some (c :: cs), Some (t :: ts) =>
        let common_teams := Py.set_inter (c :: cs) (t :: ts) in
        match common_teams with
        | _ :: _ =>
            ((similarity_score + 0.4)%float,
             (reason ++ "공통 팀: " ++ Py.join ", " common_teams ++ ", ")%string)
        | [] => (similarity_score, reason)
        end
    | _, _ => (similarity_score, reason)
    end in
  match Video.match_date current_video, Video.match_date video with
  | Some current_date, Some video_date =>
      match datetime_sub current_date video_date with
      | Some difference =>
          let date_diff := Z.abs (days difference) in
          if date_diff <=? 30
          then Return ((similarity_score + 0.2)%float,
                       (reason ++ "비슷한 경기 날짜, ")%string)
          else Return (similarity_score, reason)
      | None =>
          Raise (TypeError
                   "can't subtract offset-naive and offset-aware datetimes")
      end
  | _, _ => Return (similarity_score, reason)
  end.

(** One iteration of [for video in self.videos_db.values()] *)
Definition recommend_step (video_id : string) (current_video : Video.t)
    (recommendations : list VideoRecommendation.t) (video : Video.t)
    : outcome (list VideoRecommendation.t) :=
  if String.eqb (Video.id video) video_id then Return recommendations
  else
    match similarity current_video video with
    | Return (similarity_score, reason) =>
        if (0.1 <? similarity_score)%float then
          Return
            (recommendations ++
               [ VideoRecommendation.make (Video.id video) (Video.title video)
                   similarity_score (Py.rstrip reason ", ") ])
        else Return recommendations
    | Raise e => Raise e
    end.

(** The loop goes on to [video] unless an earlier iteration has raised. *)
Definition recommend_loop (video_id : string) (current_video : Video.t)
    (running : outcome (list VideoRecommendation.t)) (video : Video.t)
    : outcome (list VideoRecommendation.t) :=
  match running with
  | Return recommendations =>
      recommend_step video_id current_video recommendations video
  | Raise e => Raise e
  end.

(** The list [recommendations] when the loop ends, before it is sorted *)
Definition candidates (video_id : string) (current_video : Video.t)
    (videos : list Video.t) : outcome (list VideoRecommendation.t) :=
  fold_left (recommend_loop video_id current_video) videos (Return []).

Definition get_video_recommendations (video_id : string) (limit : Z)
    : M (list VideoRecommendation.t) :=
  current_video <- get_video_by_id video_id ;;
  match current_video with
  | None => raise (HTTPException 404 "영상을 찾을 수 없습니다.")
  | Some current_video =>
      w <- get_world ;;
      recommendations <-
        lift (candidates video_id current_video (Py.values (videos_db w))) ;;
      let recommendations :=
        Py.sort_reverse PrimFloat.ltb VideoRecommendation.similarity_score
                        recommendations in
      ret (Py.slice recommendations 0 limit)
  end.

(** The [try: if os.path.exists(p): os.remove(p) except Exception: print] of
    the deletion *)
Definition remove_file (file_path : string) : M unit :=
  w <- get_world ;;
  match remove_error (env w) file_path with
  | Some message => print ("파일 삭제 중 오류: " ++ message)
  | None => ret tt
  end.

Definition delete_video (video_id : string) : M bool :=
  video <- get_video_by_id video_id ;;
  match video with
  | None => raise (HTTPException 404 "영상을 찾을 수 없습니다.")
  | Some video =>
      remove_file (Video.file_path video) ;;
      w <- get_world ;;
      (if Py.contains (videos_db w) video_id
       then set_videos_db (Py.del (videos_db w) video_id)
       else ret tt) ;;
      ret true
  end.

End VideoService.

(* ================================================================== *)
(** * routers/video.py *)
(* ================================================================== *)

Module Router.

Section Routes.

(** [str(e)] of an exception, as the installed Starlette renders an
    [HTTPException]. *)
Variable str_exn : exn -> string.

(** [try: ... except Exception as e: raise HTTPException(500, str(e))] *)
Definition reraise_500 {A} (c : M A) : M A :=
  fun w =>
    match c w with
    | (Return a, w') => (Return a, w')
    | (Raise e, w') => (Raise (HTTPException 500 (str_exn e)), w')
    end.

(** The team list of the upload form:
    [[team.strip() for team in teams.split(",") if team.strip()]], or
    [None] when the field is absent or empty. *)
Definition parse_teams (teams : option string) : option (list string) :=
  match teams with
  | Some s =>
      if String.eqb s "" then None
      else Some (map Py.strip
                   (filter (fun team => negb (String.eqb (Py.strip team) ""))
                           (Py.split s ","%char)))
  | None => None
  end.

Definition upload_video (file : UploadFile.t) (title : string)
    (description sport_type : option string) (match_date : option moment)
    (teams : option string) : M Video.t :=
  let team_list := parse_teams teams in
  reraise_500
    (VideoService.upload_video file title description sport_type match_date
                               team_list).

Definition list_videos (sport_type status : option string) (limit offset : Z)
    : M (list Video.t) :=
  videos <- VideoService.get_video_history limit offset ;;
  let videos :=
    if Py.truthy_str sport_type
    then filter (fun v => Py.opt_str_eqb (Video.sport_type v) sport_type) videos
    else videos in
  let videos :=
    match status with
    | Some s =>
        if String.eqb s "" then videos
        else filter (fun v => String.eqb (VideoStatus_value (Video.status v)) s)
                    videos
    | None => videos
    end in
  ret videos.

Definition get_video (video_id : string) : M Video.t :=
  video <- VideoService.get_video_by_id video_id ;;
  match video with
  | None => raise (HTTPException 404 "영상을 찾을 수 없습니다.")
  | Some video => ret video
  end.

Definition analyze_video (video_id : string)
    (analysis_request : VideoAnalysisRequest.t) : M VideoAnalysis.t :=
  reraise_500 (VideoService.analyze_video video_id analysis_request).

Definition get_video_analyses (video_id : string) : M (list VideoAnalysis.t) :=
  reraise_500 (VideoService.get_video_analyses video_id).

Definition get_video_recommendations (video_id : string) (limit : Z)
    : M (list VideoRecommendation.t) :=
  reraise_500 (VideoService.get_video_recommendations video_id limit).

Definition delete_video (video_id : string) : M json :=
  reraise_500
    (success <- VideoService.delete_video video_id ;;
     if success
     then ret (JDict [("message", JStr "영상이 성공적으로 삭제되었습니다.")])
     else raise (HTTPException 500 "영상 삭제에 실패했습니다.")).

End Routes.

End Router.

(* ================================================================== *)
(** * Notions used to state the properties *)
(* ================================================================== *)

(** ** Payload structure *)

(** The structure of a payload: its nesting and its keys, every leaf value
    forgotten. *)
Fixpoint shape (j : json) : json :=
  match j with
  | JNull => JNull
  | JBool _ => JBool false
  | JInt _ => JInt 0
  | JFloat _ => JFloat 0%float
  | JStr _ => JStr ""
  | JList items => JList (map shape items)
  | JDict fields => JDict (map (fun kv => (fst kv, shape (snd kv))) fields)
  end.

(** [payload.get(key)] *)
Definition field (key : string) (j : json) : option json :=
  match j with
  | JDict fields => Py.get fields key
  | _ => None
  end.

(** A payload that reports an error: a dictionary with an ["error"] key. *)
Definition is_error_payload (j : json) : bool :=
  match field "error" j with Some _ => true | None => false end.

(** ** The three similarity factors, as the loop body tests them *)

Definition same_sport (current_video video : Video.t) : bool :=
  (Py.truthy_str (Video.sport_type current_video)
   && Py.opt_str_eqb (Video.sport_type video) (Video.sport_type current_video))%bool.

Definition common_team (current_video video : Video.t) : bool :=
  match Video.teams current_video, Video.teams video with
  | Some cs, Some ts => existsb (fun c => Py.str_in c ts) cs
  | _, _ => false
  end.

Definition close_date (current_video video : Video.t) : bool :=
  match Video.match_date current_video, Video.match_date video with
  | Some a, Some b =>
      match datetime_sub a b with
      | Some difference => Z.abs (days difference) <=? 30
      | None => false
      end
  | _, _ => false
  end.

(** The loop body cannot subtract the match dates of the two videos: both
    have one, and one is naive where the other is aware. *)
Definition date_clash (current_video video : Video.t) : bool :=
  match Video.match_date current_video, Video.match_date video with
  | Some a, Some b =>
      match datetime_sub a b with
      | Some _ => false
      | None => true
      end
  | _, _ => false
  end.

(** What the subtraction of a naive and an aware datetime raises *)
Definition naive_aware_error : exn :=
  TypeError "can't subtract offset-naive and offset-aware datetimes".

(** No video that the loop scores against the target clashes with it. *)
Definition dates_comparable (video_id : string) (current_video : Video.t)
    (videos : list Video.t) : Prop :=
  forall v, In v videos -> Video.id v <> video_id ->
            date_clash current_video v = false.

(** The additions that the loop body performs, in its order *)
Definition score_of (sport team date : bool) : float :=
  let s := 0.0%float in
  let s := if sport then (s + 0.3)%float else s in
  let s := if team then (s + 0.4)%float else s in
  let s := if date then (s + 0.2)%float else s in
  s.

(** The eight sums that [score_of] can produce *)
Definition score_values : list float :=
  [ score_of false false false; score_of false false true;
    score_of false true false; score_of false true true;
    score_of true false false; score_of true false true;
    score_of true true false; score_of true true true ].

(** The date factor as the specification words it: both dates present and
    their absolute difference at most 30 days. *)
Definition within_30_days (current_video video : Video.t) : bool :=
  match Video.match_date current_video, Video.match_date video with
  | Some a, Some b =>
      match datetime_sub a b with
      | Some difference => Z.abs difference <=? 30 * microseconds_per_day
      | None => false
      end
  | _, _ => false
  end.


(** [video.analyses or []] *)
Definition analyses_of (v : Video.t) : list VideoAnalysis.t :=
  match Video.analyses v with
  | Some l => l
  | None => []
  end.

(** The catalog in the order of [get_video_history]: newest first *)
Definition by_creation (w : World) : list Video.t :=
  Py.sort_reverse Z.ltb Video.created_at (Py.values (videos_db w)).

(** The record that [analyze_video] builds in world [w] *)
Definition new_analysis (w : World) (video_id : string)
    (analysis_request : VideoAnalysisRequest.t) : VideoAnalysis.t :=
  VideoAnalysis.make (uuid_at (env w) (drawn w)) video_id
    (VideoAnalysisRequest.analysis_type analysis_request)
    (VideoService.placeholder_result analysis_request) 0.85%float
    (now_at (env w) (ticks w)).

(** The world after [video.status = s] and
    [video.updated_at = datetime.now()] on the video stored under
    [video_id] *)
Definition transition (video_id : string) (s : VideoStatus) (w : World)
    : World :=
  Build_World (env w) (S (ticks w)) (drawn w)
    (match Py.get (videos_db w) video_id with
     | Some v =>
         Py.set (videos_db w) video_id
           (Video.set_updated_at (now_at (env w) (ticks w))
              (Video.set_status s v))
     | None => videos_db w
     end)
    (analyses_db w) (stdout w).

(** The status in which the pipeline leaves a video *)
Definition final_status (slept : option string) : VideoStatus :=
  match slept with
  | None => COMPLETED
  | Some _ => FAILED
  end.

(** An upload that passes the validation of [upload_video] *)
Definition valid_upload (file : UploadFile.t) : Prop :=
  Py.str_in (Py.lower (snd (Py.splitext (UploadFile.filename file))))
            VideoService.allowed_extensions = true /\
  UploadFile.size file <= 100 * 1024 * 1024.

(** ** Catalog invariants *)

(** Every record is stored under its own identifier. *)
Definition ids_match (w : World) : Prop :=
  forall k v, In (k, v) (videos_db w) -> Video.id v = k.

Definition monotone_clock (e : Env) : Prop :=
  forall i j : nat, (i <= j)%nat -> now_at e i <= now_at e j.

Definition timestamps_ordered (w : World) : Prop :=
  forall k v, Py.get (videos_db w) k = Some v ->
              Video.created_at v <= Video.updated_at v.

Definition updated_at_grows (w w' : World) : Prop :=
  forall k v v',
    Py.get (videos_db w) k = Some v ->
    Py.get (videos_db w') k = Some v' ->
    Video.updated_at v <= Video.updated_at v'.

(** ** The lifecycle as a transition system

    One transition is a stretch of a request that runs without being
    suspended: the creation of a record, either half of the pipeline, an
    analysis, a deletion. *)
Inductive step : World -> World -> Prop :=
| step_create file title description sport_type match_date teams w r w' :
    VideoService.create_video file title description sport_type match_date
                              teams w = (r, w') ->
    step w w'
| step_start video_id w r w' :
    VideoService.start_processing video_id w = (r, w') ->
    step w w'
| step_finish video_id slept w r w' :
    VideoService.finish_processing video_id slept w = (r, w') ->
    step w w'
| step_analyze video_id analysis_request w r w' :
    VideoService.analyze_video video_id analysis_request w = (r, w') ->
    step w w'
| step_delete video_id w r w' :
    VideoService.delete_video video_id w = (r, w') ->
    step w w'.

Inductive reachable (w0 : World) : World -> Prop :=
| reachable_start : reachable w0 w0
| reachable_step w w' : reachable w0 w -> step w w' -> reachable w0 w'.

(** Every record in the catalog was stamped by readings of the clock already
    taken, its creation no later than its last update. *)
Definition stamped (w : World) : Prop :=
  forall k v,
    Py.get (videos_db w) k = Some v ->
    exists n m : nat,
      (n <= m < ticks w)%nat /\
      Video.created_at v = now_at (env w) n /\
      Video.updated_at v = now_at (env w) m.

(** What one transition may do to the record under a key: leave its
    timestamps alone, restamp its update with a new reading, or put there a
    record stamped with new readings. *)
Definition advances (w w' : World) : Prop :=
  env w' = env w /\
  (ticks w <= ticks w')%nat /\
  forall k v',
    Py.get (videos_db w') k = Some v' ->
    (exists v,
        Py.get (videos_db w) k = Some v /\
        Video.created_at v' = Video.created_at v /\
        (Video.updated_at v' = Video.updated_at v \/
         exists m : nat,
           (ticks w <= m < ticks w')%nat /\
           Video.updated_at v' = now_at (env w) m)) \/
    (exists n m : nat,
        (ticks w <= n <= m)%nat /\ (m < ticks w')%nat /\
        Video.created_at v' = now_at (env w) n /\
        Video.updated_at v' = now_at (env w) m).

(** ** Further notions *)

(** The extension that [upload_video] checks and appends to the stored
    name *)
Definition upload_extension (file : UploadFile.t) : string :=
  Py.lower (snd (Py.splitext (UploadFile.filename file))).

(** The path under which [upload_video] saves a file in world [w] *)
Definition upload_path (w : World) (file : UploadFile.t) : string :=
  (VideoService.upload_dir ++ "/" ++ uuid_at (env w) (drawn w)
     ++ upload_extension file)%string.

(** The line that the pipeline prints when its sleep raises *)
Definition pipeline_log (slept : option string) : list string :=
  match slept with
  | None => []
  | Some message => [("영상 처리 중 오류: " ++ message)%string]
  end.

(** The exception that the service raises for an unknown video id *)
Definition not_found : exn := HTTPException 404 "영상을 찾을 수 없습니다.".

Definition strictly_increasing_clock (e : Env) : Prop :=
  forall i j : nat, (i < j)%nat -> now_at e i < now_at e j.

(** Every analysis attached to a video names that video as its owner. *)
Definition analyses_owned (w : World) : Prop :=
  forall k v a,
    Py.get (videos_db w) k = Some v ->
    In a (analyses_of v) ->
    VideoAnalysis.video_id a = k.

(** At least one similarity factor holds between two videos. *)
Definition related (current_video video : Video.t) : bool :=
  (same_sport current_video video
   || common_team current_video video
   || close_date current_video video)%bool.

(** The match dates of two videos, when both have one, differ by a whole
    number of days. *)
Definition whole_days_apart (a b : Video.t) : Prop :=
  match Video.match_date a, Video.match_date b with
  | Some x, Some y =>
      match datetime_sub x y with
      | Some difference => difference mod microseconds_per_day = 0
      | None => True
      end
  | _, _ => True
  end.

(** A string of ASCII characters only: every byte is below 128.  On such a
    string [Py.lower] is [str.lower]. *)
Definition is_ascii (s : string) : bool :=
  forallb (fun c => (nat_of_ascii c <? 128)%nat) (Py.char_list s).

(** A route answers as a service call does: it returns what the call
    returns and leaves the world as the call leaves it, and an exception [e]
    of the call leaves the route as a 500 whose detail is [str(e)]. *)
Definition answers_as {A} (str_exn : exn -> string) (route call : M A)
    (w : World) : Prop :=
  (forall a w', route w = (Return a, w') <-> call w = (Return a, w')) /\
  (forall e w',
      route w = (Raise e, w') <->
      exists e0, call w = (Raise e0, w') /\
                 e = HTTPException 500 (str_exn e0)).

(** The last character of a string, if any *)
Definition last_char (s : string) : option ascii :=
  match rev (Py.char_list s) with
  | [] => None
  | c :: _ => Some c
  end.

(* ================================================================== *)
(** * A sample catalog *)
(* ================================================================== *)

Module Sample.

Definition second : Z := 1000000.
Definition day : Z := microseconds_per_day.

(** A clock that advances one second per reading, identifiers ["a"],
    ["b"], ..., and no fault except on removing the file of ["b"]. *)
Definition environment : Env :=
  {| now_at := fun k => Z.of_nat k * second;
     uuid_at := fun k => String (ascii_of_nat (97 + k)) "";
     write_error := fun _ => None;
     remove_error := fun path =>
       if String.eqb path "uploads/b.mp4" then Some "Permission denied"
       else None;
     sleep_error := fun _ => None;
     capture := fun _ => CaptureOpened;
     isoformat := fun _ => "1970-01-01T00:00:00" |}.

Definition empty : World :=
  {| env := environment; ticks := 0; drawn := 0;
     videos_db := []; analyses_db := []; stdout := [] |}.

Definition clip : UploadFile.t := UploadFile.make "match.MP4" 1024.

Definition after (c : M Video.t) (w : World) : World := snd (c w).

(** Three uploads: two soccer matches sharing a team, 30 days and 12 hours
    apart, and a basketball game. *)
Definition catalog : World := Eval vm_compute in
  after (VideoService.upload_video clip "Final" None (Some "basketball")
           None (Some ["Bulls"; "Lakers"]))
    (after (VideoService.upload_video clip "Second leg" None (Some "soccer")
              (Some (Naive (30 * day + 12 * 3600 * second)))
              (Some ["Blue"; "Green"]))
       (after (VideoService.upload_video clip "First leg" None (Some "soccer")
                 (Some (Naive 0)) (Some ["Red"; "Blue"]))
          empty)).

(** Four soccer matches followed by a basketball game.  Against ["c"],
    ["a"] and ["b"] tie (same sport, close date), ["d"] scores less
    (sport only) and ["e"] nothing. *)
Definition league : World := Eval vm_compute in
  after (VideoService.upload_video clip "E" None (Some "basketball")
           None None)
    (after (VideoService.upload_video clip "D" None (Some "soccer")
              (Some (Naive (90 * day))) None)
       (after (VideoService.upload_video clip "C" None (Some "soccer")
                 (Some (Naive (12 * day))) None)
          (after (VideoService.upload_video clip "B" None (Some "soccer")
                    (Some (Naive (20 * day))) None)
             (after (VideoService.upload_video clip "A" None (Some "soccer")
                       (Some (Naive (10 * day))) None)
                empty)))).

(** A record just created, and the same record once the pipeline has
    started on it *)
Definition uploading : World := Eval vm_compute in
  after (VideoService.create_video clip "First leg" None (Some "soccer")
           (Some (Naive 0)) (Some ["Red"; "Blue"])) empty.

Definition processing : World := Eval vm_compute in
  snd (VideoService.start_processing "a" uploading).

Definition goal_request : VideoAnalysisRequest.t :=
  VideoAnalysisRequest.make "goal_detection" None.
Definition tracking_request : VideoAnalysisRequest.t :=
  VideoAnalysisRequest.make "player_tracking" None.
Definition unknown_request : VideoAnalysisRequest.t :=
  VideoAnalysisRequest.make "pose_estimation" None.

(** A world whose disk refuses every write *)
Definition full_disk : World :=
  {| env :=
       {| now_at := now_at environment;
          uuid_at := uuid_at environment;
          write_error := fun _ => Some "No space left on device";
          remove_error := remove_error environment;
          sleep_error := sleep_error environment;
          capture := capture environment;
          isoformat := isoformat environment |};
     ticks := 0; drawn := 0;
     videos_db := []; analyses_db := []; stdout := [] |}.

Definition notes : UploadFile.t := UploadFile.make "notes.txt" 10.
Definition huge : UploadFile.t := UploadFile.make "huge.mp4" (100 * 1024 * 1024 + 1).
Definition largest : UploadFile.t := UploadFile.make "largest.mp4" (100 * 1024 * 1024).

(** The sample catalog after one analysis of its first video *)
Definition analysed : World := Eval vm_compute in
  snd (VideoService.analyze_video "a" goal_request catalog).

(** A rendering of exceptions: ["<status>: <detail>"] for the three
    statuses that the service raises, the message for a [TypeError] *)
Definition render (e : exn) : string :=
  match e with
  | HTTPException code detail =>
      ((if Z.eqb code 404 then "404"
        else if Z.eqb code 400 then "400" else "500")
         ++ ": " ++ detail)%string
  | TypeError message => message
  end.

(** The sample catalog after the upload of a clip without any metadata *)
Definition mixed : World := Eval vm_compute in
  after (VideoService.upload_video clip "Clip" None None None None) catalog.

(** The sample catalog after the upload of a soccer match whose date carries
    a time zone, where the dates of ["a"] and ["b"] are naive *)
Definition zoned : World := Eval vm_compute in
  after (VideoService.upload_video clip "Away" None (Some "soccer")
           (Some (Aware (5 * day))) (Some ["Red"; "Green"]))
    catalog.

End Sample.

(* ================================================================== *)
(** * Facts about the Python built-ins *)
(* ================================================================== *)

Section DictFacts.
Context {V : Type}.
Implicit Types (d : Py.dict V) (k : string) (v : V).

Lemma get_set_same d k v : Py.get (Py.set d k v) k = Some v.
Proof.
  induction d as [|[k' v'] d IH]; simpl.
  - now rewrite String.eqb_refl.
  - destruct (String.eqb k' k) eqn:E; simpl; rewrite E; auto.
Qed.

Lemma get_set_other d k k' v :
  k' <> k -> Py.get (Py.set d k v) k' = Py.get d k'.
Proof.
  intros Hne. induction d as [|[k0 v0] d IH]; simpl.
  - destruct (String.eqb k k') eqn:E; auto.
    apply String.eqb_eq in E. congruence.
  - destruct (String.eqb k0 k) eqn:E; simpl.
    + apply String.eqb_eq in E. subst k0.
      destruct (String.eqb k k') eqn:E'; auto.
      apply String.eqb_eq in E'. congruence.
    + now rewrite IH.
Qed.

Lemma get_del_same d k : Py.get (Py.del d k) k = None.
Proof.
  induction d as [|[k' v'] d IH]; simpl; auto.
  destruct (String.eqb k' k) eqn:E; simpl; auto.
  now rewrite E.
Qed.

Lemma get_del_other d k k' :
  k' <> k -> Py.get (Py.del d k) k' = Py.get d k'.
Proof.
  intros Hne. induction d as [|[k0 v0] d IH]; simpl; auto.
  destruct (String.eqb k0 k) eqn:E; simpl.
  - apply String.eqb_eq in E. subst k0.
    destruct (String.eqb k k') eqn:E'; auto.
    apply String.eqb_eq in E'. congruence.
  - now rewrite IH.
Qed.

Lemma in_del d k k' v :
  In (k', v) (Py.del d k) -> k' <> k /\ In (k', v) d.
Proof.
  unfold Py.del. rewrite filter_In. simpl. intros [Hin Hk]. split; auto.
  intros ->. now rewrite String.eqb_refl in Hk.
Qed.

Lemma in_set d k v k' v' :
  In (k', v') (Py.set d k v) -> (k' = k /\ v' = v) \/ In (k', v') d.
Proof.
  induction d as [|[k0 v0] d IH]; simpl.
  - intros [H|[]]. inversion H. auto.
  - destruct (String.eqb k0 k) eqn:E; simpl.
    + apply String.eqb_eq in E. subst k0.
      intros [H|H]; [inversion H|]; auto.
    + intros [H|H]; auto. destruct (IH H); auto.
Qed.

Lemma get_in d k v : Py.get d k = Some v -> In (k, v) d.
Proof.
  induction d as [|[k' v'] d IH]; simpl; [discriminate|].
  destruct (String.eqb k' k) eqn:E; auto.
  apply String.eqb_eq in E. intros [= ->]. subst. auto.
Qed.

Lemma set_fresh d k v :
  Py.get d k = None -> Py.set d k v = d ++ [(k, v)].
Proof.
  induction d as [|[k' v'] d IH]; simpl; auto.
  destruct (String.eqb k' k); [discriminate|].
  intros H. now rewrite IH.
Qed.

Lemma in_values d v : In v (Py.values d) -> exists k, In (k, v) d.
Proof.
  unfold Py.values. rewrite in_map_iff. intros [[k v'] [Hv Hin]].
  simpl in Hv. subst. eauto.
Qed.
End DictFacts.

Section SliceFacts.
Context {A : Type}.
Implicit Types (l : list A).

Lemma slice_prefix l stop :
  0 <= stop -> Py.slice l 0 stop = firstn (Z.to_nat stop) l.
Proof.
  intros Hs. unfold Py.slice, Py.adjust_index. simpl.
  destruct (stop <? 0) eqn:E; [apply Z.ltb_lt in E; lia|].
  rewrite Z.min_l by lia.
  destruct (0 <? Z.min stop (Z.of_nat (List.length l))) eqn:E1.
  - rewrite Z.sub_0_r.
    destruct (Z.min_spec stop (Z.of_nat (List.length l))) as [[_ ->]|[Hle ->]]; auto.
    rewrite Nat2Z.id, firstn_all, firstn_all2; auto. lia.
  - apply Z.ltb_ge in E1.
    destruct (Z.min_spec stop (Z.of_nat (List.length l))) as [[_ Hm]|[_ Hm]];
      rewrite Hm in E1.
    + replace stop with 0 by lia. reflexivity.
    + destruct l; [now rewrite firstn_nil|simpl in E1; lia].
Qed.

Lemma slice_window l offset limit :
  0 <= offset -> 0 <= limit ->
  Py.slice l offset (offset + limit)
  = firstn (Z.to_nat limit) (skipn (Z.to_nat offset) l).
Proof.
  intros Ho Hl. unfold Py.slice, Py.adjust_index.
  destruct (offset <? 0) eqn:E; [apply Z.ltb_lt in E; lia|].
  destruct (offset + limit <? 0) eqn:E0; [apply Z.ltb_lt in E0; lia|].
  set (n := Z.of_nat (List.length l)).
  assert (Hlen : List.length (skipn (Z.to_nat offset) l)
                 = (List.length l - Z.to_nat offset)%nat) by apply length_skipn.
  destruct (Z.min offset n <? Z.min (offset + limit) n) eqn:E1.
  - apply Z.ltb_lt in E1.
    assert (offset < n) by lia. rewrite (Z.min_l offset) by lia.
    destruct (Z.min_spec (offset + limit) n) as [[_ ->]|[Hle ->]].
    + f_equal. lia.
    + rewrite !firstn_all2; auto; rewrite Hlen; unfold n in *; lia.
  - apply Z.ltb_ge in E1.
    destruct (Z_lt_le_dec offset n) as [Hlt|Hge].
    + assert (limit = 0) by lia. subst limit. reflexivity.
    + rewrite skipn_all2 by (unfold n in *; lia). now rewrite firstn_nil.
Qed.

Lemma slice_past_end l start stop :
  Z.of_nat (List.length l) <= start -> Py.slice l start stop = [].
Proof.
  intros Hs. unfold Py.slice, Py.adjust_index.
  set (n := Z.of_nat (List.length l)) in *.
  assert (0 <= n) by (unfold n; lia).
  destruct (start <? 0) eqn:E; [apply Z.ltb_lt in E; lia|].
  destruct (Z.min start n <? _) eqn:E1; auto.
  apply Z.ltb_lt in E1.
  destruct (stop <? 0) eqn:E2; [apply Z.ltb_lt in E2|]; lia.
Qed.

Lemma slice_backwards l start stop :
  0 <= stop <= start -> Py.slice l start stop = [].
Proof.
  intros Hs. unfold Py.slice, Py.adjust_index.
  set (n := Z.of_nat (List.length l)) in *.
  destruct (start <? 0) eqn:E; [apply Z.ltb_lt in E; lia|].
  destruct (stop <? 0) eqn:E0; [apply Z.ltb_lt in E0; lia|].
  destruct (Z.min start n <? _) eqn:E1; auto.
  apply Z.ltb_lt in E1. lia.
Qed.

Lemma slice_empty_window l start : Py.slice l start start = [].
Proof.
  unfold Py.slice. now rewrite Z.ltb_irrefl.
Qed.
End SliceFacts.

Section SortFacts.
Variables (A K : Type) (lt : K -> K -> bool) (key : A -> K).

Lemma insert_desc_perm x l :
  Permutation (Py.insert_desc lt key x l) (x :: l).
Proof.
  induction l as [|y l IH]; simpl; auto.
  destruct (lt (key x) (key y)); auto.
  rewrite IH. apply perm_swap.
Qed.

Lemma sort_reverse_perm l : Permutation (Py.sort_reverse lt key l) l.
Proof.
  induction l as [|x l IH]; simpl; auto.
  rewrite insert_desc_perm. now constructor.
Qed.

(** Stability: among the elements whose keys satisfy [P], a class none of
    which is below another keeps its order. *)
Section Stable.
Variables (P : K -> Prop) (sel : A -> bool).
Hypothesis sel_tied :
  forall a b, P (key a) -> P (key b) ->
              sel a = true -> sel b = true -> lt (key a) (key b) = false.

Lemma insert_desc_select x l :
  P (key x) -> Forall (fun y => P (key y)) l ->
  filter sel (Py.insert_desc lt key x l) = filter sel (x :: l).
Proof.
  intros Px Pl. induction Pl as [|y l Py Pl IH]; auto.
  simpl. destruct (lt (key x) (key y)) eqn:E; auto.
  simpl. rewrite IH. simpl.
  destruct (sel x) eqn:Ex; auto.
  destruct (sel y) eqn:Ey; auto.
  rewrite (sel_tied Px Py Ex Ey) in E. discriminate.
Qed.

Lemma sort_reverse_stable l :
  Forall (fun y => P (key y)) l ->
  filter sel (Py.sort_reverse lt key l) = filter sel l.
Proof.
  intros Pl. induction Pl as [|x l Px Pl IH]; auto.
  simpl. rewrite insert_desc_select; auto.
  - simpl. now rewrite IH.
  - apply Forall_forall. intros z Hz.
    apply (Permutation_in _ (sort_reverse_perm l)) in Hz.
    rewrite Forall_forall in Pl. auto.
Qed.
End Stable.

(** Order: on keys where [lt] and [le] behave as a total order. *)
Section Ordered.
Variables (P : K -> Prop) (le : K -> K -> bool).
Hypothesis lt_le : forall a b, P a -> P b -> lt a b = true -> le a b = true.
Hypothesis nlt_le : forall a b, P a -> P b -> lt a b = false -> le b a = true.
Hypothesis le_trans :
  forall a b c, P a -> P b -> P c ->
                le a b = true -> le b c = true -> le a c = true.

Lemma insert_desc_sorted x l :
  P (key x) -> Forall (fun y => P (key y)) l ->
  StronglySorted (fun a b => le (key b) (key a) = true) l ->
  StronglySorted (fun a b => le (key b) (key a) = true)
                 (Py.insert_desc lt key x l).
Proof.
  intros Px Pl Hs. induction Hs as [|y l Hs IH Hy]; simpl.
  - repeat constructor.
  - inversion Pl as [|? ? Py Pl']; subst.
    destruct (lt (key x) (key y)) eqn:E.
    + constructor; auto.
      apply Forall_forall. intros z Hz.
      apply (Permutation_in _ (insert_desc_perm x l)) in Hz.
      destruct Hz as [<-|Hz].
      * auto.
      * rewrite Forall_forall in Hy. auto.
    + constructor; [constructor; auto|].
      constructor; [auto|].
      apply Forall_forall. intros z Hz.
      rewrite Forall_forall in Hy, Pl'.
      apply le_trans with (b := key y); auto.
Qed.

Lemma sort_reverse_sorted l :
  Forall (fun y => P (key y)) l ->
  StronglySorted (fun a b => le (key b) (key a) = true)
                 (Py.sort_reverse lt key l).
Proof.
  induction l as [|x l IH]; simpl; intros Pl.
  - constructor.
  - inversion Pl; subst. apply insert_desc_sorted; auto.
    apply Forall_forall. intros z Hz.
    apply (Permutation_in _ (sort_reverse_perm l)) in Hz.
    rewrite Forall_forall in H2. auto.
Qed.
End Ordered.
End SortFacts.

(** Prefixes of a sorted list are sorted. *)
Lemma in_firstn {A} (x : A) n l : In x (firstn n l) -> In x l.
Proof.
  intros H. rewrite <- (firstn_skipn n l). apply in_or_app. now left.
Qed.


(* ================================================================== *)
(** * The service, method by method *)
(* ================================================================== *)

Create HintDb service discriminated.

#[local] Hint Unfold
  bind ret raise lift get_world set_videos_db set_analyses_db datetime_now uuid4
  print assign
  VideoService.get_video_by_id VideoService.save_file
  VideoService.asyncio_sleep VideoService.remove_file : service.

Ltac run := autounfold with service; simpl.

Lemma in_slice {A} (x : A) l start stop : In x (Py.slice l start stop) -> In x l.
Proof.
  unfold Py.slice. destruct (_ <? _); [|intros []].
  intros H. apply in_firstn in H.
  rewrite <- (firstn_skipn (Z.to_nat (Py.adjust_index (Z.of_nat (List.length l)) start)) l).
  apply in_or_app. now right.
Qed.

Lemma keys_set_present {V} (d : Py.dict V) k v v' :
  Py.get d k = Some v -> Py.keys (Py.set d k v') = Py.keys d.
Proof.
  induction d as [|[k0 v0] d IH]; simpl; [discriminate|].
  destruct (String.eqb k0 k) eqn:E; simpl; auto.
  intros H. now rewrite IH.
Qed.

Lemma get_video_history_eq limit offset w :
  VideoService.get_video_history limit offset w
  = (Return (Py.slice (by_creation w) offset (offset + limit)), w).
Proof. reflexivity. Qed.

Lemma delete_video_absent w video_id :
  Py.get (videos_db w) video_id = None ->
  VideoService.delete_video video_id w
  = (Raise (HTTPException 404 "영상을 찾을 수 없습니다."), w).
Proof.
  intros H. unfold VideoService.delete_video. run. now rewrite H.
Qed.

Lemma delete_video_present w video_id video :
  Py.get (videos_db w) video_id = Some video ->
  VideoService.delete_video video_id w
  = (Return true,
     Build_World (env w) (ticks w) (drawn w)
       (Py.del (videos_db w) video_id) (analyses_db w)
       (match remove_error (env w) (Video.file_path video) with
        | Some message => stdout w ++ ["파일 삭제 중 오류: " ++ message]%string
        | None => stdout w
        end)).
Proof.
  intros H. unfold VideoService.delete_video. run. rewrite H.
  unfold Py.contains.
  destruct (remove_error (env w) (Video.file_path video)); simpl; now rewrite H.
Qed.

Lemma set_set {V} (d : Py.dict V) k v1 v2 :
  Py.set (Py.set d k v1) k v2 = Py.set d k v2.
Proof.
  induction d as [|[k0 v0] d IH]; simpl.
  - now rewrite String.eqb_refl.
  - destruct (String.eqb k0 k) eqn:E; simpl; rewrite E; auto.
    now rewrite IH.
Qed.

Lemma analyze_video_absent w video_id request :
  Py.get (videos_db w) video_id = None ->
  VideoService.analyze_video video_id request w
  = (Raise (HTTPException 404 "영상을 찾을 수 없습니다."), w).
Proof.
  intros H. unfold VideoService.analyze_video. run. now rewrite H.
Qed.

Lemma analyze_video_not_completed w video_id request video :
  Py.get (videos_db w) video_id = Some video ->
  Video.status video <> COMPLETED ->
  VideoService.analyze_video video_id request w
  = (Raise (HTTPException 400 "영상 처리가 완료되지 않았습니다."), w).
Proof.
  intros H Hs. unfold VideoService.analyze_video. run. rewrite H.
  destruct (Video.status video); simpl; congruence.
Qed.

Lemma analyze_video_completed w video_id request video :
  Py.get (videos_db w) video_id = Some video ->
  Video.status video = COMPLETED ->
  let analysis := new_analysis w video_id request in
  VideoService.analyze_video video_id request w
  = (Return analysis,
     Build_World (env w) (S (ticks w)) (S (drawn w))
       (Py.set (videos_db w) video_id
          (Video.set_analyses (Some (analyses_of video ++ [analysis])) video))
       (Py.set (analyses_db w) (VideoAnalysis.id analysis) analysis)
       (stdout w)).
Proof.
  intros H Hs analysis. unfold VideoService.analyze_video. run.
  rewrite H, Hs. simpl. fold (new_analysis w video_id request). fold analysis.
  unfold analyses_of.
  destruct (Video.analyses video) as [[|a l]|] eqn:Ea; simpl; rewrite H; simpl;
    rewrite ?get_set_same, ?set_set; simpl; rewrite ?Ea; reflexivity.
Qed.

(** C4. [analyze_video] raises 404 (NotFound) when no video has the given
    id, raises 400 (InvalidState) when the video is not COMPLETED, and on a
    COMPLETED video returns a new analysis, appended as exactly one element to
    that video's analyses list and, its id being fresh, as exactly one entry
    to the analysis catalog. *)
Theorem analyze_video_contract w video_id request :
  (Py.get (videos_db w) video_id = None ->
   VideoService.analyze_video video_id request w
   = (Raise (HTTPException 404 "영상을 찾을 수 없습니다."), w)) /\
  (forall video,
      Py.get (videos_db w) video_id = Some video ->
      Video.status video <> COMPLETED ->
      VideoService.analyze_video video_id request w
      = (Raise (HTTPException 400 "영상 처리가 완료되지 않았습니다."), w)) /\
  (forall video,
      Py.get (videos_db w) video_id = Some video ->
      Video.status video = COMPLETED ->
      Py.get (analyses_db w) (uuid_at (env w) (drawn w)) = None ->
      exists analysis w' video',
        VideoService.analyze_video video_id request w = (Return analysis, w') /\
        VideoAnalysis.video_id analysis = video_id /\
        Py.get (videos_db w') video_id = Some video' /\
        analyses_of video' = analyses_of video ++ [analysis] /\
        analyses_db w' = analyses_db w ++ [(VideoAnalysis.id analysis, analysis)] /\
        VideoService.get_video_analyses video_id w'
        = (Return (analyses_of video ++ [analysis]), w')).
Proof.
  split; [|split].
  - apply analyze_video_absent.
  - intros video. apply analyze_video_not_completed.
  - intros video Hget Hstatus Hfresh.
    pose proof (analyze_video_completed w video_id request Hget Hstatus) as Hrun.
    simpl in Hrun.
    eexists _, _, _. split; [exact Hrun|].
    simpl. rewrite get_set_same.
    repeat split; auto.
    + now apply set_fresh.
    + unfold VideoService.get_video_analyses. run. rewrite get_set_same.
      simpl. destruct (analyses_of video ++ [new_analysis w video_id request]) eqn:E; auto.
Qed.

Lemma analyze_video_contract_witness :
  VideoService.analyze_video "z" Sample.goal_request Sample.catalog
  = (Raise (HTTPException 404 "영상을 찾을 수 없습니다."), Sample.catalog) /\
  VideoService.analyze_video "a" Sample.goal_request Sample.processing
  = (Raise (HTTPException 400 "영상 처리가 완료되지 않았습니다."), Sample.processing) /\
  exists analysis w' video',
    VideoService.analyze_video "a" Sample.goal_request Sample.catalog
    = (Return analysis, w') /\
    VideoAnalysis.video_id analysis = "a" /\
    Py.get (videos_db w') "a" = Some video' /\
    analyses_of video' = [analysis] /\
    analyses_db w' = [(VideoAnalysis.id analysis, analysis)] /\
    VideoService.get_video_analyses "a" w' = (Return [analysis], w').
Proof.
  split; [|split].
  - apply (analyze_video_contract Sample.catalog "z" Sample.goal_request).
    reflexivity.
  - destruct (analyze_video_contract Sample.processing "a" Sample.goal_request)
      as (_ & H & _).
    eapply H; [reflexivity|]. vm_compute. discriminate.
  - destruct (analyze_video_contract Sample.catalog "a" Sample.goal_request)
      as (_ & _ & H).
    specialize (H _ eq_refl eq_refl eq_refl). exact H.
Defined.

Lemma analyze_video_success w video_id request analysis w' :
  VideoService.analyze_video video_id request w = (Return analysis, w') ->
  exists video,
    Py.get (videos_db w) video_id = Some video /\
    Video.status video = COMPLETED /\
    analysis = new_analysis w video_id request /\
    videos_db w'
    = Py.set (videos_db w) video_id
        (Video.set_analyses (Some (analyses_of video ++ [analysis])) video) /\
    stdout w' = stdout w.
Proof.
  intros Hrun.
  destruct (Py.get (videos_db w) video_id) as [video|] eqn:Hget.
  - destruct (Video.status video) eqn:Hs;
      try (rewrite (analyze_video_not_completed w video_id request Hget) in Hrun;
           [discriminate|congruence]).
    rewrite (analyze_video_completed w video_id request Hget Hs) in Hrun.
    injection Hrun as <- <-. exists video. simpl. auto.
  - rewrite (analyze_video_absent w video_id request Hget) in Hrun. discriminate.
Qed.

Lemma analyze_video_failure w video_id request e w' :
  VideoService.analyze_video video_id request w = (Raise e, w') -> w' = w.
Proof.
  intros Hrun.
  destruct (Py.get (videos_db w) video_id) as [video|] eqn:Hget.
  - destruct (Video.status video) eqn:Hs;
      try (rewrite (analyze_video_not_completed w video_id request Hget)
            in Hrun by congruence;
           now injection Hrun as _ <-).
    rewrite (analyze_video_completed w video_id request Hget Hs) in Hrun.
    discriminate.
  - rewrite (analyze_video_absent w video_id request Hget) in Hrun.
    now injection Hrun as _ <-.
Qed.

(** C8. A successful [analyze_video] changes, in the video catalog, only the
    analyses list of the target video: its status, its [updated_at] and every
    other field are as before, every other video is as before, and the order
    of the catalog is as before. *)
Theorem analyze_video_frame w video_id request analysis w' :
  VideoService.analyze_video video_id request w = (Return analysis, w') ->
  exists video video',
    Py.get (videos_db w) video_id = Some video /\
    Py.get (videos_db w') video_id = Some video' /\
    Video.analyses video' = Some (analyses_of video ++ [analysis]) /\
    Video.updated_at video' = Video.updated_at video /\
    Video.status video' = Video.status video /\
    Video.created_at video' = Video.created_at video /\
    Video.id video' = Video.id video /\
    Video.title video' = Video.title video /\
    Video.description video' = Video.description video /\
    Video.file_path video' = Video.file_path video /\
    Video.file_size video' = Video.file_size video /\
    Video.duration video' = Video.duration video /\
    Video.sport_type video' = Video.sport_type video /\
    Video.match_date video' = Video.match_date video /\
    Video.teams video' = Video.teams video /\
    (forall k, k <> video_id ->
               Py.get (videos_db w') k = Py.get (videos_db w) k) /\
    Py.keys (videos_db w') = Py.keys (videos_db w).
Proof.
  intros Hrun.
  destruct (analyze_video_success _ _ _ Hrun) as (video & Hget & _ & _ & Hdb & _).
  exists video. eexists. rewrite Hdb, get_set_same.
  split; [exact Hget|]. split; [reflexivity|]. simpl.
  repeat (split; [reflexivity|]). split.
  - intros k Hk. now apply get_set_other.
  - eapply keys_set_present; eauto.
Qed.

Lemma analyze_video_frame_witness :
  exists video video',
    Py.get (videos_db Sample.catalog) "a" = Some video /\
    Py.get (videos_db (snd (VideoService.analyze_video
                              "a" Sample.goal_request Sample.catalog))) "a"
    = Some video' /\
    Video.updated_at video' = Video.updated_at video /\
    Video.status video' = Video.status video.
Proof.
  destruct (analyze_video_frame Sample.catalog "a" Sample.goal_request eq_refl)
    as (video & video' & H1 & H2 & _ & H3 & H4 & _).
  exists video, video'. auto.
Defined.

(** C10. [delete_video] raises 404 (NotFound) for an id that is not in the
    catalog and returns [True] otherwise; it never returns [False]. *)
Theorem delete_video_never_false w video_id :
  match Py.get (videos_db w) video_id with
  | None =>
      fst (VideoService.delete_video video_id w)
      = Raise (HTTPException 404 "영상을 찾을 수 없습니다.")
  | Some _ => fst (VideoService.delete_video video_id w) = Return true
  end /\
  fst (VideoService.delete_video video_id w) <> Return false.
Proof.
  destruct (Py.get (videos_db w) video_id) as [video|] eqn:Hget.
  - rewrite (delete_video_present w video_id Hget). simpl. split; congruence.
  - rewrite (delete_video_absent w video_id Hget). simpl. split; congruence.
Qed.

(** C7. Deleting an existing video succeeds and removes its record, whatever
    the removal of the backing file does: afterwards [get_video_by_id] finds
    nothing under the id, and [get_video_history] lists only records stored
    under other ids.  A failure of the file removal is printed and otherwise
    ignored. *)
Theorem delete_video_removes_record w video_id video :
  Py.get (videos_db w) video_id = Some video ->
  exists w',
    VideoService.delete_video video_id w = (Return true, w') /\
    VideoService.get_video_by_id video_id w' = (Return None, w') /\
    (forall limit offset, exists listed,
        VideoService.get_video_history limit offset w' = (Return listed, w') /\
        (forall x, In x listed ->
                   exists k, k <> video_id /\ In (k, x) (videos_db w)) /\
        (ids_match w -> Forall (fun x => Video.id x <> video_id) listed)) /\
    stdout w'
    = match remove_error (env w) (Video.file_path video) with
      | Some message => stdout w ++ ["파일 삭제 중 오류: " ++ message]%string
      | None => stdout w
      end.
Proof.
  intros Hget. eexists. split; [apply delete_video_present; eauto|].
  split; [|split].
  - unfold VideoService.get_video_by_id. run. now rewrite get_del_same.
  - intros limit offset. eexists. split; [apply get_video_history_eq|].
    assert (Hin : forall x,
               In x (Py.slice (by_creation
                         (Build_World (env w) (ticks w) (drawn w)
                            (Py.del (videos_db w) video_id) (analyses_db w)
                            (match remove_error (env w) (Video.file_path video) with
                             | Some message =>
                                 stdout w ++ ["파일 삭제 중 오류: " ++ message]%string
                             | None => stdout w
                             end)))
                       offset (offset + limit)) ->
               exists k, k <> video_id /\ In (k, x) (videos_db w)).
    { intros x Hx. apply in_slice in Hx. unfold by_creation in Hx. simpl in Hx.
      apply (Permutation_in _ (sort_reverse_perm _ _ _)) in Hx.
      apply in_values in Hx. destruct Hx as [k Hk].
      apply in_del in Hk. exists k. tauto. }
    split; auto.
    intros Hids. apply Forall_forall. intros x Hx.
    destruct (Hin x Hx) as (k & Hk & Hkx).
    rewrite (Hids _ _ Hkx). auto.
  - reflexivity.
Qed.

Lemma delete_video_removes_record_witness :
  exists w',
    VideoService.delete_video "b" Sample.catalog = (Return true, w') /\
    VideoService.get_video_by_id "b" w' = (Return None, w') /\
    stdout w' = ["파일 삭제 중 오류: Permission denied"].
Proof.
  destruct (delete_video_removes_record Sample.catalog "b" eq_refl)
    as (w' & H1 & H2 & _ & H3).
  exists w'. auto.
Defined.

Lemma StronglySorted_weaken {A} (R R' : A -> A -> Prop) l :
  (forall a b, R a b -> R' a b) -> StronglySorted R l -> StronglySorted R' l.
Proof.
  intros HR Hs. induction Hs as [|x l Hs IH Hx]; constructor; auto.
  eapply Forall_impl; [|exact Hx]. auto.
Qed.

Lemma by_creation_sorted w :
  StronglySorted (fun a b => Video.created_at b <= Video.created_at a)
                 (by_creation w).
Proof.
  unfold by_creation.
  apply StronglySorted_weaken
    with (R := fun a b => (Video.created_at b <=? Video.created_at a) = true).
  - intros a b. apply Z.leb_le.
  - apply sort_reverse_sorted with (P := fun _ => True).
    + intros a b _ _ H. apply Z.ltb_lt in H. apply Z.leb_le. lia.
    + intros a b _ _ H. apply Z.ltb_ge in H. now apply Z.leb_le.
    + intros a b c _ _ _ H1 H2. apply Z.leb_le in H1, H2. apply Z.leb_le. lia.
    + apply Forall_forall. auto.
Qed.

Lemma by_creation_stable w created :
  filter (fun v => Video.created_at v =? created) (by_creation w)
  = filter (fun v => Video.created_at v =? created) (Py.values (videos_db w)).
Proof.
  apply sort_reverse_stable with (P := fun _ => True).
  - intros a b _ _ Ha Hb. apply Z.eqb_eq in Ha, Hb. rewrite Ha, Hb.
    apply Z.ltb_irrefl.
  - apply Forall_forall. auto.
Qed.

(** C5, as the code has it.  [get_video_history] returns the Python slice
    [offset : offset + limit] of the catalog ordered by [created_at], newest
    first, records created at the same instant in catalog order.  For a
    non-negative offset and limit this is the window of positions
    [offset, offset + limit); it is empty when the offset reaches the size of
    the catalog, when the limit is zero, and when the limit is negative but
    [offset + limit] is not. *)
Theorem history_pagination w limit offset :
  exists listed,
    VideoService.get_video_history limit offset w = (Return listed, w) /\
    listed = Py.slice (by_creation w) offset (offset + limit) /\
    Permutation (by_creation w) (Py.values (videos_db w)) /\
    StronglySorted (fun a b => Video.created_at b <= Video.created_at a)
                   (by_creation w) /\
    (forall created,
        filter (fun v => Video.created_at v =? created) (by_creation w)
        = filter (fun v => Video.created_at v =? created)
                 (Py.values (videos_db w))) /\
    (0 <= offset -> 0 <= limit ->
     listed = firstn (Z.to_nat limit) (skipn (Z.to_nat offset) (by_creation w))) /\
    (Z.of_nat (List.length (videos_db w)) <= offset -> listed = []) /\
    (limit = 0 -> listed = []) /\
    (limit < 0 -> 0 <= offset + limit -> listed = []).
Proof.
  eexists. split; [apply get_video_history_eq|]. split; [reflexivity|].
  split; [apply sort_reverse_perm|].
  split; [apply by_creation_sorted|].
  split; [apply by_creation_stable|].
  split; [apply slice_window|].
  split; [|split].
  - intros H. apply slice_past_end. unfold by_creation.
    rewrite (Permutation_length (sort_reverse_perm _ _ _)).
    unfold Py.values. now rewrite length_map.
  - intros ->. rewrite Z.add_0_r. apply slice_empty_window.
  - intros H1 H2. apply slice_backwards. lia.
Qed.

Lemma history_pagination_witness :
  exists listed,
    VideoService.get_video_history 1 1 Sample.catalog = (Return listed, Sample.catalog) /\
    listed = firstn 1 (skipn 1 (by_creation Sample.catalog)) /\
    VideoService.get_video_history 2 3 Sample.catalog = (Return [], Sample.catalog) /\
    VideoService.get_video_history 0 1 Sample.catalog = (Return [], Sample.catalog) /\
    VideoService.get_video_history (-1) 2 Sample.catalog = (Return [], Sample.catalog).
Proof.
  destruct (history_pagination Sample.catalog 1 1)
    as (listed & H1 & _ & _ & _ & _ & H2 & _).
  exists listed. split; [exact H1|]. split; [apply H2; lia|].
  split; [|split].
  - destruct (history_pagination Sample.catalog 2 3)
      as (l & H3 & _ & _ & _ & _ & _ & H4 & _).
    rewrite H3, H4; [reflexivity|]. simpl. lia.
  - destruct (history_pagination Sample.catalog 0 1)
      as (l & H3 & _ & _ & _ & _ & _ & _ & H4 & _).
    rewrite H3, H4; reflexivity.
  - destruct (history_pagination Sample.catalog (-1) 2)
      as (l & H3 & _ & _ & _ & _ & _ & _ & _ & H4).
    rewrite H3, H4; [reflexivity| |]; lia.
Defined.

(** C5 as stated fails for a negative limit and for a negative offset.  On
    a catalog of three videos, [limit = -1] with [offset = 0] lists two of
    them instead of none; and [offset = -1] with [limit = 5] lists the oldest
    video alone, where the positions below [offset + limit = 4] hold all
    three. *)
Lemma history_negative_limit_counterexample :
  List.length (videos_db Sample.catalog) = 3%nat /\
  -1 <= 0 /\
  (exists x y,
      VideoService.get_video_history (-1) 0 Sample.catalog
      = (Return [x; y], Sample.catalog)) /\
  (exists x,
      VideoService.get_video_history 5 (-1) Sample.catalog
      = (Return [x], Sample.catalog) /\
      Video.id x = "a").
Proof.
  split; [reflexivity|]. split; [lia|]. split.
  - eexists _, _. reflexivity.
  - eexists. split; reflexivity.
Qed.

(* ================================================================== *)
(** * The recommendation engine *)
(* ================================================================== *)

Lemma set_inter_nonempty a b :
  match Py.set_inter a b with [] => false | _ :: _ => true end
  = existsb (fun c => Py.str_in c b) a.
Proof.
  induction a as [|x a IH]; simpl; auto.
  destruct (Py.str_in x b) eqn:Ex; simpl; auto.
  destruct (Py.str_in x (Py.set_inter a b)) eqn:Er; simpl; auto.
  destruct (Py.set_inter a b); [discriminate|reflexivity].
Qed.

Lemma no_common_with_nil a : existsb (fun c => Py.str_in c []) a = false.
Proof. induction a; auto. Qed.

(** The loop body raises exactly on a date clash; otherwise its score is the
    sum of the three factors it tests. *)
Lemma similarity_score_of current_video video :
  outcome_map fst (VideoService.similarity current_video video)
  = if date_clash current_video video then Raise naive_aware_error
    else Return (score_of (same_sport current_video video)
                          (common_team current_video video)
                          (close_date current_video video)).
Proof.
  unfold VideoService.similarity, same_sport, common_team, close_date,
    date_clash, naive_aware_error.
  destruct (Py.truthy_str (Video.sport_type current_video)
            && Py.opt_str_eqb (Video.sport_type video)
                              (Video.sport_type current_video))%bool;
    destruct (Video.teams current_video) as [[|c cs]|];
    destruct (Video.teams video) as [[|t ts]|];
    rewrite ?no_common_with_nil; rewrite <- ?set_inter_nonempty;
    try destruct (Py.set_inter (c :: cs) (t :: ts));
    destruct (Video.match_date current_video) as [[a|a]|];
    destruct (Video.match_date video) as [[b|b]|];
    cbn [datetime_sub];
    try destruct (Z.abs (days (a - b)) <=? 30); reflexivity.
Qed.

Lemma similarity_return current_video video s reason :
  VideoService.similarity current_video video = Return (s, reason) ->
  date_clash current_video video = false /\
  s = score_of (same_sport current_video video)
               (common_team current_video video)
               (close_date current_video video).
Proof.
  intros H. pose proof (similarity_score_of current_video video) as Hs.
  rewrite H in Hs. simpl in Hs.
  destruct (date_clash current_video video); [discriminate|].
  injection Hs as ->. auto.
Qed.

Lemma similarity_raise current_video video e :
  VideoService.similarity current_video video = Raise e ->
  date_clash current_video video = true /\ e = naive_aware_error.
Proof.
  intros H. pose proof (similarity_score_of current_video video) as Hs.
  rewrite H in Hs. simpl in Hs.
  destruct (date_clash current_video video); [|discriminate].
  injection Hs as ->. auto.
Qed.

Lemma score_of_values sport team date :
  In (score_of sport team date) score_values.
Proof.
  destruct sport, team, date; simpl; tauto.
Qed.

(** The float comparisons, checked on the eight reachable scores *)
Lemma on_scores2 (f : float -> float -> bool) :
  forallb (fun a => forallb (f a) score_values) score_values = true ->
  forall a b, In a score_values -> In b score_values -> f a b = true.
Proof.
  intros H a b Ha Hb.
  rewrite forallb_forall in H. specialize (H a Ha).
  rewrite forallb_forall in H. auto.
Qed.

Lemma on_scores3 (f : float -> float -> float -> bool) :
  forallb (fun a => forallb (fun b => forallb (f a b) score_values) score_values)
          score_values = true ->
  forall a b c, In a score_values -> In b score_values -> In c score_values ->
                f a b c = true.
Proof.
  intros H a b c Ha Hb Hc.
  rewrite forallb_forall in H. specialize (H a Ha).
  rewrite forallb_forall in H. specialize (H b Hb).
  rewrite forallb_forall in H. auto.
Qed.

Lemma score_lt_le a b :
  In a score_values -> In b score_values ->
  (a <? b)%float = true -> (a <=? b)%float = true.
Proof.
  intros Ha Hb.
  pose proof (@on_scores2 (fun a b => implb (a <? b)%float (a <=? b)%float)
                eq_refl a b Ha Hb) as H.
  simpl in H. intros E. now rewrite E in H.
Qed.

Lemma score_nlt_le a b :
  In a score_values -> In b score_values ->
  (a <? b)%float = false -> (b <=? a)%float = true.
Proof.
  intros Ha Hb.
  pose proof (@on_scores2 (fun a b => ((a <? b) || (b <=? a))%float%bool)
                eq_refl a b Ha Hb) as H.
  simpl in H. intros E. now rewrite E in H.
Qed.

Lemma score_le_trans a b c :
  In a score_values -> In b score_values -> In c score_values ->
  (a <=? b)%float = true -> (b <=? c)%float = true -> (a <=? c)%float = true.
Proof.
  intros Ha Hb Hc.
  pose proof (@on_scores3
                (fun a b c => implb ((a <=? b) && (b <=? c))%float (a <=? c)%float)
                eq_refl a b c Ha Hb Hc) as H.
  simpl in H. intros E1 E2. now rewrite E1, E2 in H.
Qed.


Lemma recommend_step_from video_id current_video acc v :
  VideoService.recommend_step video_id current_video acc v
  = outcome_map (app acc)
      (VideoService.recommend_step video_id current_video [] v).
Proof.
  unfold VideoService.recommend_step.
  destruct (String.eqb (Video.id v) video_id); simpl;
    [now rewrite app_nil_r|].
  destruct (VideoService.similarity current_video v) as [[s reason]|e];
    simpl; auto.
  destruct (0.1 <? s)%float; simpl; [reflexivity|now rewrite app_nil_r].
Qed.

Lemma recommend_loop_raised video_id current_video videos e :
  fold_left (VideoService.recommend_loop video_id current_video) videos
            (Raise e)
  = Raise e.
Proof.
  induction videos as [|v videos IH]; simpl; auto.
Qed.

Lemma candidates_from video_id current_video videos acc :
  fold_left (VideoService.recommend_loop video_id current_video) videos
            (Return acc)
  = outcome_map (app acc)
      (VideoService.candidates video_id current_video videos).
Proof.
  unfold VideoService.candidates.
  revert acc. induction videos as [|v videos IH]; intros acc.
  - simpl. now rewrite app_nil_r.
  - cbn [fold_left VideoService.recommend_loop].
    rewrite recommend_step_from.
    destruct (VideoService.recommend_step video_id current_video [] v)
      as [kept|e]; simpl.
    + rewrite IH, (IH kept).
      destruct (fold_left _ videos (Return [])); simpl; auto.
      now rewrite app_assoc.
    + now rewrite !recommend_loop_raised.
Qed.

Lemma candidates_cons video_id current_video v videos :
  VideoService.candidates video_id current_video (v :: videos)
  = match VideoService.recommend_step video_id current_video [] v with
    | Return kept =>
        outcome_map (app kept)
          (VideoService.candidates video_id current_video videos)
    | Raise e => Raise e
    end.
Proof.
  unfold VideoService.candidates at 1.
  cbn [fold_left VideoService.recommend_loop].
  destruct (VideoService.recommend_step video_id current_video [] v)
    as [kept|e].
  - apply candidates_from.
  - apply recommend_loop_raised.
Qed.

(** What the loop keeps: a candidate comes from a catalog video other than
    the target, carries the score and the trimmed reason of the loop body,
    and scores above 0.1. *)
Lemma in_candidates video_id current_video videos kept r :
  VideoService.candidates video_id current_video videos = Return kept ->
  In r kept ->
  exists v reason,
    In v videos /\
    Video.id v <> video_id /\
    VideoRecommendation.video_id r = Video.id v /\
    VideoRecommendation.title r = Video.title v /\
    VideoService.similarity current_video v
    = Return (VideoRecommendation.similarity_score r, reason) /\
    VideoRecommendation.reason r = Py.rstrip reason ", " /\
    (0.1 <? VideoRecommendation.similarity_score r)%float = true.
Proof.
  revert kept. induction videos as [|v videos IH]; intros kept.
  - intros [= <-] [].
  - rewrite candidates_cons.
    destruct (VideoService.recommend_step video_id current_video [] v)
      as [first|e] eqn:Hstep; [|discriminate].
    destruct (VideoService.candidates video_id current_video videos)
      as [others|e] eqn:Hrest; [|discriminate].
    simpl. intros [= <-] Hin. apply in_app_or in Hin.
    destruct Hin as [Hin|Hin].
    + exists v. unfold VideoService.recommend_step in Hstep.
      destruct (String.eqb (Video.id v) video_id) eqn:E;
        [injection Hstep as <-; destruct Hin|].
      apply String.eqb_neq in E.
      destruct (VideoService.similarity current_video v) as [[s reason]|e];
        [|discriminate].
      exists reason.
      destruct (0.1 <? s)%float eqn:Es;
        injection Hstep as <-; [|destruct Hin].
      destruct Hin as [<-|[]]. simpl. auto 10.
    + destruct (IH others eq_refl Hin) as (v' & reason & Hv & Hrest').
      exists v', reason. split; [now right|exact Hrest'].
Qed.

Lemma candidates_scores video_id current_video videos kept :
  VideoService.candidates video_id current_video videos = Return kept ->
  Forall (fun r => In (VideoRecommendation.similarity_score r) score_values)
         kept.
Proof.
  intros Hkept. apply Forall_forall. intros r Hr.
  destruct (@in_candidates _ _ _ _ _ Hkept Hr)
    as (v & reason & _ & _ & _ & _ & Hs & _).
  apply similarity_return in Hs. destruct Hs as [_ ->].
  apply score_of_values.
Qed.

(** The loop ends without raising when no video that it scores clashes with
    the target, and raises [TypeError] as soon as one does. *)
Lemma candidates_return video_id current_video videos :
  dates_comparable video_id current_video videos ->
  exists kept,
    VideoService.candidates video_id current_video videos = Return kept.
Proof.
  induction videos as [|v videos IH]; intros Hcomp.
  - exists []. reflexivity.
  - rewrite candidates_cons.
    destruct IH as [others ->].
    { intros v' Hin. apply Hcomp. now right. }
    unfold VideoService.recommend_step.
    destruct (String.eqb (Video.id v) video_id) eqn:E; simpl; eauto.
    apply String.eqb_neq in E.
    destruct (VideoService.similarity current_video v) as [[s reason]|e]
      eqn:Hs.
    + destruct (0.1 <? s)%float; simpl; eauto.
    + apply similarity_raise in Hs. destruct Hs as [Hclash _].
      rewrite (Hcomp v) in Hclash by (auto; now left). discriminate.
Qed.

Lemma candidates_raise video_id current_video videos v :
  In v videos ->
  Video.id v <> video_id ->
  date_clash current_video v = true ->
  VideoService.candidates video_id current_video videos
  = Raise naive_aware_error.
Proof.
  intros Hin Hne Hclash. induction videos as [|x videos IH]; [destruct Hin|].
  rewrite candidates_cons. unfold VideoService.recommend_step.
  destruct (String.eqb (Video.id x) video_id) eqn:E.
  - destruct Hin as [->|Hin].
    + apply String.eqb_eq in E. contradiction.
    + rewrite (IH Hin). reflexivity.
  - destruct (VideoService.similarity current_video x) as [[s reason]|e]
      eqn:Hs.
    + destruct Hin as [->|Hin].
      * apply similarity_return in Hs. destruct Hs as [Hs _]. congruence.
      * rewrite (IH Hin). now destruct (0.1 <? s)%float.
    + apply similarity_raise in Hs. now destruct Hs as [_ ->].
Qed.

Lemma get_video_recommendations_eq w video_id limit current_video :
  Py.get (videos_db w) video_id = Some current_video ->
  VideoService.get_video_recommendations video_id limit w
  = (outcome_map
       (fun kept =>
          Py.slice
            (Py.sort_reverse PrimFloat.ltb VideoRecommendation.similarity_score
                             kept)
            0 limit)
       (VideoService.candidates video_id current_video
          (Py.values (videos_db w))),
     w).
Proof.
  intros H.
  unfold VideoService.get_video_recommendations, VideoService.get_video_by_id,
    bind, get_world, ret, raise, lift.
  rewrite H.
  destruct (VideoService.candidates video_id current_video
              (Py.values (videos_db w))); reflexivity.
Qed.

Lemma get_video_recommendations_absent w video_id limit :
  Py.get (videos_db w) video_id = None ->
  VideoService.get_video_recommendations video_id limit w
  = (Raise (HTTPException 404 "영상을 찾을 수 없습니다."), w).
Proof.
  intros H.
  unfold VideoService.get_video_recommendations, VideoService.get_video_by_id,
    bind, get_world, ret, raise.
  now rewrite H.
Qed.

(** What a call that returns has gone through: the target exists and the
    loop has ended with a list, of which the result is a slice of the
    ranking. *)
Lemma get_video_recommendations_returned w video_id limit recommendations w' :
  VideoService.get_video_recommendations video_id limit w
  = (Return recommendations, w') ->
  exists current_video kept,
    Py.get (videos_db w) video_id = Some current_video /\
    VideoService.candidates video_id current_video (Py.values (videos_db w))
    = Return kept /\
    recommendations
    = Py.slice
        (Py.sort_reverse PrimFloat.ltb VideoRecommendation.similarity_score
                         kept)
        0 limit /\
    w' = w.
Proof.
  intros Hrun.
  destruct (Py.get (videos_db w) video_id) as [current_video|] eqn:Hget.
  - rewrite (get_video_recommendations_eq w video_id limit Hget) in Hrun.
    destruct (VideoService.candidates video_id current_video
                (Py.values (videos_db w))) as [kept|e] eqn:Hkept;
      [|discriminate].
    simpl in Hrun. injection Hrun as <- <-. eauto 6.
  - rewrite (get_video_recommendations_absent w video_id limit Hget) in Hrun.
    discriminate.
Qed.

Lemma ranked_sorted video_id current_video videos kept :
  VideoService.candidates video_id current_video videos = Return kept ->
  StronglySorted
    (fun a b => (VideoRecommendation.similarity_score b
                 <=? VideoRecommendation.similarity_score a)%float = true)
    (Py.sort_reverse PrimFloat.ltb VideoRecommendation.similarity_score kept).
Proof.
  intros Hkept.
  apply sort_reverse_sorted with (P := fun s => In s score_values).
  - apply score_lt_le.
  - apply score_nlt_le.
  - apply score_le_trans.
  - eapply candidates_scores; eauto.
Qed.




(** What the date test of the loop body accepts: the target's date may be up
    to 31 days (exclusive) after the candidate's, but at most 30 days before
    it. *)
Lemma close_date_window current_video video :
  close_date current_video video = true <->
  exists a b difference,
    Video.match_date current_video = Some a /\
    Video.match_date video = Some b /\
    datetime_sub a b = Some difference /\
    - 30 * microseconds_per_day <= difference < 31 * microseconds_per_day.
Proof.
  unfold close_date, days.
  destruct (Video.match_date current_video) as [a|];
    [|split; [discriminate|intros (? & ? & ? & ? & _); discriminate]].
  destruct (Video.match_date video) as [b|];
    [|split; [discriminate|intros (? & ? & ? & _ & ? & _); discriminate]].
  destruct (datetime_sub a b) as [difference|] eqn:Hsub;
    [|split; [discriminate
             |intros (? & ? & ? & [= <-] & [= <-] & ? & _); congruence]].
  rewrite Z.leb_le. unfold microseconds_per_day.
  pose proof (Z.div_mod difference 86400000000 ltac:(lia)) as Hdm.
  pose proof (Z.mod_pos_bound difference 86400000000 ltac:(lia)) as Hb.
  split.
  - intros H. exists a, b, difference. repeat split; auto; lia.
  - intros (a' & b' & d' & [= <-] & [= <-] & Hd & H).
    assert (d' = difference) by congruence. lia.
Qed.

(** C2, at an input where the code departs from it.  Videos ["a"] and ["b"]
    of the sample catalog share the sport and a team, and their match dates
    are 30 days and 12 hours apart, more than the 30 days of the claim.  As
    the target, ["b"] scores ["a"] with the date factor,
    [0.3 + 0.4 + 0.2]; as the target, ["a"] scores ["b"] without it,
    [0.3 + 0.4]. *)
Theorem similarity_date_factor_asymmetric :
  exists a b,
    Py.get (videos_db Sample.catalog) "a" = Some a /\
    Py.get (videos_db Sample.catalog) "b" = Some b /\
    within_30_days b a = false /\
    within_30_days a b = false /\
    outcome_map fst (VideoService.similarity b a)
    = Return (0.0 + 0.3 + 0.4 + 0.2)%float /\
    outcome_map fst (VideoService.similarity a b)
    = Return (0.0 + 0.3 + 0.4)%float /\
    map VideoRecommendation.similarity_score
        (match fst (VideoService.get_video_recommendations "b" 5 Sample.catalog) with
         | Return l => l
         | Raise _ => []
         end)
    = [(0.0 + 0.3 + 0.4 + 0.2)%float].
Proof.
  eexists _, _. split; [reflexivity|]. split; [reflexivity|].
  repeat split; vm_compute; reflexivity.
Qed.

(* ================================================================== *)
(** * Analysis payloads *)
(* ================================================================== *)

Lemma analyze_video_content_opened w video_path analysis_type :
  capture (env w) video_path = CaptureOpened ->
  exists timestamp w',
    VideoUtils.analyze_video_content video_path analysis_type w
    = (Return
         (JDict
            [ ("analysis_type", JStr analysis_type);
              ("timestamp", JStr timestamp);
              ("results",
                if String.eqb analysis_type "goal_detection"
                then VideoUtils.detect_goals
                else if String.eqb analysis_type "player_tracking"
                then VideoUtils.track_players
                else if String.eqb analysis_type "tactical_analysis"
                then VideoUtils.analyze_tactics
                else JDict [("error", JStr "지원하지 않는 분석 유형입니다.")]) ]),
       w').
Proof.
  intros H. unfold VideoUtils.analyze_video_content. run. rewrite H.
  eexists _, _. reflexivity.
Qed.

Lemma analyze_video_content_returns w video_path analysis_type :
  exists payload w',
    VideoUtils.analyze_video_content video_path analysis_type w
    = (Return payload, w').
Proof.
  unfold VideoUtils.analyze_video_content. run.
  destruct (capture (env w) video_path); eexists _, _; reflexivity.
Qed.

(** C6, as the code has it.  On a COMPLETED video [analyze_video] raises
    nothing and stores the same placeholder payload for every analysis type,
    recognised or not: the type and the parameters are echoed, the results
    are three empty collections, and nothing in it reports an error; two
    requests with the same parameters give payloads of the same structure.
    The per-type results belong to the provider [analyze_video_content],
    which [analyze_video] does not call: on a video that opens, the provider
    returns the goal, tracking or tactics results for the three known types,
    whose structures differ from one another, and an error payload as the
    results of any other type; it never raises. *)
Theorem analysis_payloads w video_id request video :
  Py.get (videos_db w) video_id = Some video ->
  Video.status video = COMPLETED ->
  (exists analysis w',
      VideoService.analyze_video video_id request w = (Return analysis, w') /\
      VideoAnalysis.result_data analysis
      = VideoService.placeholder_result request /\
      field "analysis_type" (VideoAnalysis.result_data analysis)
      = Some (JStr (VideoAnalysisRequest.analysis_type request)) /\
      field "results" (VideoAnalysis.result_data analysis)
      = Some (JDict [ ("detected_events", JList []);
                      ("statistics", JDict []);
                      ("highlights", JList []) ]) /\
      is_error_payload (VideoAnalysis.result_data analysis) = false /\
      (forall request',
          VideoAnalysisRequest.parameters request'
          = VideoAnalysisRequest.parameters request ->
          shape (VideoService.placeholder_result request')
          = shape (VideoAnalysis.result_data analysis))) /\
  (forall video_path analysis_type w0,
      exists payload w',
        VideoUtils.analyze_video_content video_path analysis_type w0
        = (Return payload, w')) /\
  (forall video_path analysis_type w0,
      capture (env w0) video_path = CaptureOpened ->
      exists payload results w',
        VideoUtils.analyze_video_content video_path analysis_type w0
        = (Return payload, w') /\
        field "results" payload = Some results /\
        (analysis_type = "goal_detection" -> results = VideoUtils.detect_goals) /\
        (analysis_type = "player_tracking" -> results = VideoUtils.track_players) /\
        (analysis_type = "tactical_analysis" ->
         results = VideoUtils.analyze_tactics) /\
        (analysis_type <> "goal_detection" ->
         analysis_type <> "player_tracking" ->
         analysis_type <> "tactical_analysis" ->
         is_error_payload results = true)) /\
  shape VideoUtils.detect_goals <> shape VideoUtils.track_players /\
  shape VideoUtils.detect_goals <> shape VideoUtils.analyze_tactics /\
  shape VideoUtils.track_players <> shape VideoUtils.analyze_tactics.
Proof.
  intros Hget Hstatus. split; [|split; [|split]].
  - eexists _, _. split; [apply analyze_video_completed; eauto|].
    simpl. repeat split.
    intros request' Hp. unfold VideoService.placeholder_result.
    now rewrite Hp.
  - intros. apply analyze_video_content_returns.
  - intros video_path analysis_type w0 Hcap.
    destruct (analyze_video_content_opened w0 video_path analysis_type Hcap)
      as (timestamp & w' & Hrun).
    eexists _, _, _. split; [exact Hrun|]. split; [reflexivity|].
    repeat split.
    + intros ->. reflexivity.
    + intros ->. reflexivity.
    + intros ->. reflexivity.
    + intros H1 H2 H3.
      apply String.eqb_neq in H1, H2, H3. now rewrite H1, H2, H3.
  - repeat split; discriminate.
Qed.

Lemma analysis_payloads_witness :
  (exists analysis w',
      VideoService.analyze_video "a" Sample.unknown_request Sample.catalog
      = (Return analysis, w') /\
      is_error_payload (VideoAnalysis.result_data analysis) = false) /\
  (exists payload results w',
      VideoUtils.analyze_video_content "uploads/a.mp4" "pose_estimation"
                                       Sample.catalog
      = (Return payload, w') /\
      field "results" payload = Some results /\
      is_error_payload results = true).
Proof.
  destruct (@analysis_payloads Sample.catalog "a" Sample.unknown_request _
              eq_refl eq_refl)
    as ((analysis & w' & H1 & _ & _ & _ & H2 & _) & _ & H3 & _).
  split.
  - exists analysis, w'. auto.
  - destruct (H3 "uploads/a.mp4" "pose_estimation" Sample.catalog eq_refl)
      as (payload & results & w1 & H4 & H5 & _ & _ & _ & H6).
    exists payload, results, w1. repeat split; auto.
    apply H6; discriminate.
Defined.

(** C6 as stated fails on [analyze_video]: on the COMPLETED video ["a"] a
    goal-detection request and a player-tracking request store payloads of
    one and the same structure, and a request of an unrecognised type stores
    a payload that reports no error, neither at its top nor in its
    results. *)
Lemma analysis_payloads_counterexample :
  exists goals tracking unknown results w1 w2 w3,
    VideoService.analyze_video "a" Sample.goal_request Sample.catalog
    = (Return goals, w1) /\
    VideoService.analyze_video "a" Sample.tracking_request Sample.catalog
    = (Return tracking, w2) /\
    shape (VideoAnalysis.result_data goals)
    = shape (VideoAnalysis.result_data tracking) /\
    VideoService.analyze_video "a" Sample.unknown_request Sample.catalog
    = (Return unknown, w3) /\
    is_error_payload (VideoAnalysis.result_data unknown) = false /\
    field "results" (VideoAnalysis.result_data unknown) = Some results /\
    is_error_payload results = false.
Proof.
  eexists _, _, _, _, _, _, _.
  split; [vm_compute; reflexivity|].
  split; [vm_compute; reflexivity|].
  split; [reflexivity|].
  split; [vm_compute; reflexivity|].
  split; [reflexivity|]. split; reflexivity.
Qed.

(* ================================================================== *)
(** * The lifecycle of a video *)
(* ================================================================== *)

Lemma start_processing_eq w video_id :
  VideoService.start_processing video_id w
  = (Return tt, transition video_id PROCESSING w).
Proof.
  unfold VideoService.start_processing, transition. run.
  destruct (Py.get (videos_db w) video_id) as [v|] eqn:Hget; simpl.
  - rewrite get_set_same, set_set. reflexivity.
  - rewrite Hget. reflexivity.
Qed.

Lemma finish_processing_eq w video_id slept :
  exists w',
    VideoService.finish_processing video_id slept w = (Return tt, w') /\
    env w' = env w /\
    ticks w' = S (ticks w) /\
    drawn w' = drawn w /\
    videos_db w' = videos_db (transition video_id (final_status slept) w).
Proof.
  unfold VideoService.finish_processing, transition. run.
  destruct slept as [message|];
    destruct (Py.get (videos_db w) video_id) as [v|] eqn:Hget; simpl;
    rewrite ?get_set_same, ?set_set, ?Hget; simpl;
    eexists; repeat split.
Qed.

Lemma create_video_valid w file title description sport_type match_date teams :
  valid_upload file ->
  let video_id := uuid_at (env w) (drawn w) in
  let file_extension :=
    Py.lower (snd (Py.splitext (UploadFile.filename file))) in
  let file_path :=
    (VideoService.upload_dir ++ "/" ++ video_id ++ file_extension)%string in
  let video :=
    VideoService.new_video video_id title description file_path
      (UploadFile.size file) sport_type match_date teams
      (now_at (env w) (ticks w)) (now_at (env w) (S (ticks w))) in
  write_error (env w) file_path = None ->
  VideoService.create_video file title description sport_type match_date
                            teams w
  = (Return video,
     Build_World (env w) (S (S (ticks w))) (S (drawn w))
       (Py.set (videos_db w) video_id video) (analyses_db w) (stdout w)).
Proof.
  intros [Hext Hsize] video_id file_extension file_path video Hwrite.
  unfold VideoService.create_video. cbv zeta.
  rewrite Hext. simpl negb. cbv iota.
  destruct (100 * 1024 * 1024 <? UploadFile.size file) eqn:E;
    [apply Z.ltb_lt in E; lia|].
  subst video file_path file_extension video_id.
  autounfold with service.
  cbn [negb env ticks drawn videos_db analyses_db stdout].
  rewrite Hwrite. reflexivity.
Qed.

Lemma bind_return {A B} (c : M A) (k : A -> M B) w a w' :
  c w = (Return a, w') -> bind c k w = k a w'.
Proof.
  unfold bind. now intros ->.
Qed.

Lemma get_transition_same w video_id s v :
  Py.get (videos_db w) video_id = Some v ->
  Py.get (videos_db (transition video_id s w)) video_id
  = Some (Video.set_updated_at (now_at (env w) (ticks w)) (Video.set_status s v)).
Proof.
  intros H. unfold transition. simpl. rewrite H. apply get_set_same.
Qed.

Lemma get_transition_other w video_id s k :
  k <> video_id ->
  Py.get (videos_db (transition video_id s w)) k = Py.get (videos_db w) k.
Proof.
  intros H. unfold transition. simpl.
  destruct (Py.get (videos_db w) video_id); auto.
  now apply get_set_other.
Qed.

Lemma process_video_eq w video_id v :
  Py.get (videos_db w) video_id = Some v ->
  exists w',
    VideoService._process_video video_id w = (Return tt, w') /\
    env w' = env w /\
    ticks w' = S (S (ticks w)) /\
    videos_db w'
    = videos_db
        (transition video_id (final_status (sleep_error (env w) video_id))
           (transition video_id PROCESSING w)).
Proof.
  intros Hget. unfold VideoService._process_video.
  erewrite bind_return
    by (unfold VideoService.get_video_by_id; run; now rewrite Hget).
  cbv beta iota.
  erewrite bind_return by apply start_processing_eq.
  erewrite bind_return by reflexivity.
  change (env (transition video_id PROCESSING w)) with (env w).
  destruct (finish_processing_eq (transition video_id PROCESSING w) video_id
              (sleep_error (env w) video_id)) as (w' & Hrun & He & Ht & _ & Hdb).
  exists w'. rewrite Hrun, He, Ht. auto.
Qed.

(** What [upload_video] returns for a valid upload that is saved: the record
    as the pipeline left it. *)
Lemma upload_video_returns w file title description sport_type match_date teams :
  valid_upload file ->
  let video_id := uuid_at (env w) (drawn w) in
  write_error (env w)
    (VideoService.upload_dir ++ "/" ++ video_id
       ++ Py.lower (snd (Py.splitext (UploadFile.filename file))))%string
  = None ->
  exists video w',
    VideoService.upload_video file title description sport_type match_date
                              teams w
    = (Return video, w') /\
    Py.get (videos_db w') video_id = Some video /\
    Video.status video = final_status (sleep_error (env w) video_id) /\
    Video.status video <> UPLOADING /\
    ticks w' = (ticks w + 4)%nat.
Proof.
  intros Hvalid video_id Hwrite.
  pose proof (create_video_valid w title description sport_type match_date teams
                Hvalid Hwrite) as Hcreate.
  cbv zeta in Hcreate. fold video_id in Hcreate.
  unfold VideoService.upload_video.
  erewrite bind_return by exact Hcreate. simpl Video.id.
  match type of Hcreate with _ = (Return ?v, ?w1) =>
    destruct (@process_video_eq w1 video_id v (get_set_same _ _ _))
      as (w2 & Hrun & He & Ht & Hdb)
  end.
  erewrite bind_return by exact Hrun. autounfold with service.
  cbn [env ticks] in He, Ht.
  eexists _, _. split; [reflexivity|].
  rewrite Hdb.
  erewrite get_transition_same
    by (apply get_transition_same; simpl; apply get_set_same).
  simpl. split; [reflexivity|]. split; [reflexivity|].
  split; [destruct (sleep_error (env w) video_id); discriminate|lia].
Qed.

(** C1, at an input where the code departs from it.  A valid upload into
    the empty catalog returns its record only after the pipeline has run:
    the record returned has status COMPLETED, not UPLOADING, and all four
    clock readings of the creation and of the two transitions have been
    taken by then. *)
Theorem upload_video_waits_for_pipeline :
  valid_upload Sample.clip /\
  exists video w',
    VideoService.upload_video Sample.clip "First leg" None (Some "soccer")
                              (Some (Naive 0)) (Some ["Red"; "Blue"])
                              Sample.empty
    = (Return video, w') /\
    Video.status video = COMPLETED /\
    Video.status video <> UPLOADING /\
    Video.created_at video = now_at (env Sample.empty) 0 /\
    Video.updated_at video = now_at (env Sample.empty) 3 /\
    ticks w' = 4%nat.
Proof.
  split; [split; [reflexivity|vm_compute; discriminate]|].
  eexists _, _. split; [vm_compute; reflexivity|].
  repeat split. discriminate.
Qed.

Lemma advances_same_catalog w w' :
  env w' = env w -> (ticks w <= ticks w')%nat -> videos_db w' = videos_db w ->
  advances w w'.
Proof.
  intros He Ht Hdb. repeat split; auto.
  intros k v' H. left. exists v'. rewrite Hdb in H. auto.
Qed.

Lemma advances_transition w video_id s : advances w (transition video_id s w).
Proof.
  destruct (Py.get (videos_db w) video_id) as [v|] eqn:Hget.
  - split; [reflexivity|]. split; [simpl; lia|].
    intros k v' H. left.
    destruct (String.eqb k video_id) eqn:E.
    + apply String.eqb_eq in E. subst k.
      rewrite (@get_transition_same w video_id s v Hget) in H. injection H as <-.
      exists v. simpl. repeat split; auto. right. exists (ticks w).
      split; [lia|reflexivity].
    + apply String.eqb_neq in E. rewrite get_transition_other in H by auto.
      exists v'. auto.
  - apply advances_same_catalog; simpl; auto.
    now rewrite Hget.
Qed.

Lemma advances_create w file title description sport_type match_date teams r w' :
  VideoService.create_video file title description sport_type match_date
                            teams w = (r, w') ->
  advances w w'.
Proof.
  unfold VideoService.create_video. cbv zeta.
  destruct (negb _); [intros [= _ <-]; now apply advances_same_catalog|].
  destruct (_ <? _); [intros [= _ <-]; now apply advances_same_catalog|].
  autounfold with service. cbn [env ticks drawn videos_db analyses_db stdout].
  destruct (write_error (env w) _).
  - intros [= _ <-]. now apply advances_same_catalog.
  - intros [= _ <-]. repeat split; simpl; auto.
    intros k v' H.
    destruct (String.eqb k (uuid_at (env w) (drawn w))) eqn:E.
    + apply String.eqb_eq in E. subst k. rewrite get_set_same in H.
      injection H as <-. right. exists (ticks w), (S (ticks w)). simpl.
      repeat split; auto.
    + apply String.eqb_neq in E. rewrite get_set_other in H by auto.
      left. exists v'. auto.
Qed.

Lemma advances_analyze w video_id request r w' :
  VideoService.analyze_video video_id request w = (r, w') -> advances w w'.
Proof.
  intros Hrun. destruct r as [analysis|e].
  - destruct (analyze_video_success _ _ _ Hrun)
      as (video & Hget & Hs & _ & Hdb & _).
    rewrite (analyze_video_completed w video_id request Hget Hs) in Hrun.
    injection Hrun as _ <-. repeat split; simpl; auto.
    intros k v' H. left.
    destruct (String.eqb k video_id) eqn:E.
    + apply String.eqb_eq in E. subst k. rewrite get_set_same in H.
      injection H as <-. exists video. simpl. auto.
    + apply String.eqb_neq in E. rewrite get_set_other in H by auto.
      exists v'. auto.
  - apply analyze_video_failure in Hrun. subst w'.
    now apply advances_same_catalog.
Qed.

Lemma advances_delete w video_id r w' :
  VideoService.delete_video video_id w = (r, w') -> advances w w'.
Proof.
  intros Hrun.
  destruct (Py.get (videos_db w) video_id) as [video|] eqn:Hget.
  - rewrite (delete_video_present w video_id Hget) in Hrun.
    injection Hrun as _ <-. repeat split; simpl; auto.
    intros k v' H. left. exists v'.
    destruct (String.eqb k video_id) eqn:E.
    + apply String.eqb_eq in E. subst k. rewrite get_del_same in H. discriminate.
    + apply String.eqb_neq in E. rewrite get_del_other in H by auto. auto.
  - rewrite (delete_video_absent w video_id Hget) in Hrun.
    injection Hrun as _ <-. now apply advances_same_catalog.
Qed.

Lemma step_advances w w' : step w w' -> advances w w'.
Proof.
  intros [file title description sport_type match_date teams w1 r w1' H
         |video_id w1 r w1' H
         |video_id slept w1 r w1' H
         |video_id request w1 r w1' H
         |video_id w1 r w1' H].
  - eapply advances_create; eauto.
  - rewrite start_processing_eq in H. injection H as _ <-.
    apply advances_transition.
  - destruct (finish_processing_eq w1 video_id slept)
      as (w2 & Hrun & He & Ht & _ & Hdb).
    rewrite Hrun in H. injection H as _ <-.
    destruct (advances_transition w1 video_id (final_status slept))
      as (_ & _ & Hadv).
    repeat split; auto; [lia|].
    intros k v' Hk. rewrite Hdb in Hk. rewrite Ht. apply (Hadv k v' Hk).
  - eapply advances_analyze; eauto.
  - eapply advances_delete; eauto.
Qed.

Lemma advances_stamped w w' :
  advances w w' -> stamped w -> stamped w'.
Proof.
  intros (He & Ht & Hadv) Hst k v' Hk. rewrite He.
  destruct (Hadv k v' Hk)
    as [(v & Hv & Hc & [Hu|(m & Hm & Hu)])|(n & m & Hn & Hm & Hc & Hu)].
  - destruct (Hst k v Hv) as (n0 & m0 & H0 & Hc0 & Hu0).
    exists n0, m0. repeat split; try congruence; lia.
  - destruct (Hst k v Hv) as (n0 & m0 & H0 & Hc0 & Hu0).
    exists n0, m. repeat split; try congruence; lia.
  - exists n, m. repeat split; auto; lia.
Qed.

Lemma advances_grows w w' :
  monotone_clock (env w) -> advances w w' -> stamped w ->
  updated_at_grows w w'.
Proof.
  intros Hmono (He & Ht & Hadv) Hst k v v' Hv Hv'.
  destruct (Hst k v Hv) as (n0 & m0 & H0 & Hc0 & Hu0).
  destruct (Hadv k v' Hv')
    as [(v0 & Hv0 & Hc & [Hu|(m & Hm & Hu)])|(n & m & Hn & Hm & Hc & Hu)].
  - rewrite Hv in Hv0. injection Hv0 as <-. lia.
  - rewrite Hu, Hu0. apply Hmono. lia.
  - rewrite Hu, Hu0. apply Hmono. lia.
Qed.

Lemma stamped_ordered w :
  monotone_clock (env w) -> stamped w -> timestamps_ordered w.
Proof.
  intros Hmono Hst k v Hv.
  destruct (Hst k v Hv) as (n & m & H & -> & ->). apply Hmono. lia.
Qed.

Lemma reachable_stamped w0 w :
  videos_db w0 = [] -> reachable w0 w -> env w = env w0 /\ stamped w.
Proof.
  intros Hempty Hreach. induction Hreach as [|w w' Hreach [He Hst] Hstep].
  - split; auto. intros k v H. rewrite Hempty in H. discriminate.
  - apply step_advances in Hstep. split.
    + destruct Hstep as (He' & _). congruence.
    + eapply advances_stamped; eauto.
Qed.

(** Every transition keeps each record under its own identifier. *)
Lemma set_keeps_ids (d : Py.dict Video.t) k v :
  (forall k' v', In (k', v') d -> Video.id v' = k') ->
  Video.id v = k ->
  forall k' v', In (k', v') (Py.set d k v) -> Video.id v' = k'.
Proof.
  intros Hd Hv k' v' H. apply in_set in H.
  destruct H as [[-> ->]|H]; auto.
Qed.

Lemma transition_keeps_ids w video_id s :
  ids_match w -> ids_match (transition video_id s w).
Proof.
  intros Hw. unfold ids_match, transition. simpl.
  destruct (Py.get (videos_db w) video_id) as [v|] eqn:Hget; auto.
  apply set_keeps_ids; auto. simpl. apply Hw. now apply get_in.
Qed.

Lemma step_ids_match w w' : step w w' -> ids_match w -> ids_match w'.
Proof.
  intros [file title description sport_type match_date teams w1 r w1' H
         |video_id w1 r w1' H
         |video_id slept w1 r w1' H
         |video_id request w1 r w1' H
         |video_id w1 r w1' H] Hw.
  - revert H. unfold VideoService.create_video. cbv zeta.
    destruct (negb _); [intros [= _ <-]; auto|].
    destruct (_ <? _); [intros [= _ <-]; auto|].
    autounfold with service. cbn [env ticks drawn videos_db analyses_db stdout].
    destruct (write_error (env w1) _); intros [= _ <-]; auto.
    unfold ids_match. simpl. apply set_keeps_ids; auto.
  - rewrite start_processing_eq in H. injection H as _ <-.
    now apply transition_keeps_ids.
  - destruct (finish_processing_eq w1 video_id slept)
      as (w2 & Hrun & _ & _ & _ & Hdb).
    rewrite Hrun in H. injection H as _ <-.
    unfold ids_match. rewrite Hdb.
    now apply transition_keeps_ids.
  - destruct r as [analysis|e].
    + destruct (analyze_video_success _ _ _ H) as (video & Hget & _ & _ & Hdb & _).
      unfold ids_match. rewrite Hdb. apply set_keeps_ids; auto.
      simpl. apply Hw. now apply get_in.
    + apply analyze_video_failure in H. now subst.
  - destruct (Py.get (videos_db w1) video_id) as [video|] eqn:Hget.
    + rewrite (delete_video_present w1 video_id Hget) in H.
      injection H as _ <-. unfold ids_match. simpl.
      intros k v Hin. apply in_del in Hin. apply Hw. tauto.
    + rewrite (delete_video_absent w1 video_id Hget) in H.
      now injection H as _ <-.
Qed.

Lemma reachable_ids_match w0 w :
  videos_db w0 = [] -> reachable w0 w -> ids_match w.
Proof.
  intros Hempty Hreach. induction Hreach as [|w w' Hreach IH Hstep].
  - intros k v H. rewrite Hempty in H. destruct H.
  - eapply step_ids_match; eauto.
Qed.

Lemma reachable_trans w0 w w' :
  reachable w0 w -> reachable w w' -> reachable w0 w'.
Proof.
  intros H0 H. induction H; auto. eapply reachable_step; eauto.
Qed.

Lemma process_video_reachable w video_id r w' :
  VideoService._process_video video_id w = (r, w') -> reachable w w'.
Proof.
  unfold VideoService._process_video.
  erewrite bind_return by reflexivity. cbv beta.
  destruct (Py.get (videos_db w) video_id) as [v|].
  - erewrite bind_return by apply start_processing_eq.
    erewrite bind_return by reflexivity.
    intros Hfinish.
    eapply reachable_step; [|eapply step_finish; exact Hfinish].
    eapply reachable_step; [constructor|].
    eapply step_start. apply start_processing_eq.
  - intros [= _ <-]. constructor.
Qed.

(** An upload is a creation followed by the two halves of the pipeline. *)
Lemma upload_video_reachable w file title description sport_type match_date
      teams r w' :
  VideoService.upload_video file title description sport_type match_date
                            teams w = (r, w') ->
  reachable w w'.
Proof.
  unfold VideoService.upload_video, bind at 1.
  destruct (VideoService.create_video file title description sport_type
              match_date teams w) as [[video|e] w1] eqn:Hcreate.
  - assert (H1 : reachable w w1).
    { eapply reachable_step; [constructor|]. eapply step_create; eauto. }
    unfold bind at 1.
    destruct (VideoService._process_video (Video.id video) w1)
      as [[[]|e] w2] eqn:Hrun; apply process_video_reachable in Hrun.
    + run. intros [= _ <-]. eapply reachable_trans; eauto.
    + intros [= _ <-]. eapply reachable_trans; eauto.
  - intros [= _ <-]. eapply reachable_step; [constructor|].
    eapply step_create; eauto.
Qed.

(** C9. Under a monotone clock, in every world reached from an empty catalog
    by creations, pipeline transitions, analyses and deletions (so in
    particular after any sequence of uploads), every video has
    [created_at <= updated_at], and no further transition lowers the
    [updated_at] of a video. *)
Theorem lifecycle_timestamps w0 w :
  monotone_clock (env w0) ->
  videos_db w0 = [] ->
  reachable w0 w ->
  timestamps_ordered w /\
  (forall w', step w w' -> updated_at_grows w w') /\
  (forall file title description sport_type match_date teams r w',
      VideoService.upload_video file title description sport_type match_date
                                teams w = (r, w') ->
      reachable w0 w' /\ timestamps_ordered w').
Proof.
  intros Hmono Hempty Hreach.
  destruct (reachable_stamped Hempty Hreach) as [He Hst].
  assert (Hmono' : monotone_clock (env w)) by now rewrite He.
  split; [now apply stamped_ordered|]. split.
  - intros w' Hstep. apply advances_grows; auto. now apply step_advances.
  - intros file title description sport_type match_date teams r w' Hrun.
    apply upload_video_reachable in Hrun.
    assert (Hreach' : reachable w0 w') by (eapply reachable_trans; eauto).
    split; auto.
    destruct (reachable_stamped Hempty Hreach') as [He' Hst'].
    apply stamped_ordered; auto. now rewrite He'.
Qed.

Lemma lifecycle_timestamps_witness :
  timestamps_ordered Sample.processing /\
  (forall w', step Sample.processing w' ->
              updated_at_grows Sample.processing w').
Proof.
  destruct (@lifecycle_timestamps Sample.empty Sample.processing)
    as (H1 & H2 & _).
  - intros i j H. simpl. unfold Sample.second. lia.
  - reflexivity.
  - apply reachable_step with (w := Sample.uploading).
    + apply reachable_step with (w := Sample.empty); [constructor|].
      eapply step_create
        with (file := Sample.clip) (title := "First leg") (description := None)
             (sport_type := Some "soccer") (match_date := Some (Naive 0))
             (teams := Some ["Red"; "Blue"]).
      vm_compute. reflexivity.
    + eapply step_start with (video_id := "a"). vm_compute. reflexivity.
  - auto.
Defined.

(* ================================================================== *)
(** * Uploads *)
(* ================================================================== *)

Lemma finish_processing_world w video_id slept :
  VideoService.finish_processing video_id slept w
  = (Return tt,
     Build_World (env w) (S (ticks w)) (drawn w)
       (videos_db (transition video_id (final_status slept) w))
       (analyses_db w) (stdout w ++ pipeline_log slept)).
Proof.
  unfold VideoService.finish_processing, transition, pipeline_log. run.
  destruct slept as [message|];
    destruct (Py.get (videos_db w) video_id) as [v|] eqn:Hget; simpl;
    rewrite ?get_set_same, ?set_set, ?Hget, ?app_nil_r; reflexivity.
Qed.

Lemma process_video_world w video_id v :
  Py.get (videos_db w) video_id = Some v ->
  VideoService._process_video video_id w
  = (Return tt,
     Build_World (env w) (S (S (ticks w))) (drawn w)
       (Py.set (videos_db w) video_id
          (Video.set_updated_at (now_at (env w) (S (ticks w)))
             (Video.set_status (final_status (sleep_error (env w) video_id)) v)))
       (analyses_db w)
       (stdout w ++ pipeline_log (sleep_error (env w) video_id))).
Proof.
  intros Hget. unfold VideoService._process_video.
  erewrite bind_return
    by (unfold VideoService.get_video_by_id; run; now rewrite Hget).
  cbv beta iota.
  erewrite bind_return by apply start_processing_eq.
  erewrite bind_return by reflexivity.
  change (env (transition video_id PROCESSING w)) with (env w).
  rewrite finish_processing_world. f_equal.
  unfold transition. simpl. rewrite Hget. simpl.
  rewrite get_set_same, set_set. reflexivity.
Qed.

Lemma upload_video_world w file title description sport_type match_date teams :
  valid_upload file ->
  write_error (env w) (upload_path w file) = None ->
  let video_id := uuid_at (env w) (drawn w) in
  let slept := sleep_error (env w) video_id in
  let video :=
    Video.make video_id title description (upload_path w file)
      (UploadFile.size file) None (final_status slept) sport_type match_date
      teams (now_at (env w) (ticks w)) (now_at (env w) (3 + ticks w))
      (Some []) in
  VideoService.upload_video file title description sport_type match_date
                            teams w
  = (Return video,
     Build_World (env w) (4 + ticks w) (S (drawn w))
       (Py.set (videos_db w) video_id video) (analyses_db w)
       (stdout w ++ pipeline_log slept)).
Proof.
  intros Hvalid Hwrite video_id slept video.
  pose proof (@create_video_valid w file title description sport_type
                match_date teams Hvalid Hwrite) as Hcreate.
  cbv zeta in Hcreate. fold video_id in Hcreate.
  unfold VideoService.upload_video.
  erewrite bind_return by exact Hcreate. simpl Video.id.
  erewrite bind_return
    by (apply process_video_world; cbn [videos_db]; apply get_set_same).
  autounfold with service.
  cbn [env ticks drawn videos_db analyses_db stdout].
  rewrite set_set, get_set_same. reflexivity.
Qed.

(** X1. [upload_video] checks the extension first and the size second, and
    a rejected upload changes nothing: a name whose extension is written in
    ASCII and, lower-cased, is not one of the five allowed ones raises 400
    whatever the size, and an allowed name with more than 100 MiB raises
    400; in both cases the world is as before (no identifier drawn, no
    record stored). *)
Theorem upload_video_rejects w file title description sport_type match_date
        teams :
  (is_ascii (snd (Py.splitext (UploadFile.filename file))) = true ->
   Py.str_in (upload_extension file) VideoService.allowed_extensions = false ->
   VideoService.upload_video file title description sport_type match_date
                             teams w
   = (Raise (HTTPException 400 "지원하지 않는 파일 형식입니다."), w)) /\
  (Py.str_in (upload_extension file) VideoService.allowed_extensions = true ->
   100 * 1024 * 1024 < UploadFile.size file ->
   VideoService.upload_video file title description sport_type match_date
                             teams w
   = (Raise (HTTPException 400 "파일 크기는 100MB를 초과할 수 없습니다."), w)).
Proof.
  unfold upload_extension. split.
  - intros _ Hext.
    unfold VideoService.upload_video, VideoService.create_video.
    cbv zeta. rewrite Hext. reflexivity.
  - intros Hext Hsize.
    unfold VideoService.upload_video, VideoService.create_video.
    cbv zeta. rewrite Hext.
    apply Z.ltb_lt in Hsize. cbn [negb]. rewrite Hsize. reflexivity.
Qed.

Lemma upload_video_rejects_witness :
  is_ascii (snd (Py.splitext (UploadFile.filename Sample.notes))) = true /\
  VideoService.upload_video Sample.notes "Notes" None None None None
                            Sample.catalog
  = (Raise (HTTPException 400 "지원하지 않는 파일 형식입니다."), Sample.catalog) /\
  VideoService.upload_video Sample.huge "Huge" None None None None
                            Sample.catalog
  = (Raise (HTTPException 400 "파일 크기는 100MB를 초과할 수 없습니다."),
     Sample.catalog).
Proof.
  destruct (upload_video_rejects Sample.catalog Sample.notes "Notes" None None
              None None) as [H1 _].
  destruct (upload_video_rejects Sample.catalog Sample.huge "Huge" None None
              None None) as [_ H2].
  split; [reflexivity|].
  split; [apply H1; reflexivity|apply H2; [reflexivity|]].
  vm_compute. reflexivity.
Defined.

(** X2. When saving the file raises, a valid upload raises 500 with the
    error's text in the detail and stores no record: the catalogs and the
    clock are untouched, only the identifier has been drawn. *)
Theorem upload_video_write_failure w file title description sport_type
        match_date teams message :
  valid_upload file ->
  write_error (env w) (upload_path w file) = Some message ->
  exists w',
    VideoService.upload_video file title description sport_type match_date
                              teams w
    = (Raise (HTTPException 500
                ("파일 저장 중 오류가 발생했습니다: " ++ message)), w') /\
    videos_db w' = videos_db w /\
    analyses_db w' = analyses_db w /\
    ticks w' = ticks w /\
    drawn w' = S (drawn w).
Proof.
  intros [Hext Hsize] Hwrite. unfold upload_path, upload_extension in Hwrite.
  unfold VideoService.upload_video, VideoService.create_video. cbv zeta.
  rewrite Hext. cbn [negb].
  destruct (100 * 1024 * 1024 <? UploadFile.size file) eqn:E;
    [apply Z.ltb_lt in E; lia|].
  autounfold with service.
  cbn [env ticks drawn videos_db analyses_db stdout].
  rewrite Hwrite. eexists. split; [reflexivity|]. simpl. auto.
Qed.

Lemma upload_video_write_failure_witness :
  exists w',
    VideoService.upload_video Sample.clip "Clip" None None None None
                              Sample.full_disk
    = (Raise (HTTPException 500
                "파일 저장 중 오류가 발생했습니다: No space left on device"), w') /\
    videos_db w' = [].
Proof.
  destruct (@upload_video_write_failure Sample.full_disk Sample.clip "Clip"
              None None None None "No space left on device")
    as (w' & H1 & H2 & _).
  - split; [reflexivity|]. vm_compute. discriminate.
  - reflexivity.
  - exists w'. split; [exact H1|exact H2].
Defined.

(** X3. A valid upload that is saved stores its record before the pipeline
    starts: when [upload_video] hands over to [_process_video],
    [get_video_by_id] finds under the identifier drawn the record just
    built, with status UPLOADING.  The record that [upload_video] returns
    has that identifier; its stored path is the upload directory, the id and
    the lower-cased extension, which is one of the five allowed ones; size
    and metadata are those given, there is no duration and no analysis yet;
    the size may be exactly 100 MiB. *)
Theorem upload_video_stores w file title description sport_type match_date
        teams :
  valid_upload file ->
  write_error (env w) (upload_path w file) = None ->
  exists created w1 video w',
    VideoService.create_video file title description sport_type match_date
                              teams w
    = (Return created, w1) /\
    VideoService.get_video_by_id (Video.id created) w1
    = (Return (Some created), w1) /\
    Video.status created = UPLOADING /\
    VideoService.upload_video file title description sport_type match_date
                              teams w
    = (Return video, w') /\
    Video.id video = Video.id created /\
    Video.created_at video = Video.created_at created /\
    Video.id video = uuid_at (env w) (drawn w) /\
    Video.file_path video
    = (VideoService.upload_dir ++ "/" ++ Video.id video
         ++ upload_extension file)%string /\
    In (upload_extension file) VideoService.allowed_extensions /\
    Video.file_size video = UploadFile.size file /\
    Video.title video = title /\
    Video.description video = description /\
    Video.sport_type video = sport_type /\
    Video.match_date video = match_date /\
    Video.teams video = teams /\
    Video.duration video = None /\
    Video.analyses video = Some [].
Proof.
  intros Hvalid Hwrite.
  pose proof (@create_video_valid w file title description sport_type
                match_date teams Hvalid Hwrite) as Hcreate.
  pose proof (@upload_video_world w file title description sport_type
                match_date teams Hvalid Hwrite) as Hrun.
  cbv zeta in Hcreate, Hrun.
  eexists _, _, _, _. split; [exact Hcreate|].
  split.
  { unfold VideoService.get_video_by_id, bind, get_world, ret.
    cbn [videos_db VideoService.new_video Video.id].
    now rewrite get_set_same. }
  split; [reflexivity|].
  split; [exact Hrun|].
  simpl. repeat split; auto.
  destruct Hvalid as [Hext _]. fold (upload_extension file) in Hext.
  unfold Py.str_in in Hext. apply existsb_exists in Hext.
  destruct Hext as (x & Hin & Hx). apply String.eqb_eq in Hx. now subst.
Qed.

Lemma upload_video_stores_witness :
  exists created w1 video w',
    VideoService.create_video Sample.largest "Largest" None None None None
                              Sample.catalog
    = (Return created, w1) /\
    VideoService.get_video_by_id "d" w1 = (Return (Some created), w1) /\
    VideoService.upload_video Sample.largest "Largest" None None None None
                              Sample.catalog
    = (Return video, w') /\
    Video.file_path video = "uploads/d.mp4" /\
    Video.file_size video = 100 * 1024 * 1024.
Proof.
  destruct (@upload_video_stores Sample.catalog Sample.largest "Largest" None
              None None None)
    as (created & w1 & video & w' & H1 & H2 & _ & H3 & H4 & _ & H5 & H6 & _
        & H7 & _).
  - split; [reflexivity|]. vm_compute. discriminate.
  - reflexivity.
  - exists created, w1, video, w'.
    rewrite <- H4, H5 in H2. rewrite H5 in H6.
    split; [exact H1|]. split; [exact H2|]. split; [exact H3|].
    split; [exact H6|exact H7].
Defined.

(** X4. A valid upload that is saved leaves every other record of the
    catalog as it was and does not touch the analysis catalog; when the
    identifier drawn is new, the record is added after all the others. *)
Theorem upload_video_frame w file title description sport_type match_date
        teams :
  valid_upload file ->
  write_error (env w) (upload_path w file) = None ->
  exists video w',
    VideoService.upload_video file title description sport_type match_date
                              teams w
    = (Return video, w') /\
    (forall k, k <> Video.id video ->
               Py.get (videos_db w') k = Py.get (videos_db w) k) /\
    analyses_db w' = analyses_db w /\
    (Py.get (videos_db w) (Video.id video) = None ->
     videos_db w' = videos_db w ++ [(Video.id video, video)]).
Proof.
  intros Hvalid Hwrite.
  pose proof (@upload_video_world w file title description sport_type
                match_date teams Hvalid Hwrite) as Hrun.
  cbv zeta in Hrun.
  eexists _, _. split; [exact Hrun|]. simpl.
  split; [|split; [reflexivity|]].
  - intros k Hk. now apply get_set_other.
  - apply set_fresh.
Qed.

Lemma upload_video_frame_witness :
  exists video w',
    VideoService.upload_video Sample.clip "Clip" None None None None
                              Sample.catalog
    = (Return video, w') /\
    Py.get (videos_db w') "a" = Py.get (videos_db Sample.catalog) "a" /\
    Py.keys (videos_db w') = ["a"; "b"; "c"; "d"].
Proof.
  destruct (@upload_video_frame Sample.catalog Sample.clip "Clip" None None
              None None)
    as (video & w' & H1 & H2 & _ & H3).
  - split; [reflexivity|]. vm_compute. discriminate.
  - reflexivity.
  - exists video, w'. split; [exact H1|].
    assert (Hid : Video.id video = "d").
    { vm_compute in H1. now injection H1 as <- _. }
    rewrite Hid in *. split; [apply H2; discriminate|].
    rewrite H3 by reflexivity. reflexivity.
Defined.

(* ================================================================== *)
(** * The pipeline and deletions *)
(* ================================================================== *)

(** X5. [_process_video] never raises.  On an id that is not in the catalog
    it changes nothing.  On a stored video it rewrites the status and
    [updated_at] of that video and nothing else: the status becomes COMPLETED
    when the sleep returns and FAILED, with one line printed, when it raises
    (never PROCESSING or UPLOADING); the other fields, the other videos, the
    order of the catalog and the analysis catalog are as before. *)
Theorem process_video_outcome w video_id :
  (Py.get (videos_db w) video_id = None ->
   VideoService._process_video video_id w = (Return tt, w)) /\
  (forall v,
      Py.get (videos_db w) video_id = Some v ->
      exists w',
        VideoService._process_video video_id w = (Return tt, w') /\
        Py.get (videos_db w') video_id
        = Some (Video.set_updated_at (now_at (env w) (S (ticks w)))
                  (Video.set_status
                     (final_status (sleep_error (env w) video_id)) v)) /\
        final_status (sleep_error (env w) video_id) <> PROCESSING /\
        final_status (sleep_error (env w) video_id) <> UPLOADING /\
        (forall k, k <> video_id ->
                   Py.get (videos_db w') k = Py.get (videos_db w) k) /\
        Py.keys (videos_db w') = Py.keys (videos_db w) /\
        analyses_db w' = analyses_db w /\
        stdout w'
        = stdout w ++ pipeline_log (sleep_error (env w) video_id)).
Proof.
  split.
  - intros Hget. unfold VideoService._process_video.
    erewrite bind_return
      by (unfold VideoService.get_video_by_id; run; now rewrite Hget).
    reflexivity.
  - intros v Hget. eexists. split; [apply process_video_world; eauto|].
    simpl. rewrite get_set_same.
    split; [reflexivity|].
    split; [destruct (sleep_error (env w) video_id); discriminate|].
    split; [destruct (sleep_error (env w) video_id); discriminate|].
    split; [intros k Hk; now apply get_set_other|].
    split; [eapply keys_set_present; eauto|]. auto.
Qed.

Lemma process_video_outcome_witness :
  VideoService._process_video "z" Sample.uploading
  = (Return tt, Sample.uploading) /\
  exists w' v',
    VideoService._process_video "a" Sample.uploading = (Return tt, w') /\
    Py.get (videos_db w') "a" = Some v' /\
    Video.status v' = COMPLETED.
Proof.
  destruct (process_video_outcome Sample.uploading "z") as [H1 _].
  destruct (process_video_outcome Sample.uploading "a") as [_ H2].
  split; [apply H1; reflexivity|].
  destruct (H2 _ eq_refl) as (w' & H3 & H4 & _).
  eexists _, _. split; [exact H3|]. split; [exact H4|]. reflexivity.
Defined.

Lemma keys_del {V} (d : Py.dict V) k :
  Py.keys (Py.del d k)
  = filter (fun k' => negb (String.eqb k' k)) (Py.keys d).
Proof.
  induction d as [|[k0 v0] d IH]; simpl; auto.
  destruct (String.eqb k0 k); simpl; now rewrite IH.
Qed.

(** X6. After a video has been deleted, deleting it again raises 404 and
    changes nothing, and the first deletion removed that video only: every
    other id still maps to the same record, and the remaining ids keep their
    order. *)
Theorem delete_video_twice w video_id video :
  Py.get (videos_db w) video_id = Some video ->
  exists w',
    VideoService.delete_video video_id w = (Return true, w') /\
    VideoService.delete_video video_id w'
    = (Raise (HTTPException 404 "영상을 찾을 수 없습니다."), w') /\
    (forall k, k <> video_id ->
               Py.get (videos_db w') k = Py.get (videos_db w) k) /\
    Py.keys (videos_db w')
    = filter (fun k => negb (String.eqb k video_id)) (Py.keys (videos_db w)).
Proof.
  intros Hget. eexists. split; [apply delete_video_present; eauto|].
  split; [apply delete_video_absent; simpl; apply get_del_same|].
  simpl. split; [intros k Hk; now apply get_del_other|apply keys_del].
Qed.

Lemma delete_video_twice_witness :
  exists w',
    VideoService.delete_video "b" Sample.catalog = (Return true, w') /\
    VideoService.delete_video "b" w'
    = (Raise (HTTPException 404 "영상을 찾을 수 없습니다."), w') /\
    Py.keys (videos_db w') = ["a"; "c"].
Proof.
  destruct (@delete_video_twice Sample.catalog "b" _ eq_refl)
    as (w' & H1 & H2 & _ & H3).
  exists w'. split; [exact H1|]. split; [exact H2|].
  rewrite H3. reflexivity.
Defined.

(** X7. Deleting a video does not purge its analyses.  After an analysis of
    a COMPLETED video and the deletion of that
    video, the analysis is still in the analysis catalog under its id, while
    [get_video_analyses] for the video raises 404. *)
Theorem delete_video_orphans_analyses w video_id request video :
  Py.get (videos_db w) video_id = Some video ->
  Video.status video = COMPLETED ->
  exists analysis w1 w2,
    VideoService.analyze_video video_id request w = (Return analysis, w1) /\
    VideoService.delete_video video_id w1 = (Return true, w2) /\
    analyses_db w2 = analyses_db w1 /\
    Py.get (analyses_db w2) (VideoAnalysis.id analysis) = Some analysis /\
    VideoService.get_video_analyses video_id w2
    = (Raise (HTTPException 404 "영상을 찾을 수 없습니다."), w2).
Proof.
  intros Hget Hstatus.
  eexists _, _, _.
  split; [apply analyze_video_completed; eauto|].
  split; [apply delete_video_present; simpl; apply get_set_same|].
  simpl. split; [reflexivity|]. split; [apply get_set_same|].
  unfold VideoService.get_video_analyses. run. now rewrite get_del_same.
Qed.

Lemma delete_video_orphans_analyses_witness :
  exists analysis w1 w2,
    VideoService.analyze_video "a" Sample.goal_request Sample.catalog
    = (Return analysis, w1) /\
    VideoService.delete_video "a" w1 = (Return true, w2) /\
    Py.get (analyses_db w2) (VideoAnalysis.id analysis) = Some analysis.
Proof.
  destruct (@delete_video_orphans_analyses Sample.catalog "a"
              Sample.goal_request _ eq_refl eq_refl)
    as (analysis & w1 & w2 & H1 & H2 & _ & H3 & _).
  exists analysis, w1, w2. auto.
Defined.

(* ================================================================== *)
(** * Listing *)
(* ================================================================== *)

Lemma firstn_then_firstn {A} (l : list A) (n m : nat) :
  firstn n l ++ firstn m (skipn n l) = firstn (n + m) l.
Proof.
  revert l. induction n as [|n IH]; intros [|x l]; simpl; auto.
  - now rewrite firstn_nil.
  - now rewrite IH.
Qed.

(** X8. Consecutive pages of [get_video_history] tile the listing: for a
    non-negative offset and page sizes [n] and [m], the page of [n] videos at
    [offset] followed by the page of [m] videos at [offset + n] is the page
    of [n + m] videos at [offset].  A page holds at most its limit, and the
    page at offset 0 whose limit reaches the size of the catalog holds every
    video of the catalog exactly once.  Listing changes nothing. *)
Theorem history_pages_tile w offset n m :
  0 <= offset -> 0 <= n -> 0 <= m ->
  exists first second both,
    VideoService.get_video_history n offset w = (Return first, w) /\
    VideoService.get_video_history m (offset + n) w = (Return second, w) /\
    VideoService.get_video_history (n + m) offset w = (Return both, w) /\
    first ++ second = both /\
    Z.of_nat (List.length first) <= n /\
    (offset = 0 -> Z.of_nat (List.length (videos_db w)) <= n ->
     Permutation first (Py.values (videos_db w))).
Proof.
  intros Ho Hn Hm. eexists _, _, _.
  split; [apply get_video_history_eq|].
  split; [apply get_video_history_eq|].
  split; [apply get_video_history_eq|].
  rewrite !slice_window by lia.
  split; [|split].
  - rewrite !Z2Nat.inj_add by lia.
    rewrite (Nat.add_comm (Z.to_nat offset) (Z.to_nat n)).
    rewrite <- skipn_skipn. apply firstn_then_firstn.
  - pose proof (firstn_le_length (Z.to_nat n)
                  (skipn (Z.to_nat offset) (by_creation w))).
    lia.
  - intros -> Hsize. simpl skipn.
    assert (Hlen : List.length (by_creation w) = List.length (videos_db w)).
    { unfold by_creation.
      rewrite (Permutation_length (sort_reverse_perm _ _ _)).
      unfold Py.values. apply length_map. }
    rewrite firstn_all2 by lia. apply sort_reverse_perm.
Qed.

Lemma history_pages_tile_witness :
  exists first second both,
    VideoService.get_video_history 1 0 Sample.league
    = (Return first, Sample.league) /\
    VideoService.get_video_history 2 1 Sample.league
    = (Return second, Sample.league) /\
    VideoService.get_video_history 3 0 Sample.league
    = (Return both, Sample.league) /\
    first ++ second = both /\
    map Video.id both = ["e"; "d"; "c"].
Proof.
  destruct (@history_pages_tile Sample.league 0 1 2)
    as (first & second & both & H1 & H2 & H3 & H4 & _); try lia.
  exists first, second, both. repeat split; auto.
  vm_compute in H3. injection H3 as <-. reflexivity.
Defined.

Lemma get_none_keys {V} (d : Py.dict V) k :
  Py.get d k = None -> ~ In k (Py.keys d).
Proof.
  induction d as [|[k0 v0] d IH]; simpl; auto.
  destruct (String.eqb k0 k) eqn:E; [discriminate|].
  apply String.eqb_neq in E. intros H [H0|H0]; auto. now apply IH.
Qed.

Lemma nodup_keys_set {V} (d : Py.dict V) k v :
  NoDup (Py.keys d) -> NoDup (Py.keys (Py.set d k v)).
Proof.
  intros Hd. destruct (Py.get d k) as [v0|] eqn:Hget.
  - erewrite keys_set_present by eauto. exact Hd.
  - rewrite set_fresh by assumption. unfold Py.keys. rewrite map_app. simpl.
    apply NoDup_app; auto.
    + repeat constructor. intros [].
    + intros x Hx [<-|[]]. revert Hx. now apply get_none_keys.
Qed.

Lemma nodup_keys_del {V} (d : Py.dict V) k :
  NoDup (Py.keys d) -> NoDup (Py.keys (Py.del d k)).
Proof.
  intros Hd. rewrite keys_del. now apply NoDup_filter.
Qed.

Lemma in_get {V} (d : Py.dict V) k v :
  NoDup (Py.keys d) -> In (k, v) d -> Py.get d k = Some v.
Proof.
  induction d as [|[k0 v0] d IH]; simpl; [intros _ []|].
  intros Hd [H|H].
  - injection H as -> ->. now rewrite String.eqb_refl.
  - inversion Hd as [|? ? Hk0 Hd']; subst.
    destruct (String.eqb k0 k) eqn:E; auto.
    apply String.eqb_eq in E. subst k0. exfalso. apply Hk0.
    unfold Py.keys. apply in_map_iff. exists (k, v). auto.
Qed.

(** A transition leaves the video catalog alone, assigns one key, or removes
    one key. *)
Lemma step_catalog w w' :
  step w w' ->
  videos_db w' = videos_db w \/
  (exists k v, videos_db w' = Py.set (videos_db w) k v) \/
  (exists k, videos_db w' = Py.del (videos_db w) k).
Proof.
  intros [file title description sport_type match_date teams w1 r w1' H
         |video_id w1 r w1' H
         |video_id slept w1 r w1' H
         |video_id request w1 r w1' H
         |video_id w1 r w1' H].
  - revert H. unfold VideoService.create_video. cbv zeta.
    destruct (negb _); [intros [= _ <-]; auto|].
    destruct (_ <? _); [intros [= _ <-]; auto|].
    autounfold with service. cbn [env ticks drawn videos_db analyses_db stdout].
    destruct (write_error (env w1) _); intros [= _ <-]; auto.
    right. left. simpl. eauto.
  - rewrite start_processing_eq in H. injection H as _ <-.
    unfold transition. simpl. destruct (Py.get _ _); eauto.
  - rewrite finish_processing_world in H. injection H as _ <-.
    unfold transition. simpl. destruct (Py.get _ _); eauto.
  - destruct r as [analysis|e].
    + destruct (analyze_video_success _ _ _ H) as (video & _ & _ & _ & Hdb & _).
      eauto.
    + apply analyze_video_failure in H. subst. auto.
  - destruct (Py.get (videos_db w1) video_id) as [video|] eqn:Hget.
    + rewrite (delete_video_present w1 video_id Hget) in H.
      injection H as _ <-. simpl. eauto.
    + rewrite (delete_video_absent w1 video_id Hget) in H.
      injection H as _ <-. auto.
Qed.

Lemma reachable_nodup w0 w :
  videos_db w0 = [] -> reachable w0 w -> NoDup (Py.keys (videos_db w)).
Proof.
  intros Hempty Hreach. induction Hreach as [|w w' Hreach IH Hstep].
  - rewrite Hempty. constructor.
  - destruct (step_catalog Hstep) as [->|[(k & v & ->)|(k & ->)]]; auto.
    + now apply nodup_keys_set.
    + now apply nodup_keys_del.
Qed.

Lemma sort_reverse_newest {A K} (lt : K -> K -> bool) (key : A -> K) l x :
  Forall (fun y => lt (key y) (key x) = true) l ->
  Py.sort_reverse lt key (l ++ [x]) = x :: Py.sort_reverse lt key l.
Proof.
  induction 1 as [|y l Hy Hl IH]; simpl; auto.
  rewrite IH. simpl. now rewrite Hy.
Qed.

(** A record stamped with a new reading of the clock, stored under a new
    key, comes first in the listing. *)
Lemma newest_first w0 w k v n :
  strictly_increasing_clock (env w0) ->
  videos_db w0 = [] ->
  reachable w0 w ->
  Py.get (videos_db w) k = None ->
  (ticks w <= n)%nat ->
  Video.created_at v = now_at (env w) n ->
  Py.sort_reverse Z.ltb Video.created_at
    (Py.values (Py.set (videos_db w) k v))
  = v :: by_creation w.
Proof.
  intros Hclock Hempty Hreach Hfresh Hn Hv.
  rewrite set_fresh by assumption. unfold Py.values. rewrite map_app.
  cbn [map snd].
  rewrite sort_reverse_newest; [reflexivity|].
  destruct (reachable_stamped Hempty Hreach) as [He Hst].
  pose proof (reachable_nodup Hempty Hreach) as Hnodup.
  apply Forall_forall. intros y Hy.
  apply in_map_iff in Hy. destruct Hy as ([k' v'] & <- & Hin).
  apply in_get in Hin; [|exact Hnodup].
  destruct (Hst k' v' Hin) as (n' & m' & Hnm & Hc & _).
  cbn [snd]. rewrite Hc, Hv. apply Z.ltb_lt.
  rewrite He. apply Hclock. lia.
Qed.

(** X9. A new upload is listed first from the moment it is stored.  With a
    strictly increasing clock, in a catalog reached from the empty one, the
    record that a valid, saved upload stores under a new identifier is the
    first video of the listing, both when it has just been stored and when
    the pipeline has started on it, which is the state in which
    [upload_video] is suspended: [get_video_history] with limit 1 and
    offset 0 returns exactly that record, then with status PROCESSING. *)
Theorem latest_upload_listed_first w0 w file title description sport_type
        match_date teams :
  strictly_increasing_clock (env w0) ->
  videos_db w0 = [] ->
  reachable w0 w ->
  valid_upload file ->
  write_error (env w) (upload_path w file) = None ->
  Py.get (videos_db w) (uuid_at (env w) (drawn w)) = None ->
  exists video w1 started w2,
    VideoService.create_video file title description sport_type match_date
                              teams w
    = (Return video, w1) /\
    VideoService.get_video_history 1 0 w1 = (Return [video], w1) /\
    VideoService.start_processing (Video.id video) w1 = (Return tt, w2) /\
    VideoService.get_video_history 1 0 w2 = (Return [started], w2) /\
    Video.id started = Video.id video /\
    Video.status started = PROCESSING.
Proof.
  intros Hclock Hempty Hreach Hvalid Hwrite Hfresh.
  pose proof (@create_video_valid w file title description sport_type
                match_date teams Hvalid Hwrite) as Hcreate.
  cbv zeta in Hcreate.
  eexists _, _, _, _. split; [exact Hcreate|].
  split.
  { rewrite get_video_history_eq. f_equal. f_equal.
    rewrite slice_prefix by lia.
    unfold by_creation. cbn [videos_db].
    erewrite newest_first with (n := ticks w); eauto. }
  split; [apply start_processing_eq|].
  rewrite get_video_history_eq.
  split.
  { f_equal. f_equal.
    rewrite slice_prefix by lia.
    unfold by_creation, transition.
    cbn [videos_db VideoService.new_video Video.id].
    rewrite get_set_same, set_set.
    erewrite newest_first with (n := ticks w); eauto; reflexivity. }
  split; reflexivity.
Qed.

Lemma latest_upload_listed_first_witness :
  exists video w1 started w2,
    VideoService.create_video Sample.clip "Clip" None None None None
                              Sample.uploading
    = (Return video, w1) /\
    VideoService.get_video_history 1 0 w1 = (Return [video], w1) /\
    VideoService.start_processing "b" w1 = (Return tt, w2) /\
    VideoService.get_video_history 1 0 w2 = (Return [started], w2) /\
    Video.id video = "b" /\
    Video.status started = PROCESSING.
Proof.
  destruct (@latest_upload_listed_first Sample.empty Sample.uploading
              Sample.clip "Clip" None None None None)
    as (video & w1 & started & w2 & H1 & H2 & H3 & H4 & H5 & H6).
  - intros i j H. simpl. unfold Sample.second. lia.
  - reflexivity.
  - apply reachable_step with (w := Sample.empty); [constructor|].
    eapply step_create
      with (file := Sample.clip) (title := "First leg") (description := None)
           (sport_type := Some "soccer") (match_date := Some (Naive 0))
           (teams := Some ["Red"; "Blue"]).
    vm_compute. reflexivity.
  - split; [reflexivity|]. vm_compute. discriminate.
  - reflexivity.
  - reflexivity.
  - assert (Hid : Video.id video = "b").
    { vm_compute in H1. now injection H1 as <- _. }
    rewrite Hid in H3.
    exists video, w1, started, w2. auto 10.
Defined.

(* ================================================================== *)
(** * More on recommendations *)
(* ================================================================== *)

Lemma passes_threshold sport team date :
  (0.1 <? score_of sport team date)%float = (sport || team || date)%bool.
Proof.
  destruct sport, team, date; reflexivity.
Qed.

Lemma candidates_ids video_id current_video videos kept :
  VideoService.candidates video_id current_video videos = Return kept ->
  map VideoRecommendation.video_id kept
  = map Video.id
        (filter (fun v => (negb (String.eqb (Video.id v) video_id)
                           && related current_video v)%bool)
                videos).
Proof.
  revert kept. induction videos as [|v videos IH]; intros kept.
  - intros [= <-]. reflexivity.
  - rewrite candidates_cons.
    destruct (VideoService.recommend_step video_id current_video [] v)
      as [first|e] eqn:Hstep; [|discriminate].
    destruct (VideoService.candidates video_id current_video videos)
      as [others|e]; [|discriminate].
    simpl outcome_map. intros [= <-].
    rewrite map_app, (IH others eq_refl). clear IH. simpl filter.
    unfold VideoService.recommend_step in Hstep. unfold related.
    destruct (String.eqb (Video.id v) video_id); simpl.
    + injection Hstep as <-. reflexivity.
    + destruct (VideoService.similarity current_video v) as [[s reason]|e]
        eqn:Hs; [|discriminate].
      apply similarity_return in Hs. destruct Hs as [_ ->].
      rewrite passes_threshold in Hstep.
      destruct (same_sport current_video v || common_team current_video v
                || close_date current_video v)%bool;
        injection Hstep as <-; reflexivity.
Qed.

(** X10. The threshold of 0.1 only removes the videos that share nothing
    with the target.  For an existing target whose match date clashes with
    that of no other video, and a limit that is at least the size of the
    catalog, the videos recommended are exactly the catalog videos, other
    than the target, for which at least one of the three factors holds (same
    sport, a common team, a close date). *)
Theorem recommendations_are_the_related w video_id limit current_video :
  Py.get (videos_db w) video_id = Some current_video ->
  dates_comparable video_id current_video (Py.values (videos_db w)) ->
  Z.of_nat (List.length (videos_db w)) <= limit ->
  exists recommendations,
    VideoService.get_video_recommendations video_id limit w
    = (Return recommendations, w) /\
    Permutation
      (map VideoRecommendation.video_id recommendations)
      (map Video.id
           (filter (fun v => (negb (String.eqb (Video.id v) video_id)
                              && related current_video v)%bool)
                   (Py.values (videos_db w)))).
Proof.
  intros Hget Hcomp Hlimit.
  destruct (candidates_return Hcomp) as [kept Hkept].
  eexists. split.
  { rewrite (get_video_recommendations_eq w video_id limit Hget), Hkept.
    reflexivity. }
  rewrite slice_prefix by lia.
  pose proof (candidates_ids _ _ _ Hkept) as Hids.
  rewrite <- Hids.
  rewrite firstn_all2.
  - apply Permutation_map, sort_reverse_perm.
  - rewrite (Permutation_length (sort_reverse_perm _ _ _)).
    rewrite <- (length_map VideoRecommendation.video_id), Hids, length_map.
    pose proof (filter_length_le
                  (fun v => (negb (String.eqb (Video.id v) video_id)
                             && related current_video v)%bool)
                  (Py.values (videos_db w))) as Hle.
    unfold Py.values in *. rewrite length_map in Hle. lia.
Qed.

Lemma recommendations_are_the_related_witness :
  exists recommendations,
    VideoService.get_video_recommendations "c" 5 Sample.league
    = (Return recommendations, Sample.league) /\
    Permutation (map VideoRecommendation.video_id recommendations)
                ["a"; "b"; "d"].
Proof.
  destruct (@recommendations_are_the_related Sample.league "c" 5 _ eq_refl)
    as (recommendations & H1 & H2).
  - intros v Hv _. simpl in Hv.
    destruct Hv as [<-|[<-|[<-|[<-|[<-|[]]]]]]; reflexivity.
  - simpl. lia.
  - exists recommendations. split; [exact H1|exact H2].
Defined.

(** X11. Every score that [get_video_recommendations] returns, for any
    limit, is one of the seven non-zero sums of 0.3, 0.4 and 0.2, hence at
    least 0.2 and at most 0.9. *)
Theorem recommendation_scores_bounded w video_id limit recommendations w' :
  VideoService.get_video_recommendations video_id limit w
  = (Return recommendations, w') ->
  Forall (fun r =>
            In (VideoRecommendation.similarity_score r) score_values /\
            (0.2 <=? VideoRecommendation.similarity_score r)%float = true /\
            (VideoRecommendation.similarity_score r <=? 0.9)%float = true)
         recommendations.
Proof.
  intros Hrun.
  destruct (get_video_recommendations_returned _ _ _ Hrun)
    as (current_video & kept & Hget & Hkept & -> & _).
  apply Forall_forall. intros r Hr.
  apply in_slice in Hr.
  apply (Permutation_in _ (sort_reverse_perm _ _ _)) in Hr.
  destruct (@in_candidates _ _ _ _ _ Hkept Hr)
    as (v & reason & _ & _ & _ & _ & Hs & _ & Hpass).
  assert (Hin : In (VideoRecommendation.similarity_score r) score_values).
  { apply similarity_return in Hs. destruct Hs as [_ ->].
    apply score_of_values. }
  split; auto.
  assert (Hall : forallb (fun s => implb (0.1 <? s)%float
                                     ((0.2 <=? s) && (s <=? 0.9))%float)
                         score_values = true) by reflexivity.
  rewrite forallb_forall in Hall. specialize (Hall _ Hin).
  rewrite Hpass in Hall. simpl in Hall.
  now apply andb_true_iff in Hall.
Qed.

Lemma recommendation_scores_bounded_witness :
  exists recommendations,
    VideoService.get_video_recommendations "b" (-1) Sample.league
    = (Return recommendations, Sample.league) /\
    List.length recommendations = 2%nat /\
    Forall (fun r =>
              In (VideoRecommendation.similarity_score r) score_values /\
              (0.2 <=? VideoRecommendation.similarity_score r)%float = true /\
              (VideoRecommendation.similarity_score r <=? 0.9)%float = true)
           recommendations.
Proof.
  eexists. split; [vm_compute; reflexivity|]. split; [reflexivity|].
  eapply recommendation_scores_bounded
    with (w := Sample.league) (video_id := "b") (limit := -1).
  vm_compute. reflexivity.
Defined.

Lemma same_sport_sym a b : same_sport a b = same_sport b a.
Proof.
  unfold same_sport, Py.truthy_str, Py.opt_str_eqb.
  destruct (Video.sport_type a) as [x|], (Video.sport_type b) as [y|];
    rewrite ?andb_false_r; auto.
  rewrite (String.eqb_sym y x).
  destruct (String.eqb x y) eqn:E; [|now rewrite !andb_false_r].
  apply String.eqb_eq in E. now subst.
Qed.

Lemma common_team_sym a b : common_team a b = common_team b a.
Proof.
  unfold common_team.
  destruct (Video.teams a) as [cs|], (Video.teams b) as [ts|]; auto.
  apply eq_true_iff_eq. unfold Py.str_in.
  rewrite !existsb_exists. split.
  - intros (c & Hc & Hin). apply existsb_exists in Hin.
    destruct Hin as (t & Ht & E). apply String.eqb_eq in E. subst t.
    exists c. split; auto. apply existsb_exists. exists c.
    split; auto. apply String.eqb_refl.
  - intros (t & Ht & Hin). apply existsb_exists in Hin.
    destruct Hin as (c & Hc & E). apply String.eqb_eq in E. subst c.
    exists t. split; auto. apply existsb_exists. exists t.
    split; auto. apply String.eqb_refl.
Qed.

Lemma close_date_sym a b :
  whole_days_apart a b -> close_date a b = close_date b a.
Proof.
  unfold whole_days_apart, close_date, days.
  destruct (Video.match_date a) as [[x|x]|],
           (Video.match_date b) as [[y|y]|]; cbn [datetime_sub]; auto;
    intros Hmod;
    replace (y - x) with (- (x - y)) by lia;
    (rewrite Z.div_opp_l_z by (unfold microseconds_per_day; lia || assumption));
    now rewrite Z.abs_opp.
Qed.

Lemma date_clash_sym a b : date_clash a b = date_clash b a.
Proof.
  unfold date_clash.
  destruct (Video.match_date a) as [[x|x]|],
           (Video.match_date b) as [[y|y]|]; reflexivity.
Qed.

(** X12. When the match dates of two videos differ by a whole number of
    days, or one of them has no match date, each scores the other the same:
    the score is symmetric; and when the subtraction of their dates raises,
    it raises either way. *)
Theorem similarity_symmetric a b :
  whole_days_apart a b ->
  outcome_map fst (VideoService.similarity a b)
  = outcome_map fst (VideoService.similarity b a).
Proof.
  intros H. rewrite !similarity_score_of.
  now rewrite same_sport_sym, common_team_sym, (close_date_sym a b H),
    date_clash_sym.
Qed.

Lemma similarity_symmetric_witness :
  exists a c,
    Py.get (videos_db Sample.league) "a" = Some a /\
    Py.get (videos_db Sample.league) "c" = Some c /\
    outcome_map fst (VideoService.similarity a c)
    = outcome_map fst (VideoService.similarity c a) /\
    outcome_map fst (VideoService.similarity a c)
    = Return (0.0 + 0.3 + 0.2)%float.
Proof.
  eexists _, _. split; [reflexivity|]. split; [reflexivity|].
  split; [|reflexivity].
  apply similarity_symmetric. vm_compute. reflexivity.
Defined.

Lemma slice_negative_stop {A} (l : list A) stop :
  stop < 0 ->
  Py.slice l 0 stop = firstn (Z.to_nat (Z.of_nat (List.length l) + stop)) l.
Proof.
  intros Hs. unfold Py.slice, Py.adjust_index. simpl.
  destruct (stop <? 0) eqn:E; [|apply Z.ltb_ge in E; lia].
  rewrite Z.min_l by lia.
  destruct (0 <? Z.max (stop + Z.of_nat (List.length l)) 0) eqn:E1.
  - apply Z.ltb_lt in E1. rewrite Z.sub_0_r. f_equal. lia.
  - apply Z.ltb_ge in E1.
    replace (Z.to_nat (Z.of_nat (List.length l) + stop)) with 0%nat by lia.
    reflexivity.
Qed.

(** X13. The limit of [get_video_recommendations] is a slice bound and is
    not checked; what the call does is decided before the limit is read.
    For a missing target it raises 404 whatever the limit.  For an existing
    target whose match date clashes with that of another video it raises the
    [TypeError] of the subtraction whatever the limit.  For an existing
    target without such a clash there is one ranking of the candidates,
    sorted by non-increasing score, of which every call returns the Python
    slice up to the limit, changing nothing: its first [limit] entries for a
    non-negative limit, hence nothing for 0 and the whole ranking once the
    limit reaches its length, and for a negative limit the ranking without
    its last [-limit] entries. *)
Theorem recommendations_limit w video_id :
  (Py.get (videos_db w) video_id = None ->
   forall limit,
     VideoService.get_video_recommendations video_id limit w
     = (Raise (HTTPException 404 "영상을 찾을 수 없습니다."), w)) /\
  (forall current_video,
      Py.get (videos_db w) video_id = Some current_video ->
      (forall v,
          In v (Py.values (videos_db w)) ->
          Video.id v <> video_id ->
          date_clash current_video v = true ->
          forall limit,
            VideoService.get_video_recommendations video_id limit w
            = (Raise (TypeError
                        "can't subtract offset-naive and offset-aware datetimes"),
               w)) /\
      (dates_comparable video_id current_video (Py.values (videos_db w)) ->
       exists ranked kept,
         VideoService.candidates video_id current_video
           (Py.values (videos_db w))
         = Return kept /\
         Permutation ranked kept /\
         StronglySorted
           (fun a b => (VideoRecommendation.similarity_score b
                        <=? VideoRecommendation.similarity_score a)%float = true)
           ranked /\
         forall limit,
           VideoService.get_video_recommendations video_id limit w
           = (Return (Py.slice ranked 0 limit), w) /\
           (0 <= limit ->
            Py.slice ranked 0 limit = firstn (Z.to_nat limit) ranked) /\
           (limit = 0 -> Py.slice ranked 0 limit = []) /\
           (Z.of_nat (List.length ranked) <= limit ->
            Py.slice ranked 0 limit = ranked) /\
           (limit < 0 ->
            Py.slice ranked 0 limit
            = firstn (List.length ranked - Z.to_nat (- limit)) ranked))).
Proof.
  split.
  - intros Hget limit. now apply get_video_recommendations_absent.
  - intros current_video Hget. split.
    + intros v Hv Hne Hclash limit.
      rewrite (get_video_recommendations_eq w video_id limit Hget).
      now rewrite (@candidates_raise _ _ _ _ Hv Hne Hclash).
    + intros Hcomp. destruct (candidates_return Hcomp) as [kept Hkept].
      exists (Py.sort_reverse PrimFloat.ltb
                VideoRecommendation.similarity_score kept), kept.
      split; [exact Hkept|]. split; [apply sort_reverse_perm|].
      split; [eapply ranked_sorted; eauto|].
      intros limit. split.
      { rewrite (get_video_recommendations_eq w video_id limit Hget), Hkept.
        reflexivity. }
      split; [intros H; now apply slice_prefix|].
      split; [intros ->; apply slice_empty_window|].
      split.
      * intros H. rewrite slice_prefix by lia. apply firstn_all2. lia.
      * intros H. rewrite slice_negative_stop by lia. f_equal. lia.
Qed.

Lemma recommendations_limit_witness :
  VideoService.get_video_recommendations "z" 5 Sample.league
  = (Raise (HTTPException 404 "영상을 찾을 수 없습니다."), Sample.league) /\
  VideoService.get_video_recommendations "a" 5 Sample.zoned
  = (Raise (TypeError "can't subtract offset-naive and offset-aware datetimes"),
     Sample.zoned) /\
  exists all_but_last,
    VideoService.get_video_recommendations "c" (-1) Sample.league
    = (Return all_but_last, Sample.league) /\
    map VideoRecommendation.video_id all_but_last = ["a"; "b"].
Proof.
  destruct (recommendations_limit Sample.league "z") as [H1 _].
  destruct (recommendations_limit Sample.zoned "a") as [_ H2].
  destruct (recommendations_limit Sample.league "c") as [_ H3].
  split; [apply H1; reflexivity|].
  split.
  - destruct (H2 _ eq_refl) as [H _].
    eapply H with (v := nth 3 (Py.values (videos_db Sample.zoned))
                            (nth 0 (Py.values (videos_db Sample.zoned))
                                 (VideoService.new_video "" "" None "" 0 None
                                    None None 0 0))).
    + simpl. auto.
    + discriminate.
    + reflexivity.
  - destruct (H3 _ eq_refl) as [_ H].
    destruct H as (ranked & kept & Hkept & _ & _ & H4).
    + intros v Hv _. simpl in Hv.
      destruct Hv as [<-|[<-|[<-|[<-|[<-|[]]]]]]; reflexivity.
    + destruct (H4 (-1)) as (H5 & _).
      eexists. split; [exact H5|].
      assert (E : exists l,
                 VideoService.get_video_recommendations "c" (-1) Sample.league
                 = (Return l, Sample.league) /\
                 map VideoRecommendation.video_id l = ["a"; "b"])
        by (eexists; split; [vm_compute; reflexivity|reflexivity]).
      destruct E as (l & E1 & E2). rewrite E1 in H5.
      injection H5 as <-. exact E2.
Defined.

Lemma lstrip_keeps chars l c :
  existsb (Ascii.eqb c) chars = false ->
  exists c' tail,
    Py.lstrip_list chars (l ++ [c]) = c' :: tail /\
    existsb (Ascii.eqb c') chars = false.
Proof.
  intros Hc. induction l as [|x l IH]; simpl.
  - rewrite Hc. eauto.
  - destruct (existsb (Ascii.eqb x) chars) eqn:Ex; eauto.
Qed.

Lemma rstrip_last s chars c rest :
  Py.char_list s = c :: rest ->
  existsb (Ascii.eqb c) (Py.char_list chars) = false ->
  exists c',
    last_char (Py.rstrip s chars) = Some c' /\
    existsb (Ascii.eqb c') (Py.char_list chars) = false.
Proof.
  intros Hs Hc. unfold last_char, Py.rstrip, Py.char_list in *.
  rewrite list_ascii_of_string_of_list_ascii, rev_involutive, Hs.
  simpl rev.
  destruct (lstrip_keeps (list_ascii_of_string chars) (rev rest) c Hc)
    as (c' & tail & -> & Hc').
  eauto.
Qed.

(** The reason that the loop body builds, when the score passes the
    threshold, begins with a character that [rstrip] does not remove. *)
Lemma similarity_reason_head current_video video s reason :
  VideoService.similarity current_video video = Return (s, reason) ->
  (0.1 <? s)%float = true ->
  exists c rest,
    Py.char_list reason = c :: rest /\
    existsb (Ascii.eqb c) (Py.char_list ", ") = false.
Proof.
  unfold VideoService.similarity.
  destruct (Py.truthy_str (Video.sport_type current_video)
            && Py.opt_str_eqb (Video.sport_type video)
                              (Video.sport_type current_video))%bool;
    destruct (Video.teams current_video) as [[|c cs]|];
    destruct (Video.teams video) as [[|t ts]|];
    try destruct (Py.set_inter (c :: cs) (t :: ts));
    destruct (Video.match_date current_video) as [[a|a]|];
    destruct (Video.match_date video) as [[b|b]|];
    cbn [datetime_sub];
    try destruct (Z.abs (days (a - b)) <=? 30);
    intros Heq; try discriminate Heq;
    injection Heq as Hs Hr; subst s reason;
    simpl; intros H; try discriminate H; eexists _, _; split; reflexivity.
Qed.

(** X14. Every recommendation carries a reason that is not empty and does
    not end with a comma or a space: the trailing separator of the last
    factor is always trimmed. *)
Theorem recommendation_reason_trimmed w video_id limit recommendations w' :
  VideoService.get_video_recommendations video_id limit w
  = (Return recommendations, w') ->
  Forall (fun r =>
            exists c,
              last_char (VideoRecommendation.reason r) = Some c /\
              c <> ","%char /\ c <> " "%char)
         recommendations.
Proof.
  intros Hrun.
  destruct (get_video_recommendations_returned _ _ _ Hrun)
    as (current_video & kept & Hget & Hkept & -> & _).
  apply Forall_forall. intros r Hr.
  apply in_slice in Hr.
  apply (Permutation_in _ (sort_reverse_perm _ _ _)) in Hr.
  destruct (@in_candidates _ _ _ _ _ Hkept Hr)
    as (v & reason & _ & _ & _ & _ & Hs & -> & Hpass).
  destruct (similarity_reason_head _ _ Hs Hpass) as (c & rest & Hc & Hkeep).
  destruct (rstrip_last _ _ Hc Hkeep) as (c' & Hlast & Hc').
  exists c'. split; auto.
  simpl in Hc'. apply orb_false_iff in Hc'. destruct Hc' as [H1 H2].
  apply orb_false_iff in H2. destruct H2 as [H2 _].
  apply Ascii.eqb_neq in H1, H2. auto.
Qed.

Lemma recommendation_reason_trimmed_witness :
  exists recommendations,
    VideoService.get_video_recommendations "b" 5 Sample.catalog
    = (Return recommendations, Sample.catalog) /\
    map VideoRecommendation.reason recommendations
    = ["같은 스포츠 종목, 공통 팀: Blue, 비슷한 경기 날짜"] /\
    Forall (fun r =>
              exists c,
                last_char (VideoRecommendation.reason r) = Some c /\
                c <> ","%char /\ c <> " "%char)
           recommendations.
Proof.
  eexists. split; [vm_compute; reflexivity|]. split; [reflexivity|].
  eapply recommendation_reason_trimmed
    with (w := Sample.catalog) (video_id := "b") (limit := 5).
  vm_compute. reflexivity.
Defined.

(** X15. The score that the engine gives a candidate is exactly the
    binary64 sum, taken in this order, of 0.3 when target and candidate have
    the same non-empty sport type, 0.4 when their team lists share a name,
    and 0.2 when both have a match date and the target's date lies from 30
    days before to less than 31 days after the candidate's.  The engine
    gives no score, and raises [TypeError], exactly when both have a match
    date and one is naive where the other is aware. *)
Theorem similarity_score_exact current_video video :
  outcome_map fst (VideoService.similarity current_video video)
  = (if date_clash current_video video
     then Raise (TypeError
                   "can't subtract offset-naive and offset-aware datetimes")
     else Return (score_of (same_sport current_video video)
                           (common_team current_video video)
                           (close_date current_video video))) /\
  (same_sport current_video video = true <->
   exists s, s <> "" /\
             Video.sport_type current_video = Some s /\
             Video.sport_type video = Some s) /\
  (common_team current_video video = true <->
   exists cs ts name,
     Video.teams current_video = Some cs /\
     Video.teams video = Some ts /\
     In name cs /\ In name ts) /\
  (close_date current_video video = true <->
   exists a b difference,
     Video.match_date current_video = Some a /\
     Video.match_date video = Some b /\
     datetime_sub a b = Some difference /\
     - 30 * microseconds_per_day <= difference < 31 * microseconds_per_day) /\
  (date_clash current_video video = true <->
   exists a b,
     Video.match_date current_video = Some a /\
     Video.match_date video = Some b /\
     datetime_sub a b = None).
Proof.
  split; [apply similarity_score_of|]. split; [|split; [|split]].
  - unfold same_sport, Py.truthy_str, Py.opt_str_eqb.
    destruct (Video.sport_type current_video) as [x|],
             (Video.sport_type video) as [y|]; simpl.
    + rewrite andb_true_iff, negb_true_iff, String.eqb_neq, String.eqb_eq.
      split.
      * intros [Hx ->]. exists x. auto.
      * intros (s & Hs & [= ->] & [= ->]). auto.
    + rewrite andb_false_r.
      split; [discriminate|intros (s & _ & _ & H); discriminate].
    + split; [discriminate|intros (s & _ & H & _); discriminate].
    + split; [discriminate|intros (s & _ & H & _); discriminate].
  - unfold common_team.
    destruct (Video.teams current_video) as [cs|],
             (Video.teams video) as [ts|].
    + rewrite existsb_exists. split.
      * intros (c & Hc & Hin). unfold Py.str_in in Hin.
        apply existsb_exists in Hin. destruct Hin as (t & Ht & E).
        apply String.eqb_eq in E. subst t. exists cs, ts, c. auto.
      * intros (cs' & ts' & name & [= <-] & [= <-] & Hc & Ht).
        exists name. split; auto. unfold Py.str_in. apply existsb_exists.
        exists name. split; auto. apply String.eqb_refl.
    + split; [discriminate|intros (? & ? & ? & _ & H & _); discriminate].
    + split; [discriminate|intros (? & ? & ? & H & _); discriminate].
    + split; [discriminate|intros (? & ? & ? & H & _); discriminate].
  - apply close_date_window.
  - unfold date_clash.
    destruct (Video.match_date current_video) as [a|];
      [|split; [discriminate|intros (? & ? & ? & _); discriminate]].
    destruct (Video.match_date video) as [b|];
      [|split; [discriminate|intros (? & ? & _ & ? & _); discriminate]].
    destruct (datetime_sub a b) as [difference|] eqn:Hsub.
    + split; [discriminate|].
      intros (a' & b' & [= <-] & [= <-] & H). congruence.
    + split; eauto.
Qed.

Lemma bare_unrelated_l v u :
  Py.truthy_str (Video.sport_type v) = false ->
  Py.truthy_list (Video.teams v) = false ->
  Video.match_date v = None ->
  related v u = false.
Proof.
  intros Hs Ht Hd. unfold related, same_sport, common_team, close_date.
  rewrite Hs, Hd. simpl.
  destruct (Video.teams v) as [[|c cs]|]; try discriminate;
    destruct (Video.teams u); reflexivity.
Qed.

Lemma bare_unrelated_r v u :
  Py.truthy_str (Video.sport_type v) = false ->
  Py.truthy_list (Video.teams v) = false ->
  Video.match_date v = None ->
  related u v = false.
Proof.
  intros Hs Ht Hd. unfold related, same_sport, common_team, close_date.
  rewrite Hd.
  assert (H1 : (Py.truthy_str (Video.sport_type u)
                && Py.opt_str_eqb (Video.sport_type v) (Video.sport_type u))%bool
               = false).
  { unfold Py.truthy_str, Py.opt_str_eqb in *.
    destruct (Video.sport_type u) as [x|]; auto.
    destruct (Video.sport_type v) as [y|]; [|apply andb_false_r].
    apply negb_false_iff, String.eqb_eq in Hs. subst y.
    rewrite (String.eqb_sym "" x). now destruct (String.eqb x "").  }
  rewrite H1. simpl.
  assert (H2 : match Video.teams u, Video.teams v with
               | Some cs, Some ts => existsb (fun c => Py.str_in c ts) cs
               | _, _ => false
               end = false).
  { destruct (Video.teams u) as [cs|]; auto.
    destruct (Video.teams v) as [[|t ts]|]; try discriminate; auto.
    apply no_common_with_nil. }
  rewrite H2. now destruct (Video.match_date u).
Qed.

Lemma filter_none {A} (f : A -> bool) l :
  (forall x, f x = false) -> filter f l = [].
Proof.
  intros H. induction l as [|x l IH]; simpl; auto. now rewrite H.
Qed.

Lemma slice_nil {A} start stop : Py.slice (@nil A) start stop = [].
Proof.
  unfold Py.slice. destruct (_ <? _); auto.
  now rewrite skipn_nil, firstn_nil.
Qed.

(** X16. A video stored without a sport type, without teams and without a
    match date takes no part in the recommendations: asked as the target it
    gets no recommendation at all, and it is never recommended for another
    target. *)
Theorem bare_video_not_recommended w video_id bare :
  Py.get (videos_db w) video_id = Some bare ->
  Py.truthy_str (Video.sport_type bare) = false ->
  Py.truthy_list (Video.teams bare) = false ->
  Video.match_date bare = None ->
  ids_match w ->
  NoDup (Py.keys (videos_db w)) ->
  (forall limit,
      VideoService.get_video_recommendations video_id limit w
      = (Return [], w)) /\
  (forall target limit recommendations w',
      VideoService.get_video_recommendations target limit w
      = (Return recommendations, w') ->
      Forall (fun r => VideoRecommendation.video_id r <> video_id)
             recommendations).
Proof.
  intros Hget Hs Ht Hd Hids Hnodup. split.
  - intros limit.
    rewrite (get_video_recommendations_eq w video_id limit Hget).
    destruct (@candidates_return video_id bare (Py.values (videos_db w)))
      as [kept Hkept].
    { intros v _ _. unfold date_clash. now rewrite Hd. }
    rewrite Hkept.
    assert (Hnone : kept = []).
    { pose proof (candidates_ids _ _ _ Hkept) as Hc.
      rewrite filter_none in Hc.
      - now destruct kept.
      - intros v. rewrite (bare_unrelated_l bare v Hs Ht Hd).
        apply andb_false_r. }
    rewrite Hnone. simpl. now rewrite slice_nil.
  - intros target limit recommendations w' Hrun.
    destruct (get_video_recommendations_returned _ _ _ Hrun)
      as (current_video & kept & Htarget & Hkept & -> & _).
    apply Forall_forall. intros r Hr Hid.
    apply in_slice in Hr.
    apply (Permutation_in _ (sort_reverse_perm _ _ _)) in Hr.
    destruct (@in_candidates _ _ _ _ _ Hkept Hr)
      as (v & reason & Hv & _ & Hrv & _ & Hscore & _ & Hpass).
    apply in_values in Hv. destruct Hv as [k Hk].
    pose proof (Hids _ _ Hk) as Hkid.
    apply in_get in Hk; [|exact Hnodup].
    assert (Hsame : k = video_id) by congruence.
    rewrite Hsame, Hget in Hk. injection Hk as <-.
    apply similarity_return in Hscore. destruct Hscore as [_ Hscore].
    rewrite Hscore, passes_threshold in Hpass.
    pose proof (bare_unrelated_r bare current_video Hs Ht Hd) as Hrel.
    unfold related in Hrel. congruence.
Qed.

Lemma bare_video_not_recommended_witness :
  VideoService.get_video_recommendations "d" 5 Sample.mixed
  = (Return [], Sample.mixed) /\
  exists recommendations,
    VideoService.get_video_recommendations "a" 5 Sample.mixed
    = (Return recommendations, Sample.mixed) /\
    Forall (fun r => VideoRecommendation.video_id r <> "d") recommendations.
Proof.
  destruct (@bare_video_not_recommended Sample.mixed "d" _ eq_refl)
    as [H1 H2]; try reflexivity.
  - intros k v H. simpl in H.
    destruct H as [H|[H|[H|[H|[]]]]]; injection H as <- <-; reflexivity.
  - simpl. repeat constructor; simpl; intuition discriminate.
  - split; [apply H1|].
    eexists. split; [vm_compute; reflexivity|].
    eapply H2 with (target := "a") (limit := 5). vm_compute. reflexivity.
Defined.

(* ================================================================== *)
(** * Ownership of analyses *)
(* ================================================================== *)

Lemma owned_set w d k v :
  analyses_owned w ->
  (forall a, In a (analyses_of v) -> VideoAnalysis.video_id a = k) ->
  d = Py.set (videos_db w) k v ->
  forall k' v' a,
    Py.get d k' = Some v' -> In a (analyses_of v') ->
    VideoAnalysis.video_id a = k'.
Proof.
  intros Hw Hv -> k' v' a Hget Hin.
  destruct (String.eqb k' k) eqn:E.
  - apply String.eqb_eq in E. subst k'. rewrite get_set_same in Hget.
    injection Hget as <-. auto.
  - apply String.eqb_neq in E. rewrite get_set_other in Hget by auto.
    eapply Hw; eauto.
Qed.

Lemma owned_transition w video_id s :
  analyses_owned w -> analyses_owned (transition video_id s w).
Proof.
  intros Hw. unfold analyses_owned, transition. cbn [videos_db].
  destruct (Py.get (videos_db w) video_id) as [v|] eqn:Hget; auto.
  eapply owned_set; [exact Hw| |reflexivity].
  intros a Ha. exact (Hw video_id v a Hget Ha).
Qed.

Lemma step_owned w w' : step w w' -> analyses_owned w -> analyses_owned w'.
Proof.
  intros [file title description sport_type match_date teams w1 r w1' H
         |video_id w1 r w1' H
         |video_id slept w1 r w1' H
         |video_id request w1 r w1' H
         |video_id w1 r w1' H] Hw.
  - revert H. unfold VideoService.create_video. cbv zeta.
    destruct (negb _); [intros [= _ <-]; auto|].
    destruct (_ <? _); [intros [= _ <-]; auto|].
    autounfold with service. cbn [env ticks drawn videos_db analyses_db stdout].
    destruct (write_error (env w1) _); intros [= _ <-]; auto.
    unfold analyses_owned. cbn [videos_db].
    eapply owned_set; [exact Hw| |reflexivity]. intros a [].
  - rewrite start_processing_eq in H. injection H as _ <-.
    now apply owned_transition.
  - rewrite finish_processing_world in H. injection H as _ <-.
    exact (owned_transition video_id (final_status slept) Hw).
  - destruct r as [analysis|e].
    + destruct (analyze_video_success _ _ _ H)
        as (video & Hget & _ & Ha & Hdb & _).
      unfold analyses_owned. eapply owned_set; [exact Hw| |exact Hdb].
      simpl. intros a Hin. apply in_app_or in Hin.
      destruct Hin as [Hin|[<-|[]]].
      * eapply Hw; eauto.
      * now subst analysis.
    + apply analyze_video_failure in H. now subst.
  - destruct (Py.get (videos_db w1) video_id) as [video|] eqn:Hget.
    + rewrite (delete_video_present w1 video_id Hget) in H.
      injection H as _ <-. unfold analyses_owned. cbn [videos_db].
      intros k v a Hk Ha.
      destruct (String.eqb k video_id) eqn:E.
      * apply String.eqb_eq in E. subst k. rewrite get_del_same in Hk.
        discriminate.
      * apply String.eqb_neq in E. rewrite get_del_other in Hk by auto.
        eapply Hw; eauto.
    + rewrite (delete_video_absent w1 video_id Hget) in H.
      now injection H as _ <-.
Qed.

(** X17. In every world reached from an empty catalog by creations,
    pipeline transitions, analyses and deletions, each record is stored
    under its own id and under no other key, and every analysis that
    [get_video_analyses] lists for a video names that video as its owner. *)
Theorem analyses_belong_to_their_video w0 w :
  videos_db w0 = [] ->
  reachable w0 w ->
  ids_match w /\
  NoDup (Py.keys (videos_db w)) /\
  forall video_id analyses w',
    VideoService.get_video_analyses video_id w = (Return analyses, w') ->
    Forall (fun a => VideoAnalysis.video_id a = video_id) analyses.
Proof.
  intros Hempty Hreach.
  split; [eapply reachable_ids_match; eauto|].
  split; [eapply reachable_nodup; eauto|].
  assert (Howned : analyses_owned w).
  { induction Hreach as [|w w' Hreach IH Hstep].
    - intros k v a H. rewrite Hempty in H. discriminate.
    - eapply step_owned; eauto. }
  intros video_id analyses w' Hrun.
  unfold VideoService.get_video_analyses in Hrun. revert Hrun. run.
  destruct (Py.get (videos_db w) video_id) as [v|] eqn:Hget; [|discriminate].
  intros [= <- _]. apply Forall_forall. intros a Ha.
  apply (Howned video_id v a Hget).
  unfold analyses_of. destruct (Video.analyses v) as [[|x l]|]; auto.
Qed.

Lemma sample_catalog_reachable : reachable Sample.empty Sample.catalog.
Proof.
  eapply reachable_trans; [|eapply reachable_trans].
  - eapply upload_video_reachable
      with (file := Sample.clip) (title := "First leg") (description := None)
           (sport_type := Some "soccer") (match_date := Some (Naive 0))
           (teams := Some ["Red"; "Blue"]).
    vm_compute. reflexivity.
  - eapply upload_video_reachable
      with (file := Sample.clip) (title := "Second leg") (description := None)
           (sport_type := Some "soccer")
           (match_date :=
              Some (Naive (30 * Sample.day + 12 * 3600 * Sample.second)))
           (teams := Some ["Blue"; "Green"]).
    vm_compute. reflexivity.
  - eapply upload_video_reachable
      with (file := Sample.clip) (title := "Final") (description := None)
           (sport_type := Some "basketball") (match_date := None)
           (teams := Some ["Bulls"; "Lakers"]).
    vm_compute. reflexivity.
Qed.

Lemma analyses_belong_to_their_video_witness :
  ids_match Sample.analysed /\
  exists analysis,
    VideoService.get_video_analyses "a" Sample.analysed
    = (Return [analysis], Sample.analysed) /\
    VideoAnalysis.video_id analysis = "a".
Proof.
  destruct (@analyses_belong_to_their_video Sample.empty Sample.analysed)
    as (H1 & _ & H2).
  - reflexivity.
  - eapply reachable_step; [apply sample_catalog_reachable|].
    eapply step_analyze
      with (video_id := "a") (analysis_request := Sample.goal_request).
    vm_compute. reflexivity.
  - split; [exact H1|]. eexists. split; [vm_compute; reflexivity|].
    specialize (H2 "a" _ _ eq_refl). now inversion H2.
Defined.

(* ================================================================== *)
(** * The routes *)
(* ================================================================== *)

Lemma reraise_500_raise str_exn {A} (c : M A) w e w' :
  Router.reraise_500 str_exn c w = (Raise e, w') ->
  exists e0, c w = (Raise e0, w') /\ e = HTTPException 500 (str_exn e0).
Proof.
  unfold Router.reraise_500.
  destruct (c w) as [[a|e0] w1]; [discriminate|].
  intros [= <- <-]. eauto.
Qed.

Lemma reraise_500_return str_exn {A} (c : M A) w a w' :
  Router.reraise_500 str_exn c w = (Return a, w') <-> c w = (Return a, w').
Proof.
  unfold Router.reraise_500.
  destruct (c w) as [[a0|e0] w1]; split; congruence.
Qed.

Lemma reraise_500_answers str_exn {A} (c : M A) w :
  answers_as str_exn (Router.reraise_500 str_exn c) c w.
Proof.
  split.
  - intros a w'. apply reraise_500_return.
  - intros e w'. split; [apply reraise_500_raise|].
    intros (e0 & Hc & ->). unfold Router.reraise_500. now rewrite Hc.
Qed.

Lemma delete_video_not_false w video_id w' :
  VideoService.delete_video video_id w <> (Return false, w').
Proof.
  destruct (Py.get (videos_db w) video_id) as [video|] eqn:Hget.
  - rewrite (delete_video_present w video_id Hget). discriminate.
  - rewrite (delete_video_absent w video_id Hget). discriminate.
Qed.

(** X18. The upload, analyze, analyses, recommendations and delete routes
    raise nothing but status 500, and exactly when the service raises:
    whatever exception [e] the service raises inside them, its 400 and 404
    included, leaves the route as a 500 whose detail is [str(e)], in the
    world that the service left.  What the service returns, the upload,
    analyze, analyses and recommendations routes return unchanged; the
    delete route returns its success message when the service returns
    [True], and its own failure message is never raised. *)
Theorem routes_answer_as_service str_exn w :
  (forall file title description sport_type match_date teams,
      answers_as str_exn
        (Router.upload_video str_exn file title description sport_type
                             match_date teams)
        (VideoService.upload_video file title description sport_type
                                   match_date (Router.parse_teams teams))
        w) /\
  (forall video_id request,
      answers_as str_exn
        (Router.analyze_video str_exn video_id request)
        (VideoService.analyze_video video_id request) w) /\
  (forall video_id,
      answers_as str_exn
        (Router.get_video_analyses str_exn video_id)
        (VideoService.get_video_analyses video_id) w) /\
  (forall video_id limit,
      answers_as str_exn
        (Router.get_video_recommendations str_exn video_id limit)
        (VideoService.get_video_recommendations video_id limit) w) /\
  (forall video_id,
      (forall answer w',
          Router.delete_video str_exn video_id w = (Return answer, w') <->
          VideoService.delete_video video_id w = (Return true, w') /\
          answer = JDict [("message", JStr "영상이 성공적으로 삭제되었습니다.")]) /\
      (forall e w',
          Router.delete_video str_exn video_id w = (Raise e, w') <->
          exists e0,
            VideoService.delete_video video_id w = (Raise e0, w') /\
            e = HTTPException 500 (str_exn e0))).
Proof.
  split; [intros; apply reraise_500_answers|].
  split; [intros; apply reraise_500_answers|].
  split; [intros; apply reraise_500_answers|].
  split; [intros; apply reraise_500_answers|].
  intros video_id.
  unfold Router.delete_video, Router.reraise_500, bind, ret, raise.
  pose proof (@delete_video_not_false w video_id) as Hnot.
  destruct (VideoService.delete_video video_id w) as [[[|]|e0] w1].
  - split.
    + intros answer w'. split.
      * intros [= <- <-]. auto.
      * intros [[= <-] ->]. reflexivity.
    + intros e w'. split; [discriminate|].
      intros (e1 & H & _). discriminate.
  - exfalso. now apply (Hnot w1).
  - split.
    + intros answer w'. split; [discriminate|].
      intros [H _]. discriminate.
    + intros e w'. split.
      * intros [= <- <-]. eauto.
      * intros (e1 & [= <- <-] & ->). reflexivity.
Qed.

Lemma routes_answer_as_service_witness :
  Router.upload_video Sample.render Sample.notes "Notes" None None None None
                      Sample.catalog
  = (Raise (HTTPException 500 "400: 지원하지 않는 파일 형식입니다."),
     Sample.catalog) /\
  Router.delete_video Sample.render "z" Sample.catalog
  = (Raise (HTTPException 500 "404: 영상을 찾을 수 없습니다."), Sample.catalog).
Proof.
  destruct (routes_answer_as_service Sample.render Sample.catalog)
    as (Hupload & _ & _ & _ & Hdelete).
  destruct (Hupload Sample.notes "Notes" None None None None) as [_ H1].
  destruct (Hdelete "z") as [_ H2].
  split.
  - apply H1. eexists. split; [vm_compute; reflexivity|reflexivity].
  - apply H2. eexists. split; [vm_compute; reflexivity|reflexivity].
Defined.

(** X19. For an id that is not in the catalog, only the route [get_video]
    answers 404.  The analyze, analyses, recommendations and delete routes
    answer 500, with the text of the service's 404 as detail, and change
    nothing. *)
Theorem routes_on_missing_video str_exn w video_id :
  Py.get (videos_db w) video_id = None ->
  Router.get_video video_id w = (Raise not_found, w) /\
  (forall request,
      Router.analyze_video str_exn video_id request w
      = (Raise (HTTPException 500 (str_exn not_found)), w)) /\
  Router.get_video_analyses str_exn video_id w
  = (Raise (HTTPException 500 (str_exn not_found)), w) /\
  (forall limit,
      Router.get_video_recommendations str_exn video_id limit w
      = (Raise (HTTPException 500 (str_exn not_found)), w)) /\
  Router.delete_video str_exn video_id w
  = (Raise (HTTPException 500 (str_exn not_found)), w).
Proof.
  intros Hget. unfold not_found.
  split; [|split; [|split; [|split]]].
  - unfold Router.get_video. run. now rewrite Hget.
  - intros request. unfold Router.analyze_video, Router.reraise_500.
    now rewrite (analyze_video_absent w video_id request Hget).
  - unfold Router.get_video_analyses, Router.reraise_500,
      VideoService.get_video_analyses. run. now rewrite Hget.
  - intros limit.
    unfold Router.get_video_recommendations, Router.reraise_500,
      VideoService.get_video_recommendations. run. now rewrite Hget.
  - unfold Router.delete_video, Router.reraise_500.
    unfold bind at 1. now rewrite (delete_video_absent w video_id Hget).
Qed.

Lemma routes_on_missing_video_witness :
  Router.get_video "z" Sample.catalog
  = (Raise (HTTPException 404 "영상을 찾을 수 없습니다."), Sample.catalog) /\
  Router.delete_video Sample.render "z" Sample.catalog
  = (Raise (HTTPException 500 "404: 영상을 찾을 수 없습니다."), Sample.catalog).
Proof.
  destruct (@routes_on_missing_video Sample.render Sample.catalog "z" eq_refl)
    as (H1 & _ & _ & _ & H2).
  split; [exact H1|exact H2].
Defined.

(** X20. On a stored video the route [get_video] returns the record, and
    the delete route answers the success message and removes the record:
    afterwards [get_video] answers 404 for that id and answers as before for
    every other id. *)
Theorem delete_route_removes str_exn w video_id video :
  Py.get (videos_db w) video_id = Some video ->
  exists w',
    Router.get_video video_id w = (Return video, w) /\
    Router.delete_video str_exn video_id w
    = (Return (JDict [("message", JStr "영상이 성공적으로 삭제되었습니다.")]), w') /\
    Router.get_video video_id w' = (Raise not_found, w') /\
    (forall k, k <> video_id ->
               fst (Router.get_video k w') = fst (Router.get_video k w)).
Proof.
  intros Hget. eexists.
  split; [unfold Router.get_video; run; now rewrite Hget|].
  split.
  { unfold Router.delete_video, Router.reraise_500. unfold bind at 1.
    rewrite (delete_video_present w video_id Hget). reflexivity. }
  split.
  { unfold Router.get_video, not_found. run. now rewrite get_del_same. }
  intros k Hk. unfold Router.get_video. run.
  rewrite get_del_other by auto.
  destruct (Py.get (videos_db w) k); reflexivity.
Qed.

Lemma delete_route_removes_witness :
  exists w',
    Router.delete_video Sample.render "b" Sample.catalog
    = (Return (JDict [("message", JStr "영상이 성공적으로 삭제되었습니다.")]), w') /\
    Router.get_video "b" w' = (Raise not_found, w').
Proof.
  destruct (@delete_route_removes Sample.render Sample.catalog "b" _ eq_refl)
    as (w' & _ & H1 & H2 & _).
  exists w'. split; [exact H1|exact H2].
Defined.

(** X21. The route [list_videos] filters the page that [get_video_history]
    returns, so it lists a part of that page, never more.  With a non-empty
    sport type every video listed has that sport type; with a non-empty
    status every video listed has that status value, and a status that is
    none of the four values lists nothing; with neither filter the page is
    returned as it is.  Listing changes nothing. *)
Theorem list_videos_filters w sport_type status limit offset :
  exists page listed,
    VideoService.get_video_history limit offset w = (Return page, w) /\
    Router.list_videos sport_type status limit offset w = (Return listed, w) /\
    (forall v, In v listed -> In v page) /\
    (List.length listed <= List.length page)%nat /\
    (Py.truthy_str sport_type = true ->
     Forall (fun v => Video.sport_type v = sport_type) listed) /\
    (forall s, status = Some s -> s <> "" ->
               Forall (fun v => VideoStatus_value (Video.status v) = s) listed) /\
    (forall s, status = Some s -> s <> "" ->
               ~ In s ["uploading"; "processing"; "completed"; "failed"] ->
               listed = []) /\
    (Py.truthy_str sport_type = false -> Py.truthy_str status = false ->
     listed = page).
Proof.
  eexists _, _. split; [apply get_video_history_eq|].
  split.
  { unfold Router.list_videos.
    erewrite bind_return by apply get_video_history_eq. reflexivity. }
  set (page := Py.slice (by_creation w) offset (offset + limit)).
  set (by_sport :=
         if Py.truthy_str sport_type
         then filter (fun v => Py.opt_str_eqb (Video.sport_type v) sport_type)
                     page
         else page).
  assert (Hsport : forall v, In v by_sport -> In v page).
  { intros v. unfold by_sport. destruct (Py.truthy_str sport_type); auto.
    rewrite filter_In. tauto. }
  assert (Hlen : (List.length by_sport <= List.length page)%nat).
  { unfold by_sport. destruct (Py.truthy_str sport_type); auto.
    apply filter_length_le. }
  split; [|split; [|split; [|split; [|split]]]].
  - intros v. destruct status as [s|]; auto.
    destruct (String.eqb s ""); auto. rewrite filter_In. intros [H _]. auto.
  - destruct status as [s|]; auto. destruct (String.eqb s ""); auto.
    etransitivity; [apply filter_length_le|exact Hlen].
  - intros Ht. apply Forall_forall. intros v Hv.
    assert (Hin : In v by_sport).
    { destruct status as [s|]; auto. destruct (String.eqb s ""); auto.
      apply filter_In in Hv. tauto. }
    unfold by_sport in Hin. rewrite Ht in Hin. apply filter_In in Hin.
    destruct Hin as [_ Heq]. unfold Py.opt_str_eqb in Heq.
    destruct (Video.sport_type v) as [x|], sport_type as [y|];
      try discriminate.
    apply String.eqb_eq in Heq. now subst.
  - intros s -> Hs. apply String.eqb_neq in Hs. rewrite Hs.
    apply Forall_forall. intros v Hv. apply filter_In in Hv.
    destruct Hv as [_ Hv]. now apply String.eqb_eq in Hv.
  - intros s -> Hs Hnone. apply String.eqb_neq in Hs. rewrite Hs.
    destruct (filter _ by_sport) as [|v l] eqn:E; auto.
    assert (Hv : In v (v :: l)) by now left.
    rewrite <- E in Hv. apply filter_In in Hv. destruct Hv as [_ Hv].
    apply String.eqb_eq in Hv. exfalso. apply Hnone. rewrite <- Hv.
    destruct (Video.status v); simpl; auto.
  - intros Hsp Hst. unfold by_sport. rewrite Hsp.
    destruct status as [s|]; auto. simpl in Hst.
    destruct (String.eqb s ""); [auto|discriminate].
Qed.

Lemma list_videos_filters_witness :
  exists basketball nothing,
    Router.list_videos (Some "basketball") (Some "completed") 20 0
                       Sample.catalog
    = (Return basketball, Sample.catalog) /\
    map Video.id basketball = ["c"] /\
    Router.list_videos None (Some "done") 20 0 Sample.catalog
    = (Return nothing, Sample.catalog) /\
    nothing = [].
Proof.
  destruct (list_videos_filters Sample.catalog None (Some "done") 20 0)
    as (page & nothing & _ & H1 & _ & _ & _ & _ & H2 & _).
  eexists _, nothing. split; [vm_compute; reflexivity|].
  split; [reflexivity|]. split; [exact H1|].
  apply (H2 "done"); [reflexivity|discriminate|].
  simpl. intros [H|[H|[H|[H|[]]]]]; discriminate.
Defined.

Lemma lstrip_suffix chars l :
  exists p, l = p ++ Py.lstrip_list chars l.
Proof.
  induction l as [|c l [p IH]]; simpl.
  - exists []. reflexivity.
  - destruct (existsb (Ascii.eqb c) chars).
    + exists (c :: p). simpl. now f_equal.
    + exists []. reflexivity.
Qed.

Lemma lstrip_head chars l c tail :
  Py.lstrip_list chars l = c :: tail -> existsb (Ascii.eqb c) chars = false.
Proof.
  induction l as [|x l IH]; simpl; [discriminate|].
  destruct (existsb (Ascii.eqb x) chars) eqn:E; auto.
  intros [= <- _]. exact E.
Qed.

Lemma strip_list_prefix l :
  exists q, Py.lstrip_list Py.whitespace l = Py.strip_list l ++ q.
Proof.
  unfold Py.strip_list.
  destruct (lstrip_suffix Py.whitespace
              (rev (Py.lstrip_list Py.whitespace l))) as [p Hp].
  exists (rev p).
  rewrite <- rev_app_distr, <- Hp. now rewrite rev_involutive.
Qed.

Lemma strip_list_in l c : In c (Py.strip_list l) -> In c l.
Proof.
  intros H. destruct (strip_list_prefix l) as [q Hq].
  destruct (lstrip_suffix Py.whitespace l) as [p Hp].
  rewrite Hp, Hq. apply in_or_app. right. apply in_or_app. now left.
Qed.

Lemma strip_list_first l c :
  hd_error (Py.strip_list l) = Some c ->
  existsb (Ascii.eqb c) Py.whitespace = false.
Proof.
  intros H. destruct (strip_list_prefix l) as [q Hq].
  destruct (Py.strip_list l) as [|x tail]; [discriminate|].
  injection H as ->. simpl in Hq. eapply lstrip_head; eauto.
Qed.

Lemma strip_list_last l c :
  hd_error (rev (Py.strip_list l)) = Some c ->
  existsb (Ascii.eqb c) Py.whitespace = false.
Proof.
  unfold Py.strip_list. rewrite rev_involutive. intros H.
  destruct (Py.lstrip_list Py.whitespace
              (rev (Py.lstrip_list Py.whitespace l))) as [|x tail] eqn:E;
    [discriminate|].
  injection H as ->. eapply lstrip_head; eauto.
Qed.

Lemma split_list_no_sep sep l piece :
  In piece (Py.split_list sep l) -> ~ In sep piece.
Proof.
  revert piece. induction l as [|c l IH]; simpl.
  - intros piece [<-|[]] [].
  - destruct (Ascii.eqb c sep) eqn:E.
    + intros piece [<-|H]; [intros []|auto].
    + apply Ascii.eqb_neq in E.
      destruct (Py.split_list sep l) as [|first pieces].
      * intros piece [<-|[]] [H|[]]. congruence.
      * intros piece [<-|H].
        -- intros [H|H]; [congruence|]. apply (IH first); auto. now left.
        -- apply IH. now right.
Qed.

Lemma not_whitespace c :
  existsb (Ascii.eqb c) Py.whitespace = false -> ~ In c Py.whitespace.
Proof.
  intros H Hin.
  assert (existsb (Ascii.eqb c) Py.whitespace = true).
  { apply existsb_exists. exists c. split; auto. apply Ascii.eqb_refl. }
  congruence.
Qed.

(** X22. The team list that the upload route parses from its form field is
    absent when the field is absent or empty.  Otherwise every team in it is
    a non-empty name without a comma that neither begins nor ends with a
    whitespace character: the pieces between the commas are trimmed and the
    blank ones dropped. *)
Theorem parse_teams_clean teams :
  (teams = None \/ teams = Some "" -> Router.parse_teams teams = None) /\
  (forall s, teams = Some s -> s <> "" ->
             exists l, Router.parse_teams teams = Some l) /\
  (forall l,
      Router.parse_teams teams = Some l ->
      Forall (fun t =>
                t <> "" /\
                ~ In ","%char (Py.char_list t) /\
                (forall c, hd_error (Py.char_list t) = Some c ->
                           ~ In c Py.whitespace) /\
                (forall c, last_char t = Some c -> ~ In c Py.whitespace))
             l).
Proof.
  split; [|split].
  - intros [->| ->]; reflexivity.
  - intros s -> Hs. apply String.eqb_neq in Hs. simpl. rewrite Hs. eauto.
  - intros l Hl. unfold Router.parse_teams in Hl.
    destruct teams as [s|]; [|discriminate].
    destruct (String.eqb s ""); [discriminate|].
    injection Hl as <-. apply Forall_forall. intros t Ht.
    apply in_map_iff in Ht. destruct Ht as (team & <- & Hteam).
    apply filter_In in Hteam. destruct Hteam as [Hin Hne].
    unfold Py.split in Hin. apply in_map_iff in Hin.
    destruct Hin as (piece & <- & Hpiece).
    apply negb_true_iff, String.eqb_neq in Hne.
    unfold last_char, Py.strip, Py.char_list in *.
    rewrite !list_ascii_of_string_of_list_ascii in *.
    split; [exact Hne|]. split; [|split].
    + intros H. apply strip_list_in in H.
      revert H. eapply split_list_no_sep; eauto.
    + intros c Hc. apply not_whitespace. eapply strip_list_first; eauto.
    + intros c Hc. apply not_whitespace. apply (strip_list_last piece).
      destruct (rev (Py.strip_list piece)); [discriminate|].
      now injection Hc as ->.
Qed.

Lemma parse_teams_clean_witness :
  Router.parse_teams (Some " Red , Blue,, ") = Some ["Red"; "Blue"] /\
  Forall (fun t => t <> "" /\ ~ In ","%char (Py.char_list t))
         ["Red"; "Blue"].
Proof.
  split; [reflexivity|].
  destruct (parse_teams_clean (Some " Red , Blue,, ")) as (_ & _ & H).
  specialize (H _ eq_refl).
  eapply Forall_impl; [|exact H]. simpl. tauto.
Defined.

(* ================================================================== *)
(** * The analysis provider and the sport detector *)
(* ================================================================== *)

(** X23. [analyze_video_content] never raises.  When the video cannot be
    opened, or opening it raises, it returns an error payload without any
    results and changes nothing; when the video opens, it reads the clock
    once and returns a payload that is not an error payload and carries the
    analysis type, the time read and the results. *)
Theorem analyze_video_content_outcome w video_path analysis_type :
  (capture (env w) video_path <> CaptureOpened ->
   exists payload,
     VideoUtils.analyze_video_content video_path analysis_type w
     = (Return payload, w) /\
     is_error_payload payload = true /\
     field "results" payload = None) /\
  (capture (env w) video_path = CaptureOpened ->
   exists payload results w',
     VideoUtils.analyze_video_content video_path analysis_type w
     = (Return payload, w') /\
     is_error_payload payload = false /\
     field "analysis_type" payload = Some (JStr analysis_type) /\
     field "timestamp" payload
     = Some (JStr (isoformat (env w) (now_at (env w) (ticks w)))) /\
     field "results" payload = Some results /\
     ticks w' = S (ticks w) /\
     videos_db w' = videos_db w /\
     analyses_db w' = analyses_db w).
Proof.
  unfold VideoUtils.analyze_video_content. run. split.
  - intros H. destruct (capture (env w) video_path); [| |congruence];
      eexists; repeat split.
  - intros ->. eexists _, _, _. repeat split.
Qed.

Lemma analyze_video_content_outcome_witness :
  exists payload results w',
    VideoUtils.analyze_video_content "uploads/a.mp4" "goal_detection"
                                     Sample.catalog
    = (Return payload, w') /\
    field "results" payload = Some results /\
    results = VideoUtils.detect_goals.
Proof.
  destruct (analyze_video_content_outcome Sample.catalog "uploads/a.mp4"
              "goal_detection") as [_ H].
  destruct (H eq_refl) as (payload & results & w' & H1 & _ & _ & _ & H2 & _).
  exists payload, results, w'. split; [exact H1|]. split; [exact H2|].
  vm_compute in H1. injection H1 as <- _. simpl in H2. now injection H2 as <-.
Defined.

Lemma range_in start stop step i :
  0 < step ->
  In i (Py.range start stop step) ->
  start <= i < stop /\ (i - start) mod step = 0.
Proof.
  intros Hstep Hin. unfold Py.range in Hin.
  apply in_map_iff in Hin. destruct Hin as (k & <- & Hk).
  apply in_seq in Hk.
  assert (Hq : Z.of_nat k < (stop - start + step - 1) / step) by lia.
  assert (Hmul : step * ((stop - start + step - 1) / step)
                 <= stop - start + step - 1)
    by (apply Z.mul_div_le; lia).
  split; [nia|].
  replace (start + Z.of_nat k * step - start) with (Z.of_nat k * step) by lia.
  apply Z.mod_mul. lia.
Qed.

Lemma sample_positions_none total_frames :
  total_frames <= 0 -> VideoUtils.sample_positions total_frames = [].
Proof.
  intros H. unfold VideoUtils.sample_positions, Py.range.
  pose proof (Z.div_mod total_frames 10 ltac:(lia)) as Hdm.
  pose proof (Z.mod_pos_bound total_frames 10 ltac:(lia)) as Hmb.
  rewrite Z.min_l by lia.
  assert (Hs : total_frames / 10 <= 0) by lia.
  rewrite Z.max_l by lia.
  replace (Z.to_nat ((total_frames - 0 + 1 - 1) / 1)) with 0%nat; auto.
  rewrite Z.div_1_r. lia.
Qed.

(** X24. The sampling loop of [detect_sport_type] looks at no frame beyond
    the thirtieth and at no position outside the video: every sampled
    position is at least 0, below the frame count and below 30.  It samples
    at most 19 positions, none when the frame count is zero or negative, and
    always position 0 when there is a frame. *)
Theorem sample_positions_bounds total_frames :
  Forall (fun i => 0 <= i < total_frames /\ i < 30)
         (VideoUtils.sample_positions total_frames) /\
  (List.length (VideoUtils.sample_positions total_frames) <= 19)%nat /\
  (total_frames <= 0 -> VideoUtils.sample_positions total_frames = []) /\
  (0 < total_frames -> In 0 (VideoUtils.sample_positions total_frames)).
Proof.
  unfold VideoUtils.sample_positions.
  split; [|split; [|split]].
  - apply Forall_forall. intros i Hi.
    apply range_in in Hi; lia.
  - unfold Py.range. rewrite length_map, length_seq.
    pose proof (Z.div_mod total_frames 10 ltac:(lia)) as Hdm.
    pose proof (Z.mod_pos_bound total_frames 10 ltac:(lia)) as Hmb.
    destruct (Z_lt_le_dec total_frames 30) as [Hlt|Hge].
    + rewrite Z.min_l by lia.
      assert (Hstep : total_frames / 10 <= 0 \/ total_frames / 10 = 1
                      \/ total_frames / 10 = 2) by lia.
      destruct Hstep as [Hs|[Hs|Hs]].
      * rewrite Z.max_l by lia.
        replace (total_frames - 0 + 1 - 1) with total_frames by lia.
        rewrite Z.div_1_r. lia.
      * rewrite Hs. rewrite Z.max_l by lia.
        replace (total_frames - 0 + 1 - 1) with total_frames by lia.
        rewrite Z.div_1_r. lia.
      * rewrite Hs. rewrite Z.max_r by lia.
        assert ((total_frames - 0 + 2 - 1) / 2 < 16)
          by (apply Z.div_lt_upper_bound; lia).
        lia.
    + rewrite Z.min_r by lia.
      assert (Hs : 3 <= total_frames / 10) by lia.
      rewrite Z.max_r by lia.
      assert ((30 - 0 + total_frames / 10 - 1) / (total_frames / 10) < 11).
      { apply Z.div_lt_upper_bound; lia. }
      lia.
  - apply sample_positions_none.
  - intros H. unfold Py.range. apply in_map_iff. exists 0%nat.
    split; [reflexivity|]. apply in_seq.
    assert (0 < (Z.min total_frames 30 - 0 + Z.max 1 (total_frames / 10) - 1)
                / Z.max 1 (total_frames / 10)).
    { apply Z.div_str_pos. lia. }
    lia.
Qed.

(** X25. [detect_sport_type] never raises and answers ["unknown"] or one of
    the five sports.  It answers a sport exactly when the video opens and at
    least one sampled frame can be read; in particular a video without
    frames is ["unknown"].  Only a failure to open the decoder is printed. *)
Theorem detect_sport_type_outcome footage pick video_path w :
  exists sport w',
    VideoUtils.detect_sport_type footage pick video_path w
    = (Return sport, w') /\
    In sport ("unknown" :: VideoUtils.sports) /\
    videos_db w' = videos_db w /\
    analyses_db w' = analyses_db w /\
    (In sport VideoUtils.sports <->
     capture (env w) video_path = CaptureOpened /\
     exists i,
       In i (VideoUtils.sample_positions (VideoUtils.total_frames footage)) /\
       VideoUtils.frame_read footage i = true) /\
    (VideoUtils.total_frames footage <= 0 -> sport = "unknown").
Proof.
  assert (Hunknown : ~ In "unknown" VideoUtils.sports).
  { simpl. intros [H|[H|[H|[H|[H|[]]]]]]; discriminate. }
  assert (Hpick : In (nth (pick mod List.length VideoUtils.sports)
                          VideoUtils.sports "unknown") VideoUtils.sports).
  { apply nth_In. apply Nat.mod_upper_bound. discriminate. }
  unfold VideoUtils.detect_sport_type. run.
  destruct (capture (env w) video_path) as [message| |] eqn:Hcap.
  - eexists _, _. split; [reflexivity|]. cbn [videos_db analyses_db].
    split; [now left|]. split; [reflexivity|]. split; [reflexivity|].
    split; [split|reflexivity].
    + intros Hs. exfalso. exact (Hunknown Hs).
    + intros (Hc & _). discriminate.
  - eexists _, _. split; [reflexivity|].
    split; [now left|]. split; [reflexivity|]. split; [reflexivity|].
    split; [split|reflexivity].
    + intros Hs. exfalso. exact (Hunknown Hs).
    + intros (Hc & _). discriminate.
  - destruct (filter (VideoUtils.frame_read footage)
                (VideoUtils.sample_positions (VideoUtils.total_frames footage)))
      as [|i sampled] eqn:Hsampled.
    + eexists _, _. split; [reflexivity|].
      split; [now left|]. split; [reflexivity|]. split; [reflexivity|].
      split; [split|reflexivity].
      * intros Hs. exfalso. exact (Hunknown Hs).
      * intros (_ & i & Hi & Hr).
        assert (Hin : In i (filter (VideoUtils.frame_read footage)
                              (VideoUtils.sample_positions
                                 (VideoUtils.total_frames footage))))
          by (apply filter_In; auto).
        rewrite Hsampled in Hin. destruct Hin.
    + eexists _, _. split; [reflexivity|].
      split; [now right|]. split; [reflexivity|]. split; [reflexivity|].
      split; [split|].
      * intros _. split; [reflexivity|]. exists i.
        assert (Hin : In i (i :: sampled)) by now left.
        rewrite <- Hsampled in Hin. now apply filter_In in Hin.
      * intros _. exact Hpick.
      * intros Hzero.
        rewrite sample_positions_none in Hsampled by exact Hzero. discriminate.
Qed.

Lemma detect_sport_type_outcome_witness :
  exists sport w',
    VideoUtils.detect_sport_type
      {| VideoUtils.total_frames := 250;
         VideoUtils.frame_read := fun i => 25 <=? i |}
      7 "uploads/a.mp4" Sample.catalog
    = (Return sport, w') /\
    sport = "baseball" /\
    VideoUtils.sample_positions 250 = [0; 25].
Proof.
  destruct (detect_sport_type_outcome
              {| VideoUtils.total_frames := 250;
                 VideoUtils.frame_read := fun i => 25 <=? i |}
              7 "uploads/a.mp4" Sample.catalog)
    as (sport & w' & H1 & _).
  exists sport, w'. split; [exact H1|].
  vm_compute in H1. injection H1 as <- _. split; reflexivity.
Defined.
